(** * SDM120 energy meter bridge (Modbus TCP to MQTT): model and properties

    A shallow embedding of [main/sdm120-app.c]: the word-swapped IEEE-754
    decoding of the meter's registers, the batch reader with its per-parameter
    retry loop, the MQTT publisher and the polling task.

    Conventions.
    - A C [uint32_t] is a [Z] in [[0, 2^32)]; a C [float] is held as its
      object representation, the 32-bit IEEE-754 binary32 pattern, and
      [IEEE754.float_value] gives the number that pattern denotes.
    - Calls into ESP-IDF, esp-modbus, esp-mqtt and FreeRTOS are events of a
      trace.  What the outside world answers is given by an [environment],
      whose answers may depend on everything that happened before.
    - [ESP_LOGE], [ESP_LOGW] and [ESP_LOGI] lines are events too (the block
      of lines that prints one reading is a single event); [ESP_LOGD] lines
      and empty lines are left out. *)

From Stdlib Require Import ZArith List Bool Lia String Ascii PeanoNat.
From Stdlib Require Import Floats.SpecFloat.
Import ListNotations.

Local Open Scope Z_scope.

(** ** IEEE-754 binary32 *)

Module IEEE754.

Definition prec : Z := 24.
Definition emax : Z := 128.

(** A C [float], as the 32 bits stored in memory. *)
Definition float : Type := Z.

Definition sign_bit (s : bool) : Z := if s then 2 ^ 31 else 0.

(** The value denoted by a binary32 pattern: sign (bit 31), biased
    exponent (bits 30..23), fraction (bits 22..0). *)
Definition float_value (x : float) : spec_float :=
  let s := Z.odd (x / 2 ^ 31) in
  let e := (x / 2 ^ 23) mod 2 ^ 8 in
  let m := x mod 2 ^ 23 in
  if e =? 0 then
    match m with
    | Zpos p => S754_finite s p (-149)
    | _ => S754_zero s
    end
  else if e =? 255 then
    if m =? 0 then S754_infinity s else S754_nan
  else
    match m + 2 ^ 23 with
    | Zpos p => S754_finite s p (e - 150)
    | _ => S754_nan
    end.

(** The pattern of a binary32 value (the quiet NaN for [S754_nan]). *)
Definition float_of_value (v : spec_float) : float :=
  match v with
  | S754_zero s => sign_bit s
  | S754_infinity s => sign_bit s + 255 * 2 ^ 23
  | S754_nan => 0x7FC00000
  | S754_finite s m e =>
      if Zpos m <? 2 ^ 23 then sign_bit s + Zpos m
      else sign_bit s + (e + 150) * 2 ^ 23 + (Zpos m - 2 ^ 23)
  end.

Definition is_binary32 (v : spec_float) : bool := valid_binary prec emax v.

(** 1.0f, that is 2^23 * 2^-23. *)
Definition one : spec_float := S754_finite false 8388608 (-23).

(** The conversion of an [int] to [float], for integers of at most 24 bits,
    which it represents exactly. *)
Definition float_of_int (n : Z) : spec_float :=
  match n with
  | Z0 => S754_zero false
  | Zpos p =>
      let shift := 24 - Zpos (digits2_pos p) in
      S754_finite false (Pos.shiftl p (Z.to_N shift)) (- shift)
  | Zneg p =>
      let shift := 24 - Zpos (digits2_pos p) in
      S754_finite true (Pos.shiftl p (Z.to_N shift)) (- shift)
  end.

(** The promotion of a [float] to [double]: the same number, written with a
    mantissa of 53 bits. *)
Definition promote (v : spec_float) : spec_float :=
  match v with
  | S754_finite s m e =>
      let shift := 53 - Zpos (digits2_pos m) in
      S754_finite s (Pos.shiftl m (Z.to_N shift)) (e - shift)
  | _ => v
  end.

(** The [double] constants 1.1 and -1.1: the binary64 numbers nearest to
    11/10, of pattern 0x3FF199999999999A up to the sign. *)
Definition double_1_1 : spec_float := S754_finite false 4953959590107546 (-52).
Definition double_minus_1_1 : spec_float := S754_finite true 4953959590107546 (-52).

(** [v < n] and [v > n] for a [float] [v] and an [int] constant [n]: the
    constant is converted to [float]. *)
Definition float_lt_int (v : float) (n : Z) : bool :=
  SFltb (float_value v) (float_of_int n).
Definition float_gt_int (v : float) (n : Z) : bool :=
  SFltb (float_of_int n) (float_value v).

(** [v < c] and [v > c] for a [float] [v] and a [double] constant [c]: the
    float is promoted to [double]. *)
Definition float_lt_double (v : float) (c : spec_float) : bool :=
  SFltb (promote (float_value v)) c.
Definition float_gt_double (v : float) (c : spec_float) : bool :=
  SFltb c (promote (float_value v)).

End IEEE754.

Import IEEE754.

(** ** The [converter] union of [convert_sdm120_ieee754]

    The members [f], [u32], [words[2]] and [bytes[4]] share four bytes of
    storage; the ESP32 is little-endian. *)

Record converter_t : Type := {
  bytes0 : Z;
  bytes1 : Z;
  bytes2 : Z;
  bytes3 : Z
}.

Definition set_u32 (v : Z) : converter_t :=
  {| bytes0 := v mod 256;
     bytes1 := (v / 2 ^ 8) mod 256;
     bytes2 := (v / 2 ^ 16) mod 256;
     bytes3 := (v / 2 ^ 24) mod 256 |}.

Definition get_words (i : nat) (c : converter_t) : Z :=
  match i with
  | O => bytes0 c + 256 * bytes1 c
  | _ => bytes2 c + 256 * bytes3 c
  end.

Definition set_words (i : nat) (v : Z) (c : converter_t) : converter_t :=
  match i with
  | O => {| bytes0 := v mod 256; bytes1 := (v / 2 ^ 8) mod 256;
            bytes2 := bytes2 c; bytes3 := bytes3 c |}
  | _ => {| bytes0 := bytes0 c; bytes1 := bytes1 c;
            bytes2 := v mod 256; bytes3 := (v / 2 ^ 8) mod 256 |}
  end.

Definition get_f (c : converter_t) : float :=
  bytes0 c + 2 ^ 8 * bytes1 c + 2 ^ 16 * bytes2 c + 2 ^ 24 * bytes3 c.

(** [static float convert_sdm120_ieee754(uint32_t raw_u32)] *)
Definition convert_sdm120_ieee754 (raw_u32 : Z) : float :=
  let converter := set_u32 raw_u32 in
  let temp := get_words 0 converter in
  let converter := set_words 0 (get_words 1 converter) converter in
  let converter := set_words 1 temp converter in
  get_f converter.

(** The payload of the round-trip test of the specification: the four bytes
    of a float with the two 16-bit halves exchanged, written with shifts and
    masks on the 32-bit pattern. *)
Definition word_swapped_payload (f : float) : Z :=
  Z.lor (Z.shiftl (Z.land f 0xFFFF) 16) (Z.land (Z.shiftr f 16) 0xFFFF).

(** ** ESP-IDF types and the meter's data *)

Local Open Scope string_scope.
Local Open Scope list_scope.
Local Open Scope Z_scope.

(** The [esp_err_t] codes that this program and the libraries it calls
    return. *)
Inductive esp_err_t : Type :=
| ESP_OK
| ESP_FAIL
| ESP_ERR_NO_MEM
| ESP_ERR_INVALID_ARG
| ESP_ERR_INVALID_STATE
| ESP_ERR_NOT_FOUND
| ESP_ERR_NOT_SUPPORTED
| ESP_ERR_TIMEOUT
| ESP_ERR_INVALID_RESPONSE.

Definition esp_err_eq_dec (a b : esp_err_t) : {a = b} + {a <> b}.
Proof. decide equality. Defined.

Definition is_ESP_OK (e : esp_err_t) : bool :=
  if esp_err_eq_dec e ESP_OK then true else false.

Definition is_ESP_ERR_TIMEOUT (e : esp_err_t) : bool :=
  if esp_err_eq_dec e ESP_ERR_TIMEOUT then true else false.

(** The CID enumeration. *)
Definition CID_VOLTAGE : nat := 0.
Definition CID_CURRENT : nat := 1.
Definition CID_ACTIVE_POWER : nat := 2.
Definition CID_APPARENT_POWER : nat := 3.
Definition CID_REACTIVE_POWER : nat := 4.
Definition CID_POWER_FACTOR : nat := 5.
Definition CID_FREQUENCY : nat := 6.
Definition CID_IMPORT_ACTIVE_ENERGY : nat := 7.
Definition CID_EXPORT_ACTIVE_ENERGY : nat := 8.
Definition CID_TOTAL_ACTIVE_ENERGY : nat := 9.
Definition CID_COUNT : nat := 10.

Record sdm120_data_t : Type := {
  voltage : float;
  current : float;
  active_power : float;
  apparent_power : float;
  reactive_power : float;
  power_factor : float;
  frequency : float;
  import_active_energy : float;
  export_active_energy : float;
  total_active_energy : float
}.

(** [memset(data, 0, sizeof(sdm120_data_t))]: every float is +0.0. *)
Definition zeroed_data : sdm120_data_t :=
  {| voltage := 0; current := 0; active_power := 0; apparent_power := 0;
     reactive_power := 0; power_factor := 0; frequency := 0;
     import_active_energy := 0; export_active_energy := 0;
     total_active_energy := 0 |}.

(** The field that belongs to a CID, if there is one. *)
Definition field_of_cid (cid : nat) (d : sdm120_data_t) : option float :=
  match cid with
  | 0 => Some (voltage d)
  | 1 => Some (current d)
  | 2 => Some (active_power d)
  | 3 => Some (apparent_power d)
  | 4 => Some (reactive_power d)
  | 5 => Some (power_factor d)
  | 6 => Some (frequency d)
  | 7 => Some (import_active_energy d)
  | 8 => Some (export_active_energy d)
  | 9 => Some (total_active_energy d)
  | _ => None
  end%nat.

(** The stores of the [switch (cid)] of [read_sdm120_data]; the result is
    [None] in the [default] case, which stores nothing. *)
Definition store_converted_value (cid : nat) (converted_value : float)
    (d : sdm120_data_t) : option sdm120_data_t :=
  let 'Build_sdm120_data_t v c ap app rp pf fr ie ee te := d in
  match cid with
  | 0 => Some (Build_sdm120_data_t converted_value c ap app rp pf fr ie ee te)
  | 1 => Some (Build_sdm120_data_t v converted_value ap app rp pf fr ie ee te)
  | 2 => Some (Build_sdm120_data_t v c converted_value app rp pf fr ie ee te)
  | 3 => Some (Build_sdm120_data_t v c ap converted_value rp pf fr ie ee te)
  | 4 => Some (Build_sdm120_data_t v c ap app converted_value pf fr ie ee te)
  | 5 => Some (Build_sdm120_data_t v c ap app rp converted_value fr ie ee te)
  | 6 => Some (Build_sdm120_data_t v c ap app rp pf converted_value ie ee te)
  | 7 => Some (Build_sdm120_data_t v c ap app rp pf fr converted_value ee te)
  | 8 => Some (Build_sdm120_data_t v c ap app rp pf fr ie converted_value te)
  | 9 => Some (Build_sdm120_data_t v c ap app rp pf fr ie ee converted_value)
  | _ => None
  end%nat.

(** The fields of [mb_parameter_descriptor_t] that this program sets apart
    from one entry to the next. *)
Record mb_parameter_descriptor_t : Type := {
  cid : nat;
  param_key : string;
  param_units : string;
  mb_reg_start : Z;
  mb_size : Z
}.

Definition sdm120_cid_table : list mb_parameter_descriptor_t :=
  [ Build_mb_parameter_descriptor_t CID_VOLTAGE "Voltage" "V" 0x0000 2;
    Build_mb_parameter_descriptor_t CID_CURRENT "Current" "A" 0x0006 2;
    Build_mb_parameter_descriptor_t CID_ACTIVE_POWER "Active_Power" "W" 0x000C 2;
    Build_mb_parameter_descriptor_t CID_APPARENT_POWER "Apparent_Power" "VA" 0x0012 2;
    Build_mb_parameter_descriptor_t CID_REACTIVE_POWER "Reactive_Power" "VAr" 0x0018 2;
    Build_mb_parameter_descriptor_t CID_POWER_FACTOR "Power_Factor" "" 0x001E 2;
    Build_mb_parameter_descriptor_t CID_FREQUENCY "Frequency" "Hz" 0x0046 2;
    Build_mb_parameter_descriptor_t CID_IMPORT_ACTIVE_ENERGY "Import_Active_Energy" "kWh" 0x0048 2;
    Build_mb_parameter_descriptor_t CID_EXPORT_ACTIVE_ENERGY "Export_Active_Energy" "kWh" 0x004A 2;
    Build_mb_parameter_descriptor_t CID_TOTAL_ACTIVE_ENERGY "Total_Active_Energy" "kWh" 0x0156 2 ].

Definition sdm120_cid_count : nat := List.length sdm120_cid_table.

(** ** Events, environment and the monad of the model *)

Inductive esp_log_level_t : Type := ESP_LOG_ERROR | ESP_LOG_WARN | ESP_LOG_INFO.

(** The log lines of the modelled functions, named after what they say. *)
Inductive log_line : Type :=
| LOG_INVALID_DATA_POINTER
| LOG_READING_PARAMETERS (count : nat)
| LOG_NO_CID_INFO (cid : nat) (err : esp_err_t)
| LOG_RETRY (retry max_retries : nat) (cid : nat) (err : esp_err_t) (delay_ms : Z)
| LOG_UNREALISTIC_VOLTAGE (value : float)
| LOG_UNREALISTIC_FREQUENCY (value : float)
| LOG_UNREALISTIC_POWER_FACTOR (value : float)
| LOG_HIGH_ENERGY_READING (cid : nat)
| LOG_UNKNOWN_CID (cid : nat)
| LOG_READ_FAILED (cid : nat) (retry_count : nat) (err : esp_err_t)
| LOG_MULTIPLE_TIMEOUTS
| LOG_READING_COMPLETED (success_count total timeout_count : nat)
| LOG_ALL_PARAMETERS_FAILED
| LOG_HIGH_TIMEOUT_RATE
| LOG_CHECKING_CONNECTIVITY
| LOG_NETIF_NOT_INITIALIZED
| LOG_NETIF_DOWN
| LOG_WIFI_NOT_CONNECTED
| LOG_NETIF_UP
| LOG_MQTT_NOT_CONNECTED
| LOG_INVALID_PUBLISH_POINTER
| LOG_PUBLISH_FAILED
| LOG_PUBLISHED_DATA (topic : string) (msg_id : Z)
| LOG_PUBLISHED_INDIVIDUAL (count : nat)
| LOG_TASK_STARTED
| LOG_READING_REPORT (read_count : Z) (d : sdm120_data_t)
| LOG_DATA_PUBLISHED
| LOG_MQTT_PUBLISH_FAILED (err : esp_err_t)
| LOG_FAILED_TO_READ (read_count : Z)
| LOG_RECOVERY_DELAY.

(** What [esp_mqtt_client_publish] is given as data: the JSON object with
    all measurements, one measurement printed with a fixed number of
    decimals, or a literal text. *)
Inductive payload : Type :=
| JsonPayload (timestamp : Z) (d : sdm120_data_t) (device_ip : string)
| DecimalPayload (decimals : nat) (value : float)
| TextPayload (text : string).

Inductive event : Type :=
| EvLog (level : esp_log_level_t) (line : log_line)
| EvDelay (ms : Z)
| EvGetCidInfo (cid : nat) (err : esp_err_t) (found : bool)
| EvGetParameter (cid : nat) (key : string) (err : esp_err_t) (raw : Z)
| EvNetifIsUp (up : bool)
| EvPublish (topic : string) (data : payload) (qos retain : Z) (msg_id : Z).

(** The outside world.  Every answer may depend on the whole history of
    events: the field-bus device, the broker client, the timer, and the flags
    that other tasks and event handlers write ([mqtt_connected],
    [mqtt_client], [wifi_connected], [s_wifi_netif]; [false] stands for a
    [NULL] handle). *)
Record environment : Type := {
  mbc_master_get_cid_info_answer :
    list event -> nat -> esp_err_t * option mb_parameter_descriptor_t;
  mbc_master_get_parameter_answer :
    list event -> nat -> string -> esp_err_t * Z;
  esp_mqtt_client_publish_answer :
    list event -> string -> payload -> Z -> Z -> Z;
  esp_timer_get_time_answer : list event -> Z;
  esp_netif_is_netif_up_answer : list event -> bool;
  mqtt_connected : list event -> bool;
  mqtt_client : list event -> bool;
  wifi_connected : list event -> bool;
  s_wifi_netif : list event -> bool
}.

(** The settings that come from Kconfig. *)
Record config : Type := {
  CONFIG_SDM120_DEVICE_IP : string;
  CONFIG_SDM120_MQTT_TOPIC_PREFIX : string;
  CONFIG_SDM120_MQTT_HOME_ASSISTANT : bool;
  CONFIG_SDM120_INTER_PARAM_DELAY : Z
}.

(** A computation reads the history so far and returns a result together
    with the events it adds. *)
Definition M (A : Type) : Type := list event -> A * list event.

Definition ret {A : Type} (a : A) : M A := fun _ => (a, []).

Definition bind {A B : Type} (m : M A) (k : A -> M B) : M B :=
  fun h =>
    let (a, out1) := m h in
    let (b, out2) := k a (h ++ out1) in
    (b, out1 ++ out2).

Definition emit (e : event) : M unit := fun _ => (tt, [e]).

Definition ask {A : Type} (f : list event -> A) : M A := fun h => (f h, []).

Declare Scope model_scope.
Delimit Scope model_scope with model.

Notation "x <- c1 ;; c2" := (bind c1 (fun x => c2))
  (at level 61, c1 at next level, right associativity) : model_scope.
Notation "' pat <- c1 ;; c2" := (bind c1 (fun x => match x with pat => c2 end))
  (at level 61, pat pattern, c1 at next level, right associativity) : model_scope.
Notation "c1 ;; c2" := (bind c1 (fun _ => c2))
  (at level 61, right associativity) : model_scope.

Local Open Scope model_scope.

(** ** The program *)

Section Program.

Variable cfg : config.
Variable env : environment.

(** Macros. *)
Definition SDM120_SLAVE_IP : string := CONFIG_SDM120_DEVICE_IP cfg.
Definition MQTT_TOPIC_PREFIX : string := CONFIG_SDM120_MQTT_TOPIC_PREFIX cfg.
Definition MQTT_PUBLISH_INTERVAL_MS : Z := 5000.
Definition MQTT_PUBLISH_INDIVIDUAL_TOPICS : bool := true.
Definition MQTT_HOME_ASSISTANT_DISCOVERY : bool := CONFIG_SDM120_MQTT_HOME_ASSISTANT cfg.
Definition MODBUS_INTER_PARAM_DELAY_MS : Z := CONFIG_SDM120_INTER_PARAM_DELAY cfg.
Definition MODBUS_RETRY_DELAY_BASE_MS : Z := 200.

(** Library calls. *)
Definition ESP_LOGE (line : log_line) : M unit := emit (EvLog ESP_LOG_ERROR line).
Definition ESP_LOGW (line : log_line) : M unit := emit (EvLog ESP_LOG_WARN line).
Definition ESP_LOGI (line : log_line) : M unit := emit (EvLog ESP_LOG_INFO line).

(** [vTaskDelay(pdMS_TO_TICKS(ms))] *)
Definition vTaskDelay (ms : Z) : M unit := emit (EvDelay ms).

Definition mbc_master_get_cid_info (cid : nat)
    : M (esp_err_t * option mb_parameter_descriptor_t) :=
  fun h =>
    let (err, descr) := mbc_master_get_cid_info_answer env h cid in
    ((err, descr),
     [EvGetCidInfo cid err (match descr with Some _ => true | None => false end)]).

Definition mbc_master_get_parameter (cid : nat) (key : string) : M (esp_err_t * Z) :=
  fun h =>
    let (err, raw) := mbc_master_get_parameter_answer env h cid key in
    ((err, raw), [EvGetParameter cid key err raw]).

Definition esp_mqtt_client_publish (topic : string) (data : payload)
    (qos retain : Z) : M Z :=
  fun h =>
    let msg_id := esp_mqtt_client_publish_answer env h topic data qos retain in
    (msg_id, [EvPublish topic data qos retain msg_id]).

Definition esp_netif_is_netif_up : M bool :=
  fun h =>
    let up := esp_netif_is_netif_up_answer env h in
    (up, [EvNetifIsUp up]).

(** [snprintf(topic, 128, "%s/<name>", MQTT_TOPIC_PREFIX)]: at most 127
    characters are kept. *)
Definition snprintf_topic (suffix : string) : string :=
  String.substring 0 127 (String.append MQTT_TOPIC_PREFIX suffix).

(** [(unsigned long long)(esp_timer_get_time() / 1000)] *)
Definition timestamp_ms : M Z :=
  fun h => ((Z.quot (esp_timer_get_time_answer env h) 1000) mod 2 ^ 64, []).

(** *** [check_sdm120_connectivity] *)
Definition check_sdm120_connectivity : M esp_err_t :=
  ESP_LOGI LOG_CHECKING_CONNECTIVITY ;;
  netif <- ask (s_wifi_netif env) ;;
  if negb netif then
    ESP_LOGW LOG_NETIF_NOT_INITIALIZED ;;
    ret ESP_ERR_INVALID_STATE
  else
    up <- esp_netif_is_netif_up ;;
    if negb up then
      ESP_LOGW LOG_NETIF_DOWN ;;
      ret ESP_ERR_INVALID_STATE
    else
      connected <- ask (wifi_connected env) ;;
      if negb connected then
        ESP_LOGW LOG_WIFI_NOT_CONNECTED ;;
        ret ESP_ERR_INVALID_STATE
      else
        ESP_LOGI LOG_NETIF_UP ;;
        ret ESP_OK.

(** *** [read_sdm120_data] *)

Definition max_retries : nat := 2.

(** The retry loop
    [for (retry_count = 0; retry_count <= max_retries; retry_count++)],
    entered with [iterations = max_retries + 1 - retry_count] passes
    still to run.  The result is [read_err], [raw_u32_data] and
    [retry_count] as the loop leaves them. *)
Fixpoint retry_loop (iterations : nat) (retry_count : nat) (cid : nat)
    (key : string) (read_err : esp_err_t) (raw_u32_data : Z)
    : M (esp_err_t * Z * nat) :=
  match iterations with
  | O => ret (read_err, raw_u32_data, retry_count)
  | S iterations' =>
      '(read_err, raw_u32_data) <- mbc_master_get_parameter cid key ;;
      if is_ESP_OK read_err then
        ret (read_err, raw_u32_data, retry_count)
      else
        (if (retry_count <? max_retries)%nat then
           let delay_ms := MODBUS_RETRY_DELAY_BASE_MS + Z.of_nat retry_count * 300 in
           ESP_LOGW (LOG_RETRY (retry_count + 1) max_retries cid read_err delay_ms) ;;
           vTaskDelay delay_ms
         else ret tt) ;;
        retry_loop iterations' (S retry_count) cid key read_err raw_u32_data
  end.

(** The local variables that live across the parameters of one batch. *)
Record batch_state : Type := {
  data : sdm120_data_t;
  timeout_count : nat;
  success_count : nat
}.

(** The advisory checks on a converted value: a warning in the log and
    nothing else. *)
Definition advisory_checks (cid : nat) (converted_value : float) : M unit :=
  if ((cid =? CID_VOLTAGE)%nat &&
      (float_lt_int converted_value 0 || float_gt_int converted_value 500))%bool then
    ESP_LOGW (LOG_UNREALISTIC_VOLTAGE converted_value)
  else if ((cid =? CID_FREQUENCY)%nat &&
           (float_lt_int converted_value 45 || float_gt_int converted_value 65))%bool then
    ESP_LOGW (LOG_UNREALISTIC_FREQUENCY converted_value)
  else if ((cid =? CID_POWER_FACTOR)%nat &&
           (float_lt_double converted_value double_minus_1_1 ||
            float_gt_double converted_value double_1_1))%bool then
    ESP_LOGW (LOG_UNREALISTIC_POWER_FACTOR converted_value)
  else ret tt.

(** The note that the cases [CID_IMPORT_ACTIVE_ENERGY] and
    [CID_TOTAL_ACTIVE_ENERGY] of the [switch] write to the log. *)
Definition high_energy_note (cid : nat) (converted_value : float) : M unit :=
  if (((cid =? CID_IMPORT_ACTIVE_ENERGY)%nat || (cid =? CID_TOTAL_ACTIVE_ENERGY)%nat) &&
      float_gt_int converted_value 10000)%bool then
    ESP_LOGI (LOG_HIGH_ENERGY_READING cid)
  else ret tt.

(** The body of [for (uint16_t cid = 0; cid < sdm120_cid_count; cid++)]
    from [if (read_err == ESP_OK)] on; [r] is [read_err], [raw_u32_data] and
    [retry_count] as the retry loop left them. *)
Definition after_retry (cid : nat) (st : batch_state)
    (r : esp_err_t * Z * nat) : M batch_state :=
  let '(read_err, raw_u32_data, retry_count) := r in
  st <-
    (if is_ESP_OK read_err then
       let converted_value := convert_sdm120_ieee754 raw_u32_data in
       advisory_checks cid converted_value ;;
       match store_converted_value cid converted_value (data st) with
       | Some d =>
           high_energy_note cid converted_value ;;
           ret {| data := d; timeout_count := timeout_count st;
                  success_count := S (success_count st) |}
       | None =>
           ESP_LOGW (LOG_UNKNOWN_CID cid) ;;
           ret {| data := data st; timeout_count := timeout_count st;
                  success_count := S (success_count st) |}
       end
     else
       let timeout_count :=
         if is_ESP_ERR_TIMEOUT read_err then S (timeout_count st)
         else timeout_count st in
       ESP_LOGE (LOG_READ_FAILED cid retry_count read_err) ;;
       if ((3 <=? timeout_count)%nat && (2 <=? cid)%nat)%bool then
         ESP_LOGW LOG_MULTIPLE_TIMEOUTS ;;
         _ <- check_sdm120_connectivity ;;
         ret {| data := data st; timeout_count := 0;
                success_count := success_count st |}
       else
         ret {| data := data st; timeout_count := timeout_count;
                success_count := success_count st |}) ;;
  vTaskDelay MODBUS_INTER_PARAM_DELAY_MS ;;
  (if (cid <? 3)%nat then vTaskDelay 100 else ret tt) ;;
  ret st.

(** The body of [for (uint16_t cid = 0; cid < sdm120_cid_count; cid++)]. *)
Definition read_parameter (cid : nat) (st : batch_state) : M batch_state :=
  '(err, param_descriptor) <- mbc_master_get_cid_info cid ;;
  match (if is_ESP_OK err then param_descriptor else None) with
  | None =>
      ESP_LOGE (LOG_NO_CID_INFO cid err) ;;
      ret st
  | Some descr =>
      r <- retry_loop (max_retries + 1) 0 cid (param_key descr) ESP_FAIL 0 ;;
      after_retry cid st r
  end.

(** The loop over the CIDs, with [remaining = sdm120_cid_count - cid]
    parameters still to read. *)
Fixpoint read_parameters (remaining : nat) (cid : nat) (st : batch_state)
    : M batch_state :=
  match remaining with
  | O => ret st
  | S remaining' =>
      st <- read_parameter cid st ;;
      read_parameters remaining' (S cid) st
  end.

(** [static esp_err_t read_sdm120_data(sdm120_data_t* data)]: the argument
    is what [data] points to ([None] for [NULL]); the result is the return
    value and what [data] points to afterwards. *)
Definition read_sdm120_data (data_in : option sdm120_data_t)
    : M (esp_err_t * option sdm120_data_t) :=
  match data_in with
  | None =>
      ESP_LOGE LOG_INVALID_DATA_POINTER ;;
      ret (ESP_ERR_INVALID_ARG, None)
  | Some _ =>
      ESP_LOGI (LOG_READING_PARAMETERS sdm120_cid_count) ;;
      st <- read_parameters sdm120_cid_count 0
              {| data := zeroed_data; timeout_count := 0; success_count := 0 |} ;;
      ESP_LOGI (LOG_READING_COMPLETED (success_count st) sdm120_cid_count
                  (timeout_count st)) ;;
      if (success_count st =? 0)%nat then
        ESP_LOGE LOG_ALL_PARAMETERS_FAILED ;;
        ret (ESP_ERR_TIMEOUT, Some (data st))
      else
        (if (sdm120_cid_count / 2 <? timeout_count st)%nat then
           ESP_LOGW LOG_HIGH_TIMEOUT_RATE
         else ret tt) ;;
        ret (ESP_OK, Some (data st))
  end.

(** *** [mqtt_publish_sdm120_data] *)

Definition publish_individual (name : string) (decimals : nat) (value : float)
    : M unit :=
  _ <- esp_mqtt_client_publish (snprintf_topic name)
         (DecimalPayload decimals value) 0 0 ;;
  ret tt.

Definition mqtt_publish_sdm120_data (data_in : option sdm120_data_t) : M esp_err_t :=
  connected <- ask (mqtt_connected env) ;;
  client <- ask (mqtt_client env) ;;
  if (negb connected || negb client)%bool then
    ESP_LOGW LOG_MQTT_NOT_CONNECTED ;;
    ret ESP_ERR_INVALID_STATE
  else
    match data_in with
    | None =>
        ESP_LOGE LOG_INVALID_PUBLISH_POINTER ;;
        ret ESP_ERR_INVALID_ARG
    | Some d =>
        timestamp <- timestamp_ms ;;
        let json_payload := JsonPayload timestamp d SDM120_SLAVE_IP in
        let topic := snprintf_topic "/data" in
        msg_id <- esp_mqtt_client_publish topic json_payload 0 0 ;;
        if msg_id =? -1 then
          ESP_LOGE LOG_PUBLISH_FAILED ;;
          ret ESP_FAIL
        else
          ESP_LOGI (LOG_PUBLISHED_DATA topic msg_id) ;;
          (if MQTT_PUBLISH_INDIVIDUAL_TOPICS then
             publish_individual "/voltage" 2 (voltage d) ;;
             publish_individual "/current" 3 (current d) ;;
             publish_individual "/active_power" 2 (active_power d) ;;
             publish_individual "/apparent_power" 2 (apparent_power d) ;;
             publish_individual "/reactive_power" 2 (reactive_power d) ;;
             publish_individual "/power_factor" 3 (power_factor d) ;;
             publish_individual "/frequency" 2 (frequency d) ;;
             publish_individual "/import_energy" 3 (import_active_energy d) ;;
             publish_individual "/export_energy" 3 (export_active_energy d) ;;
             publish_individual "/total_energy" 3 (total_active_energy d) ;;
             ESP_LOGI (LOG_PUBLISHED_INDIVIDUAL sdm120_cid_count) ;;
             if MQTT_HOME_ASSISTANT_DISCOVERY then
               _ <- esp_mqtt_client_publish (snprintf_topic "/status")
                      (TextPayload "online") 0 1 ;;
               ret tt
             else ret tt
           else ret tt) ;;
          ret ESP_OK
    end.

(** *** [sdm120_monitoring_task] *)

(** One pass of [while (1)]: the state is [read_count] and [meter_data]. *)
Definition monitoring_cycle (read_count : Z) (meter_data : sdm120_data_t)
    : M (Z * sdm120_data_t) :=
  let read_count := (read_count + 1) mod 2 ^ 32 in
  '(result, data_out) <- read_sdm120_data (Some meter_data) ;;
  let meter_data := match data_out with Some d => d | None => meter_data end in
  (if is_ESP_OK result then
     ESP_LOGI (LOG_READING_REPORT read_count meter_data) ;;
     mqtt_result <- mqtt_publish_sdm120_data (Some meter_data) ;;
     if is_ESP_OK mqtt_result then ESP_LOGI LOG_DATA_PUBLISHED
     else if esp_err_eq_dec mqtt_result ESP_ERR_INVALID_STATE then ret tt
     else ESP_LOGW (LOG_MQTT_PUBLISH_FAILED mqtt_result)
   else
     ESP_LOGW (LOG_FAILED_TO_READ read_count) ;;
     if is_ESP_ERR_TIMEOUT result then
       ESP_LOGW LOG_RECOVERY_DELAY ;;
       vTaskDelay 2000
     else ret tt) ;;
  vTaskDelay 5000 ;;
  ret (read_count, meter_data).

(** The first [cycles] passes of the endless loop. *)
Fixpoint monitoring_cycles (cycles : nat) (read_count : Z)
    (meter_data : sdm120_data_t) : M (Z * sdm120_data_t) :=
  match cycles with
  | O => ret (read_count, meter_data)
  | S cycles' =>
      '(read_count, meter_data) <- monitoring_cycle read_count meter_data ;;
      monitoring_cycles cycles' read_count meter_data
  end.

(** [sdm120_monitoring_task], cut after [cycles]
    passes; [meter_data] starts with whatever the stack holds. *)
Definition sdm120_monitoring_task (cycles : nat) (meter_data : sdm120_data_t)
    : M (Z * sdm120_data_t) :=
  ESP_LOGI LOG_TASK_STARTED ;;
  monitoring_cycles cycles 0 meter_data.

End Program.

(** ** Observations on traces *)

Definition is_attempt_of (c : nat) (e : event) : bool :=
  match e with
  | EvGetParameter c' _ _ _ => (c' =? c)%nat
  | _ => false
  end.

Definition is_success (e : event) : bool :=
  match e with
  | EvGetParameter _ _ err _ => is_ESP_OK err
  | _ => false
  end.

Definition is_success_of (c : nat) (e : event) : bool :=
  (is_attempt_of c e && is_success e)%bool.

Definition is_cid_info_of (c : nat) (e : event) : bool :=
  match e with
  | EvGetCidInfo c' _ _ => (c' =? c)%nat
  | _ => false
  end.

Definition is_connectivity_check (e : event) : bool :=
  match e with
  | EvLog _ LOG_CHECKING_CONNECTIVITY => true
  | _ => false
  end.

(** How often [mbc_master_get_parameter] was called for a CID. *)
Definition attempts_of (c : nat) (out : list event) : nat :=
  List.length (filter (is_attempt_of c) out).

(** How many calls of [mbc_master_get_parameter] returned [ESP_OK]. *)
Definition successes (out : list event) : nat :=
  List.length (filter is_success out).

Definition delay_of (e : event) : list Z :=
  match e with
  | EvDelay ms => [ms]
  | _ => []
  end.

(** The delays, in order. *)
Definition delays_of (out : list event) : list Z := flat_map delay_of out.

(** The calls of [esp_mqtt_client_publish], in order, without the message
    identifiers that the client returned. *)
Definition publish_call (e : event) : list (string * payload * Z * Z) :=
  match e with
  | EvPublish topic data qos retain _ => [(topic, data, qos, retain)]
  | _ => []
  end.

Definition publish_calls (out : list event) : list (string * payload * Z * Z) :=
  flat_map publish_call out.

(** Reads and delays in order: [None] for a call of
    [mbc_master_get_parameter], [Some ms] for a delay of [ms]. *)
Definition schedule_of (e : event) : list (option Z) :=
  match e with
  | EvGetParameter _ _ _ _ => [None]
  | EvDelay ms => [Some ms]
  | _ => []
  end.

Definition schedule (out : list event) : list (option Z) := flat_map schedule_of out.

(** The schedule of [n] attempts, the first retry being retry [first]:
    attempt, delay, attempt, delay, ..., attempt. *)
Definition retry_schedule (base step : Z) (first n : nat) : list (option Z) :=
  None :: flat_map (fun i => [Some (base + Z.of_nat i * step); None]) (seq first (n - 1)).

(** ** Postconditions *)

(** [satisfies m h Q]: run after history [h], [m] returns a result and
    emits events that [Q] accepts. *)
Definition satisfies {A : Type} (m : M A) (h : list event)
    (Q : A -> list event -> Prop) : Prop :=
  Q (fst (m h)) (snd (m h)).

(** ** Specifications

    The definitions in which the properties below are stated. *)

(** Events that touch neither the field bus nor the broker. *)
Definition is_local (e : event) : bool :=
  match e with
  | EvLog _ _ | EvDelay _ | EvNetifIsUp _ => true
  | _ => false
  end.

(** What the retry loop guarantees when it is entered with [k] passes to
    run and [retry_count = rc]. *)
Definition retry_post (k rc c : nat) (key : string)
    (r : esp_err_t * Z * nat) (out : list event) : Prop :=
  let '(err, raw, _) := r in
  (exists n : nat,
      (1 <= n <= k)%nat /\
      attempts_of c out = n /\
      schedule out = retry_schedule MODBUS_RETRY_DELAY_BASE_MS 300 rc n) /\
  (forall c' : nat, c' <> c -> attempts_of c' out = 0%nat) /\
  filter is_success out =
    (if is_ESP_OK err then [EvGetParameter c key err raw] else []) /\
  publish_calls out = [] /\
  filter is_connectivity_check out = [] /\
  (forall c' : nat, filter (is_cid_info_of c') out = []).

(** What reading one parameter guarantees. *)
Definition read_parameter_post (c : nat) (st st' : batch_state)
    (out : list event) : Prop :=
  (attempts_of c out <= max_retries + 1)%nat /\
  (forall c' : nat, c' <> c ->
     attempts_of c' out = 0%nat /\ filter (is_cid_info_of c') out = []) /\
  (exists err found, filter (is_cid_info_of c) out = [EvGetCidInfo c err found]) /\
  publish_calls out = [] /\
  success_count st' = (success_count st + successes out)%nat /\
  ((filter is_success out = [] /\ data st' = data st) \/
   (exists key raw,
       filter is_success out = [EvGetParameter c key ESP_OK raw] /\
       data st' =
         match store_converted_value c (convert_sdm120_ieee754 raw) (data st) with
         | Some d => d
         | None => data st
         end)).

(** What the loop over [n] parameters, starting at CID [c0], guarantees. *)
Definition read_parameters_post (n c0 : nat) (st st' : batch_state)
    (out : list event) : Prop :=
  (forall c : nat, (attempts_of c out <= max_retries + 1)%nat) /\
  (forall c : nat, (c < c0 \/ c0 + n <= c)%nat ->
     attempts_of c out = 0%nat /\ filter (is_cid_info_of c) out = []) /\
  (forall c : nat, (c0 <= c < c0 + n)%nat ->
     exists err found, filter (is_cid_info_of c) out = [EvGetCidInfo c err found]) /\
  publish_calls out = [] /\
  success_count st' = (success_count st + successes out)%nat /\
  (forall c : nat, (c < CID_COUNT)%nat ->
     (filter (is_success_of c) out = [] /\
      field_of_cid c (data st') = field_of_cid c (data st)) \/
     (exists key raw,
         filter (is_success_of c) out = [EvGetParameter c key ESP_OK raw] /\
         field_of_cid c (data st') = Some (convert_sdm120_ieee754 raw))).

(** The trace [out], emitted after history [h], holds the retry loop of
    parameter [c] as one piece, and no other read of [c]. *)
Definition retry_segment (env : environment) (h : list event) (c : nat)
    (out : list event) : Prop :=
  exists (key : string) (before after : list event),
    out = before ++
          snd (retry_loop env (max_retries + 1) 0 c key ESP_FAIL 0 (h ++ before)) ++
          after /\
    attempts_of c before = 0%nat /\
    attempts_of c after = 0%nat.

(** The local variables of [read_sdm120_data] before the first parameter. *)
Definition initial_batch_state : batch_state :=
  {| data := zeroed_data; timeout_count := 0; success_count := 0 |}.

(** How the specification classifies a batch by the number of parameters
    that were read. *)
Inductive outcome : Type := AllFailed | Partial | Complete.

Definition classify (succeeded total : nat) : outcome :=
  if (succeeded =? 0)%nat then AllFailed
  else if (succeeded <? total)%nat then Partial
  else Complete.

(** What the task logs after a call of the publisher. *)
Definition publish_result_log (mqtt_result : esp_err_t) : list event :=
  if is_ESP_OK mqtt_result then [EvLog ESP_LOG_INFO LOG_DATA_PUBLISHED]
  else if esp_err_eq_dec mqtt_result ESP_ERR_INVALID_STATE then []
  else [EvLog ESP_LOG_WARN (LOG_MQTT_PUBLISH_FAILED mqtt_result)].

(** What one pass of the polling loop does after its batch [r]: [rest]
    when no parameter was read and when some were. *)
Definition pass_cadence (cfg : config) (env : environment) (read_count : Z)
    (meter_data : sdm120_data_t) (h : list event) : Prop :=
  let r := read_sdm120_data cfg env (Some meter_data) h in
  let count := (read_count + 1) mod 2 ^ 32 in
  let cycle := monitoring_cycle cfg env read_count meter_data h in
  exists (d : sdm120_data_t) (rest : list event),
    snd (fst r) = Some d /\
    snd cycle = snd r ++ rest /\
    if (successes (snd r) =? 0)%nat then
      fst (fst r) = ESP_ERR_TIMEOUT /\
      publish_calls (snd cycle) = [] /\
      rest = [EvLog ESP_LOG_WARN (LOG_FAILED_TO_READ count);
              EvLog ESP_LOG_WARN LOG_RECOVERY_DELAY;
              EvDelay 2000; EvDelay 5000] /\
      delays_of rest = [2000; 5000]
    else
      let report := EvLog ESP_LOG_INFO (LOG_READING_REPORT count d) in
      let p := mqtt_publish_sdm120_data cfg env (Some d) ((h ++ snd r) ++ [report]) in
      fst (fst r) = ESP_OK /\
      rest = [report] ++ snd p ++ publish_result_log (fst p) ++ [EvDelay 5000] /\
      publish_calls (snd cycle) = publish_calls (snd p) /\
      delays_of rest = [5000].

Section Specifications.

Variable cfg : config.
Variable env : environment.

(** The ten per-field messages, in the order of the source. *)
Definition individual_calls (d : sdm120_data_t) : list (string * payload * Z * Z) :=
  [ (snprintf_topic cfg "/voltage", DecimalPayload 2 (voltage d), 0, 0);
    (snprintf_topic cfg "/current", DecimalPayload 3 (current d), 0, 0);
    (snprintf_topic cfg "/active_power", DecimalPayload 2 (active_power d), 0, 0);
    (snprintf_topic cfg "/apparent_power", DecimalPayload 2 (apparent_power d), 0, 0);
    (snprintf_topic cfg "/reactive_power", DecimalPayload 2 (reactive_power d), 0, 0);
    (snprintf_topic cfg "/power_factor", DecimalPayload 3 (power_factor d), 0, 0);
    (snprintf_topic cfg "/frequency", DecimalPayload 2 (frequency d), 0, 0);
    (snprintf_topic cfg "/import_energy", DecimalPayload 3 (import_active_energy d), 0, 0);
    (snprintf_topic cfg "/export_energy", DecimalPayload 3 (export_active_energy d), 0, 0);
    (snprintf_topic cfg "/total_energy", DecimalPayload 3 (total_active_energy d), 0, 0) ].

(** The retained availability message. *)
Definition availability_call : string * payload * Z * Z :=
  (snprintf_topic cfg "/status", TextPayload "online", 0, 1).

(** The aggregate message and what the client answers to it. *)
Definition aggregate_payload (d : sdm120_data_t) (h : list event) : payload :=
  JsonPayload (fst (timestamp_ms env h)) d (SDM120_SLAVE_IP cfg).

Definition aggregate_call (d : sdm120_data_t) (h : list event) : string * payload * Z * Z :=
  (snprintf_topic cfg "/data", aggregate_payload d h, 0, 0).

Definition aggregate_msg_id (d : sdm120_data_t) (h : list event) : Z :=
  esp_mqtt_client_publish_answer env h (snprintf_topic cfg "/data")
    (aggregate_payload d h) 0 0.

End Specifications.

(** ** Concrete settings and environments

    Used to run the model on explicit inputs. *)

Definition cfg_example : config :=
  {| CONFIG_SDM120_DEVICE_IP := "192.168.1.100";
     CONFIG_SDM120_MQTT_TOPIC_PREFIX := "sdm120";
     CONFIG_SDM120_MQTT_HOME_ASSISTANT := true;
     CONFIG_SDM120_INTER_PARAM_DELAY := 50 |}.

Definition cfg_no_discovery : config :=
  {| CONFIG_SDM120_DEVICE_IP := "192.168.1.100";
     CONFIG_SDM120_MQTT_TOPIC_PREFIX := "sdm120";
     CONFIG_SDM120_MQTT_HOME_ASSISTANT := false;
     CONFIG_SDM120_INTER_PARAM_DELAY := 50 |}.

(** An environment whose answers do not change over time: the descriptor
    table is registered, every read of CID [c] is answered by
    [get_parameter c], a publish to [topic] by [publish topic], and the
    wireless link is up. *)
Definition static_environment (get_parameter : nat -> esp_err_t * Z)
    (publish : string -> Z) (connected : bool) : environment :=
  {| mbc_master_get_cid_info_answer := fun _ c => (ESP_OK, nth_error sdm120_cid_table c);
     mbc_master_get_parameter_answer := fun _ c _ => get_parameter c;
     esp_mqtt_client_publish_answer := fun _ topic _ _ _ => publish topic;
     esp_timer_get_time_answer := fun _ => 123456789;
     esp_netif_is_netif_up_answer := fun _ => true;
     mqtt_connected := fun _ => connected;
     mqtt_client := fun _ => true;
     wifi_connected := fun _ => true;
     s_wifi_netif := fun _ => true |}.

(** Every read succeeds and returns the word-swapped pattern of 1.0. *)
Definition env_all_ok : environment :=
  static_environment (fun _ => (ESP_OK, 0x00003F80)) (fun _ => 1) true.

(** Only the voltage cannot be read. *)
Definition env_partial : environment :=
  static_environment
    (fun c => if (c =? CID_VOLTAGE)%nat then (ESP_ERR_TIMEOUT, 0) else (ESP_OK, 0x00003F80))
    (fun _ => 1) true.

(** The parameters with an even CID time out, those with an odd CID are
    read at the first attempt. *)
Definition env_alternating : environment :=
  static_environment
    (fun c => if Nat.even c then (ESP_ERR_TIMEOUT, 0) else (ESP_OK, 0x00003F80))
    (fun _ => 1) true.

(** Every read succeeds, the broker session is up, and the client refuses
    every message. *)
Definition env_publish_fails : environment :=
  static_environment (fun _ => (ESP_OK, 0x00003F80)) (fun _ => -1) true.

(** Every read succeeds; the client accepts the aggregate message only. *)
Definition env_only_aggregate_accepted : environment :=
  static_environment (fun _ => (ESP_OK, 0x00003F80))
    (fun topic => if String.eqb topic "sdm120/data" then 1 else -1) true.

(** No read succeeds: every attempt times out. *)
Definition env_all_fail : environment :=
  static_environment (fun _ => (ESP_ERR_TIMEOUT, 0)) (fun _ => 1) true.

(** Every read succeeds and the broker session is down. *)
Definition env_disconnected : environment :=
  static_environment (fun _ => (ESP_OK, 0x00003F80)) (fun _ => 1) false.

(** How each parameter of a batch ended, in order: [ESP_OK] for a read that
    succeeded, the last error for a parameter that was given up. *)
Definition parameter_result (e : event) : list esp_err_t :=
  match e with
  | EvGetParameter _ _ ESP_OK _ => [ESP_OK]
  | EvLog _ (LOG_READ_FAILED _ _ err) => [err]
  | _ => []
  end.

Definition parameter_results (out : list event) : list esp_err_t :=
  flat_map parameter_result out.

(** The length of the longest run of consecutive timeouts; [run] is the
    length of the run that ends where the list starts. *)
Fixpoint longest_timeout_run (run : nat) (results : list esp_err_t) : nat :=
  match results with
  | [] => run
  | err :: rest =>
      if is_ESP_ERR_TIMEOUT err then longest_timeout_run (S run) rest
      else Nat.max run (longest_timeout_run 0 rest)
  end.

(** The counter of [read_sdm120_data] run over the results of the
    parameters: every timeout adds one, a success changes nothing, and after
    a failure with the counter at 3 or more a connectivity check is made and
    the counter starts again at 0.  The result is the number of checks and
    the counter at the end. *)
Fixpoint timeout_counter (count : nat) (results : list esp_err_t) : nat * nat :=
  match results with
  | [] => (0%nat, count)
  | err :: rest =>
      if is_ESP_OK err then timeout_counter count rest
      else
        let count := if is_ESP_ERR_TIMEOUT err then S count else count in
        if (3 <=? count)%nat then
          let (checks, final) := timeout_counter 0 rest in (S checks, final)
        else timeout_counter count rest
  end.

(** A counter of consecutive timeouts, for comparison: anything but a
    timeout starts the run again. *)
Fixpoint consecutive_timeout_counter (run : nat) (results : list esp_err_t)
    : nat * nat :=
  match results with
  | [] => (0%nat, run)
  | err :: rest =>
      if is_ESP_ERR_TIMEOUT err then
        if (3 <=? S run)%nat then
          let (checks, final) := consecutive_timeout_counter 0 rest in (S checks, final)
        else consecutive_timeout_counter (S run) rest
      else consecutive_timeout_counter 0 rest
  end.

(** The connectivity checks of a trace. *)
Definition connectivity_checks (out : list event) : nat :=
  List.length (filter is_connectivity_check out).

(** ** More observations on a batch *)

(** The CIDs that the calls of [mbc_master_get_cid_info] and
    [mbc_master_get_parameter] name, in order. *)
Definition visited_cid (e : event) : list nat :=
  match e with
  | EvGetCidInfo c _ _ => [c]
  | EvGetParameter c _ _ _ => [c]
  | _ => []
  end.

Definition visited (out : list event) : list nat := flat_map visited_cid out.

Definition is_read (e : event) : bool :=
  match e with
  | EvGetParameter _ _ _ _ => true
  | _ => false
  end.

(** How often [mbc_master_get_parameter] was called. *)
Definition reads (out : list event) : nat := List.length (filter is_read out).

(** The time spent in [vTaskDelay], in milliseconds. *)
Definition total_delay (out : list event) : Z := fold_right Z.add 0 (delays_of out).

(** The log lines that [read_sdm120_data] writes outside of its loop. *)
Definition is_summary_line (line : log_line) : bool :=
  match line with
  | LOG_READING_PARAMETERS _ | LOG_READING_COMPLETED _ _ _
  | LOG_ALL_PARAMETERS_FAILED | LOG_HIGH_TIMEOUT_RATE => true
  | _ => false
  end.

Definition is_summary (e : event) : bool :=
  match e with
  | EvLog _ line => is_summary_line line
  | _ => false
  end.

(** Events that are no bus call, no broker call, no delay, no summary line
    and not the line that gives a parameter up. *)
Definition is_note (e : event) : bool :=
  match e with
  | EvLog _ (LOG_READ_FAILED _ _ _) => false
  | EvLog _ line => negb (is_summary_line line)
  | EvNetifIsUp _ => true
  | _ => false
  end.

(** The events of the retry loop of parameter [c]. *)
Definition is_retry_event (c : nat) (e : event) : bool :=
  match e with
  | EvGetParameter c' _ _ _ => (c' =? c)%nat
  | EvLog _ (LOG_RETRY _ _ _ _ _) => true
  | EvDelay _ => true
  | _ => false
  end.

Definition is_log (e : event) : bool :=
  match e with
  | EvLog _ _ => true
  | _ => false
  end.

(** The parameters that ended in [ESP_ERR_TIMEOUT]. *)
Definition timeouts (results : list esp_err_t) : nat :=
  List.length (filter is_ESP_ERR_TIMEOUT results).

(** The delays between [n] attempts of one parameter, added up. *)
Definition retry_delay (n : nat) : Z :=
  fold_right Z.add 0
    (map (fun i => MODBUS_RETRY_DELAY_BASE_MS + Z.of_nat i * 300) (seq 0 (n - 1))).

(** The delays at the end of the loop body for parameter [c]. *)
Definition inter_parameter_delays (cfg : config) (c : nat) : list event :=
  EvDelay (MODBUS_INTER_PARAM_DELAY_MS cfg) ::
  (if (c <? 3)%nat then [EvDelay 100] else []).

(** The time that the loop body for parameter [c] spends in [vTaskDelay]
    when it makes [n] attempts; none when the descriptor is not found. *)
Definition parameter_delay (cfg : config) (c n : nat) : Z :=
  if (n =? 0)%nat then 0
  else retry_delay n + MODBUS_INTER_PARAM_DELAY_MS cfg +
       (if (c <? 3)%nat then 100 else 0).

(** The calls of [esp_netif_is_netif_up]. *)
Definition is_netif_query (e : event) : bool :=
  match e with
  | EvNetifIsUp _ => true
  | _ => false
  end.

(** The topic of a call of [esp_mqtt_client_publish]. *)
Definition topic_of_call (call : string * payload * Z * Z) : string :=
  fst (fst (fst call)).

(** The names that [mqtt_publish_sdm120_data] appends to the topic prefix. *)
Definition topic_suffixes : list string :=
  [ "/data"; "/voltage"; "/current"; "/active_power"; "/apparent_power";
    "/reactive_power"; "/power_factor"; "/frequency"; "/import_energy";
    "/export_energy"; "/total_energy"; "/status" ].

(** A topic prefix of 128 characters. *)
Definition cfg_long_prefix : config :=
  {| CONFIG_SDM120_DEVICE_IP := "192.168.1.100";
     CONFIG_SDM120_MQTT_TOPIC_PREFIX :=
       "building/floor/room/cabinet/meter/0123456789/0123456789/0123456789/" ++
       "0123456789/0123456789/0123456789/0123456789/0123456789/sdm120";
     CONFIG_SDM120_MQTT_HOME_ASSISTANT := true;
     CONFIG_SDM120_INTER_PARAM_DELAY := 50 |}.

(** A read that returns the word-swapped pattern of a quiet NaN. *)
Definition raw_nan : Z := 0x00007FC0.

Definition sum_Z (l : list Z) : Z := fold_right Z.add 0 l.

Definition sum_nat (l : list nat) : nat := fold_right Nat.add 0%nat l.

(** ** Home Assistant discovery and the MQTT event handler

    [mqtt_publish_ha_discovery] and [mqtt_event_handler] run in the task of
    the MQTT client.  Their events are of a type of their own: the log lines
    they write, the delays, and the calls of [esp_mqtt_client_publish], here
    with the length argument that the publisher above always passes as 0.
    A C string is a [string] without the character NUL. *)

Inductive ha_log_line : Type :=
| LOG_MQTT_CONNECTED
| LOG_MQTT_DISCONNECTED
| LOG_MQTT_ERROR
| LOG_TCP_TRANSPORT_ERROR (esp_tls_last_esp_err : Z)
| LOG_CONNECTION_REFUSED
| LOG_CONNECTION_REFUSED_TIP
| LOG_HA_PUBLISHING
| LOG_HA_PUBLISH_FAILED (name : string)
| LOG_HA_PUBLISHED.

Inductive ha_event : Type :=
| HaLog (level : esp_log_level_t) (line : ha_log_line)
| HaDelay (ms : Z)
| HaPublish (topic data : string) (len qos retain : Z) (msg_id : Z).

(** What the MQTT client answers to a call of [esp_mqtt_client_publish],
    and the byte that lies in memory before [discovery_payload], which the
    loop over the payload may read. *)
Record ha_environment : Type := {
  ha_publish_answer : list ha_event -> string -> string -> Z -> Z -> Z -> Z;
  byte_before_payload : list ha_event -> ascii
}.

(** Computations over a trace of events of type [E]. *)
Definition T (E A : Type) : Type := list E -> A * list E.

Definition retT {E A : Type} (a : A) : T E A := fun _ => (a, []).

Definition bindT {E A B : Type} (m : T E A) (k : A -> T E B) : T E B :=
  fun h =>
    let (a, out1) := m h in
    let (b, out2) := k a (h ++ out1) in
    (b, out1 ++ out2).

Definition emitT {E : Type} (e : E) : T E unit := fun _ => (tt, [e]).

Definition askT {E A : Type} (f : list E -> A) : T E A := fun h => (f h, []).

Declare Scope trace_scope.
Delimit Scope trace_scope with trace.

Notation "x <- c1 ;; c2" := (bindT c1 (fun x => c2))
  (at level 61, c1 at next level, right associativity) : trace_scope.
Notation "c1 ;; c2" := (bindT c1 (fun _ => c2))
  (at level 61, right associativity) : trace_scope.

(** The pieces of a formatted text, put together. *)
Definition format (pieces : list string) : string :=
  fold_right String.append EmptyString pieces.

(** The character [34], the double quote. *)
Definition double_quote : ascii := ascii_of_nat 34.

(** A text between double quotes, as the format strings write it. *)
Definition quoted (s : string) : string :=
  String double_quote (String.append s (String double_quote EmptyString)).

(** [snprintf(buffer, size, ...)] of a text: what the buffer holds
    afterwards and what the call returns. *)
Definition snprintf_buffer (size : nat) (text : string) : string :=
  substring 0 (size - 1) text.

Definition snprintf_result (text : string) : Z := Z.of_nat (String.length text).

(** The loop over [discovery_topic], which writes an underscore over
    every dot. *)
Fixpoint sanitize_topic (s : string) : string :=
  match s with
  | EmptyString => EmptyString
  | String c rest =>
      String (if (c =? ".")%char then "_"%char else c) (sanitize_topic rest)
  end.

(** The loop over [discovery_payload], which writes an underscore over a
    dot when neither the character before it nor the character after it is
    a double quote; [prev] is the character before the text, as the loop
    left it, and the character after the last one is the terminating NUL. *)
Fixpoint sanitize_payload (prev : ascii) (s : string) : string :=
  match s with
  | EmptyString => EmptyString
  | String c rest =>
      let next := match rest with String n _ => n | EmptyString => zero end in
      let c' :=
        if ((c =? ".")%char && negb (prev =? double_quote)%char &&
            negb (next =? double_quote)%char)%bool
        then "_"%char else c in
      String c' (sanitize_payload c' rest)
  end.

(** What the loop over the payload leaves at a position that holds [c],
    between [left] and [right]. *)
Definition sanitized_char (left c right : ascii) : ascii :=
  if ((c =? ".")%char && negb (left =? double_quote)%char &&
      negb (right =? double_quote)%char)%bool
  then "_"%char else c.

(** The character at a position of a C string; past the end, the
    terminating NUL. *)
Definition char_at (i : nat) (s : string) : ascii :=
  match get i s with
  | Some c => c
  | None => zero
  end.

(** An entry of [sensors[]]. *)
Record ha_sensor_t : Type := {
  sensor_name : string;
  sensor_object_id : string;
  sensor_device_class : string;
  sensor_unit : string;
  sensor_state_class : string;
  sensor_icon : string;
  sensor_topic_suffix : string
}.

Definition sensors : list ha_sensor_t :=
  [ Build_ha_sensor_t "Voltage" "voltage" "voltage" "V" "measurement" "mdi:flash" "voltage";
    Build_ha_sensor_t "Current" "current" "current" "A" "measurement" "mdi:current-ac"
      "current";
    Build_ha_sensor_t "Active Power" "active_power" "power" "W" "measurement" "mdi:flash"
      "active_power";
    Build_ha_sensor_t "Apparent Power" "apparent_power" "apparent_power" "VA" "measurement"
      "mdi:flash-outline" "apparent_power";
    Build_ha_sensor_t "Reactive Power" "reactive_power" "reactive_power" "var" "measurement"
      "mdi:flash-outline" "reactive_power";
    Build_ha_sensor_t "Power Factor" "power_factor" "power_factor" "" "measurement"
      "mdi:cosine-wave" "power_factor";
    Build_ha_sensor_t "Frequency" "frequency" "frequency" "Hz" "measurement" "mdi:sine-wave"
      "frequency";
    Build_ha_sensor_t "Import Energy" "import_energy" "energy" "kWh" "total_increasing"
      "mdi:transmission-tower-import" "import_energy";
    Build_ha_sensor_t "Export Energy" "export_energy" "energy" "kWh" "total_increasing"
      "mdi:transmission-tower-export" "export_energy";
    Build_ha_sensor_t "Total Energy" "total_energy" "energy" "kWh" "total_increasing"
      "mdi:lightning-bolt" "total_energy" ].

(** The events of an MQTT client, as far as the handler looks at them. *)
Inductive esp_mqtt_event_id_t : Type :=
| MQTT_EVENT_CONNECTED
| MQTT_EVENT_DISCONNECTED
| MQTT_EVENT_PUBLISHED
| MQTT_EVENT_ERROR
| MQTT_EVENT_OTHER.

Inductive esp_mqtt_error_type_t : Type :=
| MQTT_ERROR_TYPE_TCP_TRANSPORT
| MQTT_ERROR_TYPE_CONNECTION_REFUSED
| MQTT_ERROR_TYPE_OTHER.

Record esp_mqtt_event_t : Type := {
  event_id : esp_mqtt_event_id_t;
  event_msg_id : Z;
  error_type : esp_mqtt_error_type_t;
  esp_tls_last_esp_err : Z
}.

Section Discovery.

Local Open Scope trace_scope.

Variable cfg : config.
Variable MQTT_HA_DISCOVERY_PREFIX : string.
Variable broker : ha_environment.

Definition HA_LOGE (line : ha_log_line) : T ha_event unit := emitT (HaLog ESP_LOG_ERROR line).
Definition HA_LOGW (line : ha_log_line) : T ha_event unit := emitT (HaLog ESP_LOG_WARN line).
Definition HA_LOGI (line : ha_log_line) : T ha_event unit := emitT (HaLog ESP_LOG_INFO line).

Definition ha_vTaskDelay (ms : Z) : T ha_event unit := emitT (HaDelay ms).

(** [esp_mqtt_client_publish(mqtt_client, topic, data, len, qos, retain)] *)
Definition ha_esp_mqtt_client_publish (topic data : string) (len qos retain : Z)
    : T ha_event Z :=
  fun h =>
    let msg_id := ha_publish_answer broker h topic data len qos retain in
    (msg_id, [HaPublish topic data len qos retain msg_id]).

(** The text that the format of [device_info] gives. *)
Definition device_info_text : string :=
  format
    [ quoted "device"; ":{";
      quoted "identifiers"; ":["; quoted (String.append "sdm120_" (SDM120_SLAVE_IP cfg)); "],";
      quoted "name"; ":"; quoted "SDM120 Energy Meter"; ",";
      quoted "model"; ":"; quoted "SDM120"; ",";
      quoted "manufacturer"; ":"; quoted "Eastron"; ",";
      quoted "sw_version"; ":"; quoted "ESP32-SDM120-v1.0"; ",";
      quoted "configuration_url"; ":";
      quoted (String.append "http://" (SDM120_SLAVE_IP cfg));
      "}" ].

(** [char device_info[256]] after its [snprintf]. *)
Definition device_info : string := snprintf_buffer 256 device_info_text.

(** The text that the format of [discovery_topic] gives for a sensor. *)
Definition discovery_topic_text (s : ha_sensor_t) : string :=
  format
    [ MQTT_HA_DISCOVERY_PREFIX; "/sensor/sdm120_"; SDM120_SLAVE_IP cfg; "/";
      sensor_object_id s; "/config" ].

(** The text that the format of [discovery_payload] gives for a sensor. *)
Definition discovery_payload_text (s : ha_sensor_t) : string :=
  format
    [ "{";
      quoted "name"; ":"; quoted (sensor_name s); ",";
      quoted "object_id"; ":";
      quoted (format ["sdm120_"; SDM120_SLAVE_IP cfg; "_"; sensor_object_id s]); ",";
      quoted "unique_id"; ":";
      quoted (format ["sdm120_"; SDM120_SLAVE_IP cfg; "_"; sensor_object_id s]); ",";
      quoted "state_topic"; ":";
      quoted (format [MQTT_TOPIC_PREFIX cfg; "/"; sensor_topic_suffix s]); ",";
      quoted "availability_topic"; ":";
      quoted (String.append (MQTT_TOPIC_PREFIX cfg) "/status"); ",";
      quoted "device_class"; ":"; quoted (sensor_device_class s); ",";
      quoted "unit_of_measurement"; ":"; quoted (sensor_unit s); ",";
      quoted "state_class"; ":"; quoted (sensor_state_class s); ",";
      quoted "icon"; ":"; quoted (sensor_icon s); ",";
      quoted "value_template"; ":"; quoted "{{ value | float }}"; ",";
      device_info;
      "}" ].

(** [discovery_topic] and [discovery_payload] as they are published. *)
Definition discovery_topic (s : ha_sensor_t) : string :=
  sanitize_topic (snprintf_buffer 128 (discovery_topic_text s)).

Definition discovery_payload (before : ascii) (s : ha_sensor_t) : string :=
  sanitize_payload before (snprintf_buffer 1024 (discovery_payload_text s)).

(** The body of [for (int i = 0; i < 10; i++)] for the entries of
    [sensors[]] from [i] on. *)
Fixpoint publish_discovery (entries : list ha_sensor_t) : T ha_event unit :=
  match entries with
  | [] => retT tt
  | s :: entries' =>
      let payload_len := snprintf_result (discovery_payload_text s) in
      before <- askT (byte_before_payload broker) ;;
      msg_id <- ha_esp_mqtt_client_publish (discovery_topic s)
                  (discovery_payload before s) payload_len 0 1 ;;
      (if msg_id =? -1 then HA_LOGW (LOG_HA_PUBLISH_FAILED (sensor_name s))
       else retT tt) ;;
      ha_vTaskDelay 50 ;;
      publish_discovery entries'
  end.

(** [static esp_err_t mqtt_publish_ha_discovery(void)], with the globals
    [mqtt_connected] and [mqtt_client] ([false] for [NULL]) as it finds
    them. *)
Definition mqtt_publish_ha_discovery (mqtt_connected mqtt_client : bool)
    : T ha_event esp_err_t :=
  if (negb mqtt_connected || negb mqtt_client ||
      negb (MQTT_HOME_ASSISTANT_DISCOVERY cfg))%bool then
    retT ESP_ERR_INVALID_STATE
  else
    HA_LOGI LOG_HA_PUBLISHING ;;
    publish_discovery sensors ;;
    _ <- ha_esp_mqtt_client_publish (snprintf_topic cfg "/status") "online" 0 0 1 ;;
    HA_LOGI LOG_HA_PUBLISHED ;;
    retT ESP_OK.

(** [static void mqtt_event_handler(...)]: the argument [mqtt_connected] is
    the global as the handler finds it, the result the global as it leaves
    it. *)
Definition mqtt_event_handler (event : esp_mqtt_event_t)
    (mqtt_connected mqtt_client : bool) : T ha_event bool :=
  match event_id event with
  | MQTT_EVENT_CONNECTED =>
      HA_LOGI LOG_MQTT_CONNECTED ;;
      let mqtt_connected := true in
      (if MQTT_HOME_ASSISTANT_DISCOVERY cfg then
         ha_vTaskDelay 1000 ;;
         _ <- mqtt_publish_ha_discovery mqtt_connected mqtt_client ;;
         retT tt
       else retT tt) ;;
      retT mqtt_connected
  | MQTT_EVENT_DISCONNECTED =>
      HA_LOGW LOG_MQTT_DISCONNECTED ;;
      retT false
  | MQTT_EVENT_PUBLISHED => retT mqtt_connected
  | MQTT_EVENT_ERROR =>
      HA_LOGE LOG_MQTT_ERROR ;;
      (match error_type event with
       | MQTT_ERROR_TYPE_TCP_TRANSPORT =>
           HA_LOGE (LOG_TCP_TRANSPORT_ERROR (esp_tls_last_esp_err event))
       | MQTT_ERROR_TYPE_CONNECTION_REFUSED =>
           HA_LOGE LOG_CONNECTION_REFUSED ;;
           HA_LOGE LOG_CONNECTION_REFUSED_TIP
       | MQTT_ERROR_TYPE_OTHER => retT tt
       end) ;;
      retT false
  | MQTT_EVENT_OTHER => retT mqtt_connected
  end.

(** What the loop over the sensors publishes for one of them: the topic,
    the payload, its length, QoS 0 and the retain flag. *)
Definition discovery_call (s : ha_sensor_t) : string * string * Z * Z * Z :=
  (discovery_topic s, discovery_payload zero s,
   snprintf_result (discovery_payload_text s), 0, 1).

End Discovery.

(** The calls of [esp_mqtt_client_publish] of a trace, in order, without the
    message identifiers. *)
Definition ha_publish_call (e : ha_event) : list (string * string * Z * Z * Z) :=
  match e with
  | HaPublish topic data len qos retain _ => [(topic, data, len, qos, retain)]
  | _ => []
  end.

Definition ha_publish_calls (out : list ha_event) : list (string * string * Z * Z * Z) :=
  flat_map ha_publish_call out.

Definition ha_delay_of (e : ha_event) : list Z :=
  match e with
  | HaDelay ms => [ms]
  | _ => []
  end.

Definition ha_delays_of (out : list ha_event) : list Z := flat_map ha_delay_of out.

(** The messages that the client refused. *)
Definition is_refused (e : ha_event) : bool :=
  match e with
  | HaPublish _ _ _ _ _ msg_id => msg_id =? -1
  | _ => false
  end.

Definition is_publish_warning (e : ha_event) : bool :=
  match e with
  | HaLog ESP_LOG_WARN (LOG_HA_PUBLISH_FAILED _) => true
  | _ => false
  end.

(** A broker client that accepts every message; the byte before the
    payload is a double quote. *)
Definition broker_example : ha_environment :=
  {| ha_publish_answer := fun _ _ _ _ _ _ => 1;
     byte_before_payload := fun _ => double_quote |}.

(** ** The Wi-Fi event handler and the reconnect task

    [wifi_event_handler] runs in the task of the event loop,
    [wifi_reconnect_task] in a task of its own; both write the globals
    [s_retry_num] and [wifi_connected].  The handler is a function of the
    event and of the globals; a pass of the task is cut in two at
    [xEventGroupWaitBits], where it blocks and the handler may run. *)

Inductive wifi_log_line : Type :=
| LOG_WIFI_STA_STARTED
| LOG_WIFI_RETRY (retry maximum : Z)
| LOG_WIFI_FAILED (maximum : Z)
| LOG_WIFI_GOT_IP
| LOG_WIFI_LOST
| LOG_WIFI_RECONNECTED
| LOG_WIFI_RECONNECT_FAILED.

(** The calls that the handler and the task make. *)
Inductive wifi_call : Type :=
| WifiLog (level : esp_log_level_t) (line : wifi_log_line)
| esp_wifi_connect
| xEventGroupSetBits (bits : Z)
| xEventGroupWaitBits (bits_to_wait_for : Z) (timeout_ms : Z)
| xEventGroupClearBits (bits : Z)
| WifiDelay (ms : Z).

(** The events that the handler tells apart, event base and event
    identifier together. *)
Inductive wifi_event_t : Type :=
| WIFI_EVENT_STA_START
| WIFI_EVENT_STA_DISCONNECTED
| IP_EVENT_STA_GOT_IP
| WIFI_EVENT_OTHER.

(** The globals [s_retry_num] and [wifi_connected]. *)
Record wifi_globals : Type := {
  s_retry_num : Z;
  wifi_is_connected : bool
}.

(** The settings of the Wi-Fi connection. *)
Record wifi_config : Type := {
  CONFIG_WIFI_MAXIMUM_RETRY : Z;
  CONFIG_WIFI_CONNECT_TIMEOUT_MS : Z;
  CONFIG_WIFI_RECONNECT_INTERVAL_MS : Z
}.

Definition WIFI_CONNECTED_BIT : Z := 1.
Definition WIFI_FAIL_BIT : Z := 2.

Section Wifi.

Variable wcfg : wifi_config.

Definition WIFI_MAXIMUM_RETRY : Z := CONFIG_WIFI_MAXIMUM_RETRY wcfg.
Definition WIFI_CONNECT_TIMEOUT_MS : Z := CONFIG_WIFI_CONNECT_TIMEOUT_MS wcfg.
Definition WIFI_RECONNECT_INTERVAL_MS : Z := CONFIG_WIFI_RECONNECT_INTERVAL_MS wcfg.

(** [static void wifi_event_handler(...)]: the globals afterwards and the
    calls made. *)
Definition wifi_event_handler (event : wifi_event_t) (g : wifi_globals)
    : wifi_globals * list wifi_call :=
  match event with
  | WIFI_EVENT_STA_START =>
      (g, [WifiLog ESP_LOG_INFO LOG_WIFI_STA_STARTED; esp_wifi_connect])
  | WIFI_EVENT_STA_DISCONNECTED =>
      if s_retry_num g <? WIFI_MAXIMUM_RETRY then
        ({| s_retry_num := s_retry_num g + 1; wifi_is_connected := false |},
         [esp_wifi_connect;
          WifiLog ESP_LOG_WARN (LOG_WIFI_RETRY (s_retry_num g + 1) WIFI_MAXIMUM_RETRY)])
      else
        ({| s_retry_num := s_retry_num g; wifi_is_connected := false |},
         [WifiLog ESP_LOG_ERROR (LOG_WIFI_FAILED WIFI_MAXIMUM_RETRY);
          xEventGroupSetBits WIFI_FAIL_BIT])
  | IP_EVENT_STA_GOT_IP =>
      ({| s_retry_num := 0; wifi_is_connected := true |},
       [WifiLog ESP_LOG_INFO LOG_WIFI_GOT_IP; xEventGroupSetBits WIFI_CONNECTED_BIT])
  | WIFI_EVENT_OTHER => (g, [])
  end.

(** A pass of [while (true)] in [wifi_reconnect_task] up to the point where
    it blocks in [xEventGroupWaitBits], or to its end when the link is up;
    [ret] is what [esp_wifi_sta_get_ap_info] returned. *)
Definition wifi_reconnect_check (ret : esp_err_t) (g : wifi_globals)
    : wifi_globals * list wifi_call :=
  if (negb (is_ESP_OK ret) || negb (wifi_is_connected g))%bool then
    ({| s_retry_num := 0; wifi_is_connected := false |},
     [WifiLog ESP_LOG_WARN LOG_WIFI_LOST; esp_wifi_connect;
      xEventGroupWaitBits (Z.lor WIFI_CONNECTED_BIT WIFI_FAIL_BIT) WIFI_CONNECT_TIMEOUT_MS])
  else (g, [WifiDelay WIFI_RECONNECT_INTERVAL_MS]).

(** The rest of the pass, once [xEventGroupWaitBits] has returned [bits]. *)
Definition wifi_reconnect_result (bits : Z) : list wifi_call :=
  (if negb (Z.land bits WIFI_CONNECTED_BIT =? 0) then
     [WifiLog ESP_LOG_INFO LOG_WIFI_RECONNECTED]
   else if negb (Z.land bits WIFI_FAIL_BIT =? 0) then
     [WifiLog ESP_LOG_ERROR LOG_WIFI_RECONNECT_FAILED]
   else []) ++
  [xEventGroupClearBits (Z.lor WIFI_CONNECTED_BIT WIFI_FAIL_BIT);
   WifiDelay WIFI_RECONNECT_INTERVAL_MS].

(** What can happen to the globals, in the order in which it happens: the
    handler handles an event, the task starts a pass, the task comes back
    from [xEventGroupWaitBits]. *)
Inductive wifi_step : Type :=
| HandlerRuns (event : wifi_event_t)
| TaskChecks (ret : esp_err_t)
| TaskWakes (bits : Z).

Definition wifi_do (step : wifi_step) (g : wifi_globals)
    : wifi_globals * list wifi_call :=
  match step with
  | HandlerRuns event => wifi_event_handler event g
  | TaskChecks ret => wifi_reconnect_check ret g
  | TaskWakes bits => (g, wifi_reconnect_result bits)
  end.

Fixpoint wifi_run (steps : list wifi_step) (g : wifi_globals)
    : wifi_globals * list wifi_call :=
  match steps with
  | [] => (g, [])
  | step :: steps' =>
      let (g1, calls1) := wifi_do step g in
      let (g2, calls2) := wifi_run steps' g1 in
      (g2, calls1 ++ calls2)
  end.

End Wifi.

(** The globals at start-up. *)
Definition wifi_globals_initial : wifi_globals :=
  {| s_retry_num := 0; wifi_is_connected := false |}.

Definition is_esp_wifi_connect (c : wifi_call) : bool :=
  match c with
  | esp_wifi_connect => true
  | _ => false
  end.

Definition is_fail_bit_set (c : wifi_call) : bool :=
  match c with
  | xEventGroupSetBits bits => bits =? WIFI_FAIL_BIT
  | _ => false
  end.

(** How often [esp_wifi_connect] is called, and how often [WIFI_FAIL_BIT]
    is set. *)
Definition connect_calls (calls : list wifi_call) : nat :=
  List.length (filter is_esp_wifi_connect calls).

Definition fail_bits_set (calls : list wifi_call) : nat :=
  List.length (filter is_fail_bit_set calls).

Definition is_sta_start (event : wifi_event_t) : bool :=
  match event with
  | WIFI_EVENT_STA_START => true
  | _ => false
  end.

Definition is_sta_disconnected (event : wifi_event_t) : bool :=
  match event with
  | WIFI_EVENT_STA_DISCONNECTED => true
  | _ => false
  end.

Definition is_got_ip (event : wifi_event_t) : bool :=
  match event with
  | IP_EVENT_STA_GOT_IP => true
  | _ => false
  end.

Definition wifi_config_example : wifi_config :=
  {| CONFIG_WIFI_MAXIMUM_RETRY := 5;
     CONFIG_WIFI_CONNECT_TIMEOUT_MS := 10000;
     CONFIG_WIFI_RECONNECT_INTERVAL_MS := 30000 |}.

From Stdlib Require DecimalNat DecimalString.

(** ** [is_valid_ip]

    The function relies on [sscanf] with the format of four [%d] separated
    by dots.  A [%d] skips white space, takes an optional sign and then as
    many decimal digits as there are, at least one; a dot of the format
    matches a dot of the input and nothing else; what follows the fourth
    number is not looked at.  The C standard leaves the behaviour undefined
    when a number cannot be represented in an [int]. *)

Definition isspace (c : ascii) : bool :=
  let n := nat_of_ascii c in
  ((n =? 32) || ((9 <=? n) && (n <=? 13)))%nat%bool.

Definition isdigit (c : ascii) : bool :=
  let n := nat_of_ascii c in
  ((48 <=? n) && (n <=? 57))%nat%bool.

Definition digit_value (c : ascii) : Z := Z.of_nat (nat_of_ascii c) - 48.

Definition INT_MAX : Z := 2147483647.
Definition INT_MIN : Z := -2147483648.

Fixpoint skip_spaces (s : string) : string :=
  match s with
  | EmptyString => EmptyString
  | String c rest => if isspace c then skip_spaces rest else s
  end.

(** The run of digits at the start of [s]: its value, continued from
    [acc], and what follows it. *)
Fixpoint scan_digits (acc : Z) (s : string) : Z * string :=
  match s with
  | EmptyString => (acc, s)
  | String c rest =>
      if isdigit c then scan_digits (10 * acc + digit_value c) rest else (acc, s)
  end.

Definition starts_with_digit (s : string) : bool :=
  match s with
  | String c _ => isdigit c
  | EmptyString => false
  end.

Inductive conversion : Type :=
| Converted (value : Z) (rest : string)
| MatchingFailure
| NotRepresentable.

(** The directive [%d]. *)
Definition scan_int (s : string) : conversion :=
  let s := skip_spaces s in
  let negative :=
    match s with
    | String c _ => (c =? "-")%char
    | EmptyString => false
    end in
  let s :=
    match s with
    | String c rest => if ((c =? "-")%char || (c =? "+")%char)%bool then rest else s
    | EmptyString => s
    end in
  if starts_with_digit s then
    let (magnitude, rest) := scan_digits 0 s in
    let value := if negative then - magnitude else magnitude in
    if ((INT_MIN <=? value) && (value <=? INT_MAX))%bool then Converted value rest
    else NotRepresentable
  else MatchingFailure.

(** A dot in the format. *)
Definition scan_dot (s : string) : option string :=
  match s with
  | String c rest => if (c =? ".")%char then Some rest else None
  | EmptyString => None
  end.

(** [n] directives [%d] with dots between them: the values assigned so
    far, or [None] when the behaviour is undefined. *)
Fixpoint scan_dotted (n : nat) (s : string) (assigned : list Z) : option (list Z) :=
  match n with
  | O => Some assigned
  | S n' =>
      match scan_int s with
      | NotRepresentable => None
      | MatchingFailure => Some assigned
      | Converted value rest =>
          let assigned := assigned ++ [value] in
          match n' with
          | O => Some assigned
          | S _ =>
              match scan_dot rest with
              | Some rest' => scan_dotted n' rest' assigned
              | None => Some assigned
              end
          end
      end
  end.

(** [sscanf(ip, "%d.%d.%d.%d", &a, &b, &c, &d)]: the return value, which is
    the number of values assigned, or [EOF] when the input ends before the
    first number, together with the values. *)
Definition sscanf_dotted_quad (ip : string) : option (Z * list Z) :=
  match scan_dotted 4 ip [] with
  | None => None
  | Some [] =>
      Some (match skip_spaces ip with EmptyString => -1 | _ => 0 end, [])
  | Some assigned => Some (Z.of_nat (List.length assigned), assigned)
  end.

(** [static bool is_valid_ip(const char* ip)]: [None] as argument is
    [NULL], [None] as result is undefined behaviour. *)
Definition is_valid_ip (ip : option string) : option bool :=
  match ip with
  | None => Some false
  | Some ip =>
      match sscanf_dotted_quad ip with
      | None => None
      | Some (count, [a; b; c; d]) =>
          if count =? 4 then
            Some (((0 <=? a) && (a <=? 255)) && ((0 <=? b) && (b <=? 255)) &&
                  ((0 <=? c) && (c <=? 255)) && ((0 <=? d) && (d <=? 255)))%bool
          else Some false
      | Some _ => Some false
      end
  end.

(** A number as [printf] writes it with [%u], and four of them with dots in
    between. *)
Definition decimal (n : nat) : string := DecimalString.NilEmpty.string_of_uint (Nat.to_uint n).

Definition dotted_quad (a b c d : nat) : string :=
  format [decimal a; "."; decimal b; "."; decimal c; "."; decimal d].

(** ** Start-up: [wifi_init_and_connect], [init_services], [master_init],
    [mqtt_init] and [app_main]

    The calls into the libraries are events with the result that the
    library gave.  [ESP_ERROR_CHECK] is taken as ESP-IDF defines it when
    assertions are enabled, which is the default: a result other than
    [ESP_OK] aborts the program.  A computation therefore returns, aborts,
    or, where [is_valid_ip] is undefined, does something undefined.  Log
    lines that are empty are left out here too. *)

Inductive startup_log_line : Type :=
(* wifi_init_and_connect *)
| LOG_WIFI_SSID_NOT_CONFIGURED
| LOG_WIFI_INITIALIZING (ssid : string)
| LOG_WIFI_NO_EVENT_GROUP
| LOG_WIFI_NO_STATION_INTERFACE
| LOG_WIFI_USING_WPA
| LOG_WIFI_OPEN_NETWORK
| LOG_WIFI_POWER_SAVE
| LOG_WIFI_INIT_COMPLETE
| LOG_WIFI_CONNECTED (ssid : string)
| LOG_WIFI_CONNECT_FAILED (ssid : string)
| LOG_WIFI_CONNECT_TIMEOUT (timeout_ms : Z)
(* init_services *)
| LOG_NVS_INITIALIZING
| LOG_NVS_ERASING
| LOG_NETIF_INITIALIZING
| LOG_WIFI_CONNECTING
| LOG_IP_VALIDATING
| LOG_IP_INVALID (ip : string)
| LOG_SLAVE_CONFIGURED (ip : string) (port : Z)
(* master_init *)
| LOG_MASTER_INITIALIZING (ip : string) (port : Z)
| LOG_MB_INIT_FAIL
| LOG_MB_INIT_FAIL_RETURNS (err : esp_err_t)
| LOG_MASTER_NO_NETIF
| LOG_MB_SETUP_FAIL (err : esp_err_t)
| LOG_MB_SET_DESCRIPTOR_FAIL (err : esp_err_t)
| LOG_MASTER_INITIALIZED (count : nat)
| LOG_RETRY_LOGIC_CONFIGURING
| LOG_SOFTWARE_TIMEOUT (target_ms : Z)
| LOG_DEFAULT_TIMEOUTS_NOTE
| LOG_MB_START_FAIL (err : esp_err_t)
| LOG_MASTER_STARTED
| LOG_INTER_PARAMETER_DELAY (ms : Z)
| LOG_RETRY_BASE_DELAY (ms : Z)
| LOG_MAX_RETRIES
(* mqtt_init *)
| LOG_LWT_CONFIGURED
| LOG_MQTT_AUTHENTICATION (username : string)
| LOG_MQTT_ANONYMOUS
| LOG_MQTT_CLIENT_INIT_FAILED
| LOG_MQTT_REGISTER_FAILED (err : esp_err_t)
| LOG_MQTT_START_FAILED (err : esp_err_t)
| LOG_MQTT_INITIALIZED (uri : string)
(* app_main *)
| LOG_APP_BANNER
| LOG_APP_TARGET (ip : string) (port : Z)
| LOG_APP_STEP_1
| LOG_APP_STEP_2
| LOG_APP_STEP_3
| LOG_APP_MQTT_INIT_FAILED (err : esp_err_t)
| LOG_APP_CONTINUING_WITHOUT_MQTT
| LOG_APP_STEP_4
| LOG_APP_STARTED
| LOG_APP_READING (ip : string)
| LOG_APP_PUBLISHING (uri : string)
| LOG_APP_TOPICS (prefix : string)
| LOG_APP_DISCOVERY_ENABLED
| LOG_APP_TASK_NOT_CREATED.

(** What [nvs_flash_init] returns, as far as [init_services] tells it
    apart. *)
Inductive nvs_result : Type :=
| NVS_OK
| ESP_ERR_NVS_NO_FREE_PAGES
| ESP_ERR_NVS_NEW_VERSION_FOUND
| NVS_OTHER_ERROR.

(** The Last Will that [mqtt_init] configures. *)
Record last_will_t : Type := {
  lwt_topic : string;
  lwt_msg : string;
  lwt_msg_len : Z;
  lwt_qos : Z;
  lwt_retain : Z
}.

(** The fields of [esp_mqtt_client_config_t] that [mqtt_init] sets. *)
Record esp_mqtt_client_config_t : Type := {
  broker_address_uri : string;
  credentials_client_id : string;
  session_keepalive : Z;
  network_reconnect_timeout_ms : Z;
  network_timeout_ms : Z;
  session_last_will : option last_will_t;
  credentials_username : option string;
  credentials_authentication_password : option string
}.

(** The fields of [wifi_config_t] that [wifi_init_and_connect] sets;
    [sta_open] stands for the threshold [WIFI_AUTH_OPEN] in place of
    [WIFI_AUTH_WPA2_PSK]. *)
Record wifi_sta_config_t : Type := {
  sta_ssid : string;
  sta_password : string;
  sta_open : bool
}.

(** The fields of [mb_communication_info_t] that [master_init] sets. *)
Record mb_communication_info_t : Type := {
  ip_port : Z;
  ip_addr : string;
  ip_netif_ptr : bool
}.

(** The tasks that are created. *)
Inductive task_t : Type := TASK_wifi_reconnect | TASK_sdm120_monitor.

(** The library calls that return an [esp_err_t]. *)
Inductive library_call : Type :=
| nvs_flash_erase
| esp_netif_init
| esp_event_loop_create_default
| esp_wifi_init
| esp_event_handler_instance_register_WIFI_EVENT
| esp_event_handler_instance_register_IP_EVENT
| esp_wifi_set_mode_STA
| esp_wifi_set_config (wifi_config : wifi_sta_config_t)
| esp_wifi_set_ps
| esp_wifi_start
| mbc_master_setup (comm_info : mb_communication_info_t)
| mbc_master_set_descriptor (count : nat)
| mbc_master_start
| esp_mqtt_client_register_event
| esp_mqtt_client_start.

(** The library calls that return a handle, [false] for [NULL]. *)
Inductive handle_call : Type :=
| xEventGroupCreate
| esp_netif_create_default_wifi_sta
| esp_mqtt_client_init (mqtt_cfg : esp_mqtt_client_config_t).

Inductive startup_event : Type :=
| StLog (level : esp_log_level_t) (line : startup_log_line)
| StCall (call : library_call) (result : esp_err_t)
| StHandle (call : handle_call) (handle : bool)
| StNvsFlashInit (result : nvs_result)
| StMasterInitTcp (result : esp_err_t) (master_handler : bool)
| StWaitBits (bits_to_wait_for : Z) (timeout_ms : Z) (bits : Z)
| StTaskCreate (task : task_t) (created : bool)
| StDelay (ms : Z).

(** The libraries at start-up. *)
Record startup_environment : Type := {
  library_answer : list startup_event -> library_call -> esp_err_t;
  handle_answer : list startup_event -> handle_call -> bool;
  nvs_flash_init_answer : list startup_event -> nvs_result;
  mbc_master_init_tcp_answer : list startup_event -> esp_err_t * bool;
  xEventGroupWaitBits_answer : list startup_event -> Z;
  xTaskCreate_answer : list startup_event -> task_t -> bool
}.

(** The settings that start-up reads besides those of [config]. *)
Record startup_config : Type := {
  CONFIG_WIFI_SSID : string;
  CONFIG_WIFI_PASSWORD : string;
  CONFIG_SDM120_DEVICE_PORT : Z;
  CONFIG_SDM120_MODBUS_TIMEOUT : Z;
  CONFIG_SDM120_MQTT_BROKER_URI : string;
  CONFIG_SDM120_MQTT_CLIENT_ID : string;
  CONFIG_SDM120_MQTT_USERNAME : string;
  CONFIG_SDM120_MQTT_PASSWORD : string
}.

(** The globals that start-up writes: the handles [s_wifi_event_group],
    [s_wifi_netif] and [mqtt_client], [false] for [NULL]. *)
Record startup_globals : Type := {
  g_wifi_event_group : bool;
  g_wifi_netif : bool;
  g_mqtt_client : bool
}.

Inductive startup_outcome (A : Type) : Type :=
| Returns (a : A)
| Aborts
| Undefined.

Arguments Returns {A} a.
Arguments Aborts {A}.
Arguments Undefined {A}.

(** A computation of start-up: from the globals and the history to an
    outcome, the globals afterwards and the events added. *)
Definition StartupM (A : Type) : Type :=
  startup_globals -> list startup_event ->
  startup_outcome A * startup_globals * list startup_event.

Definition retS {A : Type} (a : A) : StartupM A := fun g _ => (Returns a, g, []).

Definition bindS {A B : Type} (m : StartupM A) (k : A -> StartupM B) : StartupM B :=
  fun g h =>
    match m g h with
    | (Returns a, g1, out1) =>
        let '(b, g2, out2) := k a g1 (h ++ out1) in
        (b, g2, out1 ++ out2)
    | (Aborts, g1, out1) => (Aborts, g1, out1)
    | (Undefined, g1, out1) => (Undefined, g1, out1)
    end.

Definition emitS (e : startup_event) : StartupM unit := fun g _ => (Returns tt, g, [e]).

Definition abortS {A : Type} : StartupM A := fun g _ => (Aborts, g, []).

Definition undefinedS {A : Type} : StartupM A := fun g _ => (Undefined, g, []).

Definition readS {A : Type} (f : startup_globals -> A) : StartupM A :=
  fun g _ => (Returns (f g), g, []).

Definition writeS (f : startup_globals -> startup_globals) : StartupM unit :=
  fun g _ => (Returns tt, f g, []).

Declare Scope startup_scope.
Delimit Scope startup_scope with startup.

Notation "x <- c1 ;; c2" := (bindS c1 (fun x => c2))
  (at level 61, c1 at next level, right associativity) : startup_scope.
Notation "c1 ;; c2" := (bindS c1 (fun _ => c2))
  (at level 61, right associativity) : startup_scope.

Section Startup.

Local Open Scope startup_scope.

Variable cfg : config.
Variable scfg : startup_config.
Variable wcfg : wifi_config.
Variable lib : startup_environment.

Definition WIFI_SSID : string := CONFIG_WIFI_SSID scfg.
Definition WIFI_PASSWORD : string := CONFIG_WIFI_PASSWORD scfg.
Definition SDM120_SLAVE_PORT : Z := CONFIG_SDM120_DEVICE_PORT scfg.
Definition MODBUS_RESPONSE_TIMEOUT_MS : Z := CONFIG_SDM120_MODBUS_TIMEOUT scfg.
Definition MQTT_BROKER_URI : string := CONFIG_SDM120_MQTT_BROKER_URI scfg.
Definition MQTT_CLIENT_ID : string := CONFIG_SDM120_MQTT_CLIENT_ID scfg.
Definition MQTT_USERNAME : string := CONFIG_SDM120_MQTT_USERNAME scfg.
Definition MQTT_PASSWORD : string := CONFIG_SDM120_MQTT_PASSWORD scfg.

(** [static char* slave_ip_address = SDM120_SLAVE_IP;] *)
Definition slave_ip_address : string := SDM120_SLAVE_IP cfg.

Definition ST_LOGE (line : startup_log_line) : StartupM unit := emitS (StLog ESP_LOG_ERROR line).
Definition ST_LOGW (line : startup_log_line) : StartupM unit := emitS (StLog ESP_LOG_WARN line).
Definition ST_LOGI (line : startup_log_line) : StartupM unit := emitS (StLog ESP_LOG_INFO line).

Definition call (c : library_call) : StartupM esp_err_t :=
  fun g h =>
    let result := library_answer lib h c in
    (Returns result, g, [StCall c result]).

Definition create (c : handle_call) : StartupM bool :=
  fun g h =>
    let handle := handle_answer lib h c in
    (Returns handle, g, [StHandle c handle]).

Definition nvs_flash_init : StartupM nvs_result :=
  fun g h =>
    let result := nvs_flash_init_answer lib h in
    (Returns result, g, [StNvsFlashInit result]).

Definition mbc_master_init_tcp : StartupM (esp_err_t * bool) :=
  fun g h =>
    let (result, master_handler) := mbc_master_init_tcp_answer lib h in
    (Returns (result, master_handler), g, [StMasterInitTcp result master_handler]).

Definition xEventGroupWaitBits_startup (bits_to_wait_for timeout_ms : Z) : StartupM Z :=
  fun g h =>
    let bits := xEventGroupWaitBits_answer lib h in
    (Returns bits, g, [StWaitBits bits_to_wait_for timeout_ms bits]).

Definition xTaskCreate (task : task_t) : StartupM bool :=
  fun g h =>
    let created := xTaskCreate_answer lib h task in
    (Returns created, g, [StTaskCreate task created]).

Definition startup_vTaskDelay (ms : Z) : StartupM unit := emitS (StDelay ms).

(** [ESP_ERROR_CHECK(x)] *)
Definition ESP_ERROR_CHECK (x : StartupM esp_err_t) : StartupM unit :=
  err <- x ;;
  if is_ESP_OK err then retS tt else abortS.

(** [static esp_err_t wifi_init_and_connect(void)] *)
Definition wifi_init_and_connect : StartupM esp_err_t :=
  if (String.length WIFI_SSID =? 0)%nat then
    ST_LOGE LOG_WIFI_SSID_NOT_CONFIGURED ;;
    retS ESP_ERR_INVALID_ARG
  else
    ST_LOGI (LOG_WIFI_INITIALIZING WIFI_SSID) ;;
    event_group <- create xEventGroupCreate ;;
    writeS (fun g => {| g_wifi_event_group := event_group;
                        g_wifi_netif := g_wifi_netif g;
                        g_mqtt_client := g_mqtt_client g |}) ;;
    if negb event_group then
      ST_LOGE LOG_WIFI_NO_EVENT_GROUP ;;
      retS ESP_ERR_NO_MEM
    else
      ESP_ERROR_CHECK (call esp_netif_init) ;;
      netif <- create esp_netif_create_default_wifi_sta ;;
      writeS (fun g => {| g_wifi_event_group := g_wifi_event_group g;
                          g_wifi_netif := netif;
                          g_mqtt_client := g_mqtt_client g |}) ;;
      if negb netif then
        ST_LOGE LOG_WIFI_NO_STATION_INTERFACE ;;
        retS ESP_FAIL
      else
        ESP_ERROR_CHECK (call esp_wifi_init) ;;
        ESP_ERROR_CHECK (call esp_event_handler_instance_register_WIFI_EVENT) ;;
        ESP_ERROR_CHECK (call esp_event_handler_instance_register_IP_EVENT) ;;
        let ssid := substring 0 31 WIFI_SSID in
        wifi_config <-
          (if (0 <? String.length WIFI_PASSWORD)%nat then
             ST_LOGI LOG_WIFI_USING_WPA ;;
             retS {| sta_ssid := ssid;
                     sta_password := substring 0 63 WIFI_PASSWORD;
                     sta_open := false |}
           else
             ST_LOGI LOG_WIFI_OPEN_NETWORK ;;
             retS {| sta_ssid := ssid; sta_password := EmptyString; sta_open := true |}) ;;
        ESP_ERROR_CHECK (call esp_wifi_set_mode_STA) ;;
        ESP_ERROR_CHECK (call (esp_wifi_set_config wifi_config)) ;;
        ST_LOGI LOG_WIFI_POWER_SAVE ;;
        ESP_ERROR_CHECK (call esp_wifi_set_ps) ;;
        ESP_ERROR_CHECK (call esp_wifi_start) ;;
        ST_LOGI LOG_WIFI_INIT_COMPLETE ;;
        bits <- xEventGroupWaitBits_startup (Z.lor WIFI_CONNECTED_BIT WIFI_FAIL_BIT)
                  (WIFI_CONNECT_TIMEOUT_MS wcfg) ;;
        if negb (Z.land bits WIFI_CONNECTED_BIT =? 0) then
          ST_LOGI (LOG_WIFI_CONNECTED WIFI_SSID) ;;
          _ <- xTaskCreate TASK_wifi_reconnect ;;
          retS ESP_OK
        else if negb (Z.land bits WIFI_FAIL_BIT =? 0) then
          ST_LOGE (LOG_WIFI_CONNECT_FAILED WIFI_SSID) ;;
          retS ESP_FAIL
        else
          ST_LOGE (LOG_WIFI_CONNECT_TIMEOUT (WIFI_CONNECT_TIMEOUT_MS wcfg)) ;;
          retS ESP_ERR_TIMEOUT.

(** [static esp_err_t init_services(void)] *)
Definition init_services : StartupM esp_err_t :=
  ST_LOGI LOG_NVS_INITIALIZING ;;
  result <- nvs_flash_init ;;
  result <-
    (match result with
     | ESP_ERR_NVS_NO_FREE_PAGES | ESP_ERR_NVS_NEW_VERSION_FOUND =>
         ST_LOGW LOG_NVS_ERASING ;;
         ESP_ERROR_CHECK (call nvs_flash_erase) ;;
         nvs_flash_init
     | _ => retS result
     end) ;;
  (match result with
   | NVS_OK => retS tt
   | _ => abortS
   end) ;;
  ST_LOGI LOG_NETIF_INITIALIZING ;;
  ESP_ERROR_CHECK (call esp_netif_init) ;;
  ESP_ERROR_CHECK (call esp_event_loop_create_default) ;;
  ST_LOGI LOG_WIFI_CONNECTING ;;
  ESP_ERROR_CHECK wifi_init_and_connect ;;
  ST_LOGI LOG_IP_VALIDATING ;;
  match is_valid_ip (Some slave_ip_address) with
  | None => undefinedS
  | Some false =>
      ST_LOGE (LOG_IP_INVALID slave_ip_address) ;;
      retS ESP_ERR_INVALID_ARG
  | Some true =>
      ST_LOGI (LOG_SLAVE_CONFIGURED slave_ip_address SDM120_SLAVE_PORT) ;;
      retS ESP_OK
  end.

(** [static esp_err_t master_init(void)] *)
Definition master_init : StartupM esp_err_t :=
  ST_LOGI (LOG_MASTER_INITIALIZING slave_ip_address SDM120_SLAVE_PORT) ;;
  init <- mbc_master_init_tcp ;;
  let (err, master_handler) := init : esp_err_t * bool in
  if negb master_handler then
    ST_LOGE LOG_MB_INIT_FAIL ;;
    retS ESP_ERR_INVALID_STATE
  else if negb (is_ESP_OK err) then
    ST_LOGE (LOG_MB_INIT_FAIL_RETURNS err) ;;
    retS ESP_ERR_INVALID_STATE
  else
    netif <- readS g_wifi_netif ;;
    if negb netif then
      ST_LOGE LOG_MASTER_NO_NETIF ;;
      retS ESP_ERR_INVALID_STATE
    else
      let comm_info := {| ip_port := SDM120_SLAVE_PORT;
                          ip_addr := slave_ip_address;
                          ip_netif_ptr := netif |} in
      err <- call (mbc_master_setup comm_info) ;;
      if negb (is_ESP_OK err) then
        ST_LOGE (LOG_MB_SETUP_FAIL err) ;;
        retS ESP_ERR_INVALID_STATE
      else
        err <- call (mbc_master_set_descriptor sdm120_cid_count) ;;
        if negb (is_ESP_OK err) then
          ST_LOGE (LOG_MB_SET_DESCRIPTOR_FAIL err) ;;
          retS ESP_ERR_INVALID_STATE
        else
          ST_LOGI (LOG_MASTER_INITIALIZED sdm120_cid_count) ;;
          ST_LOGI LOG_RETRY_LOGIC_CONFIGURING ;;
          ST_LOGI (LOG_SOFTWARE_TIMEOUT MODBUS_RESPONSE_TIMEOUT_MS) ;;
          ST_LOGI LOG_DEFAULT_TIMEOUTS_NOTE ;;
          err <- call mbc_master_start ;;
          if negb (is_ESP_OK err) then
            ST_LOGE (LOG_MB_START_FAIL err) ;;
            retS ESP_ERR_INVALID_STATE
          else
            startup_vTaskDelay 500 ;;
            ST_LOGI LOG_MASTER_STARTED ;;
            ST_LOGI (LOG_INTER_PARAMETER_DELAY (MODBUS_INTER_PARAM_DELAY_MS cfg)) ;;
            ST_LOGI (LOG_RETRY_BASE_DELAY MODBUS_RETRY_DELAY_BASE_MS) ;;
            ST_LOGI LOG_MAX_RETRIES ;;
            retS err.

(** [static esp_err_t mqtt_init(void)] *)
Definition mqtt_init : StartupM esp_err_t :=
  last_will <-
    (if MQTT_HOME_ASSISTANT_DISCOVERY cfg then
       ST_LOGI LOG_LWT_CONFIGURED ;;
       retS (Some {| lwt_topic := snprintf_topic cfg "/status";
                     lwt_msg := "offline";
                     lwt_msg_len := 7;
                     lwt_qos := 0;
                     lwt_retain := 1 |})
     else retS None) ;;
  username <-
    (if (0 <? String.length MQTT_USERNAME)%nat then
       ST_LOGI (LOG_MQTT_AUTHENTICATION MQTT_USERNAME) ;;
       retS (Some MQTT_USERNAME)
     else
       ST_LOGI LOG_MQTT_ANONYMOUS ;;
       retS None) ;;
  let password :=
    if (0 <? String.length MQTT_PASSWORD)%nat then Some MQTT_PASSWORD else None in
  let mqtt_cfg := {| broker_address_uri := MQTT_BROKER_URI;
                     credentials_client_id := MQTT_CLIENT_ID;
                     session_keepalive := 60;
                     network_reconnect_timeout_ms := 5000;
                     network_timeout_ms := 10000;
                     session_last_will := last_will;
                     credentials_username := username;
                     credentials_authentication_password := password |} in
  client <- create (esp_mqtt_client_init mqtt_cfg) ;;
  writeS (fun g => {| g_wifi_event_group := g_wifi_event_group g;
                      g_wifi_netif := g_wifi_netif g;
                      g_mqtt_client := client |}) ;;
  if negb client then
    ST_LOGE LOG_MQTT_CLIENT_INIT_FAILED ;;
    retS ESP_FAIL
  else
    err <- call esp_mqtt_client_register_event ;;
    if negb (is_ESP_OK err) then
      ST_LOGE (LOG_MQTT_REGISTER_FAILED err) ;;
      retS err
    else
      err <- call esp_mqtt_client_start ;;
      if negb (is_ESP_OK err) then
        ST_LOGE (LOG_MQTT_START_FAILED err) ;;
        retS err
      else
        ST_LOGI (LOG_MQTT_INITIALIZED MQTT_BROKER_URI) ;;
        retS ESP_OK.

(** [void app_main(void)] *)
Definition app_main : StartupM unit :=
  ST_LOGI LOG_APP_BANNER ;;
  ST_LOGI (LOG_APP_TARGET (SDM120_SLAVE_IP cfg) SDM120_SLAVE_PORT) ;;
  ST_LOGI LOG_APP_STEP_1 ;;
  ESP_ERROR_CHECK init_services ;;
  ST_LOGI LOG_APP_STEP_2 ;;
  ESP_ERROR_CHECK master_init ;;
  ST_LOGI LOG_APP_STEP_3 ;;
  mqtt_result <- mqtt_init ;;
  (if negb (is_ESP_OK mqtt_result) then
     ST_LOGW (LOG_APP_MQTT_INIT_FAILED mqtt_result) ;;
     ST_LOGW LOG_APP_CONTINUING_WITHOUT_MQTT
   else retS tt) ;;
  ST_LOGI LOG_APP_STEP_4 ;;
  task_created <- xTaskCreate TASK_sdm120_monitor ;;
  if task_created then
    ST_LOGI LOG_APP_STARTED ;;
    ST_LOGI (LOG_APP_READING (SDM120_SLAVE_IP cfg)) ;;
    ST_LOGI (LOG_APP_PUBLISHING MQTT_BROKER_URI) ;;
    ST_LOGI (LOG_APP_TOPICS (MQTT_TOPIC_PREFIX cfg)) ;;
    if MQTT_HOME_ASSISTANT_DISCOVERY cfg then ST_LOGI LOG_APP_DISCOVERY_ENABLED
    else retS tt
  else
    ST_LOGE LOG_APP_TASK_NOT_CREATED.

End Startup.

(** [wpS m Q g h]: run with the globals [g] after the history [h], [m] ends
    with an outcome, globals and events that [Q] accepts. *)
Definition wpS {A : Type} (m : StartupM A)
    (Q : startup_outcome A -> startup_globals -> list startup_event -> Prop)
    (g : startup_globals) (h : list startup_event) : Prop :=
  let '(o, g', out) := m g h in Q o g' out.

(** The calls that [app_main] checks, directly or through the functions it
    calls: every library call except those of [mqtt_init]. *)
Definition is_mqtt_call (c : library_call) : bool :=
  match c with
  | esp_mqtt_client_register_event | esp_mqtt_client_start => true
  | _ => false
  end.

(** A call that gave what the program needs to go on. *)
Definition succeeded (e : startup_event) : bool :=
  match e with
  | StCall c result => (is_mqtt_call c || is_ESP_OK result)%bool
  | StHandle (esp_mqtt_client_init _) _ => true
  | StHandle _ handle => handle
  | StMasterInitTcp result master_handler => (is_ESP_OK result && master_handler)%bool
  | _ => true
  end.

Definition is_error_log (e : startup_event) : bool :=
  match e with
  | StLog ESP_LOG_ERROR _ => true
  | _ => false
  end.

Definition is_task_create (task : task_t) (e : startup_event) : bool :=
  match e, task with
  | StTaskCreate TASK_wifi_reconnect _, TASK_wifi_reconnect => true
  | StTaskCreate TASK_sdm120_monitor _, TASK_sdm120_monitor => true
  | _, _ => false
  end.

Definition is_modbus_call (e : startup_event) : bool :=
  match e with
  | StMasterInitTcp _ _ => true
  | StCall (mbc_master_setup _) _ | StCall (mbc_master_set_descriptor _) _
  | StCall mbc_master_start _ => true
  | _ => false
  end.

(** The first wait for the connection saw [WIFI_CONNECTED_BIT]. *)
Definition saw_connected_bit (e : startup_event) : bool :=
  match e with
  | StWaitBits _ _ bits => negb (Z.land bits WIFI_CONNECTED_BIT =? 0)
  | _ => false
  end.

(** A checked call that did not give [ESP_OK]. *)
Definition is_failed_call (e : startup_event) : bool :=
  match e with
  | StCall _ result => negb (is_ESP_OK result)
  | _ => false
  end.

Definition is_no_netif_log (e : startup_event) : bool :=
  match e with
  | StLog _ LOG_MASTER_NO_NETIF => true
  | _ => false
  end.

Definition is_mqtt_client_init (e : startup_event) : bool :=
  match e with
  | StHandle (esp_mqtt_client_init _) _ => true
  | _ => false
  end.

(** Settings and libraries to run start-up on: every call succeeds and the
    access point is reached. *)
Definition startup_config_example : startup_config :=
  {| CONFIG_WIFI_SSID := "home";
     CONFIG_WIFI_PASSWORD := "secret";
     CONFIG_SDM120_DEVICE_PORT := 502;
     CONFIG_SDM120_MODBUS_TIMEOUT := 1000;
     CONFIG_SDM120_MQTT_BROKER_URI := "mqtt://192.168.1.10:1883";
     CONFIG_SDM120_MQTT_CLIENT_ID := "esp32_sdm120";
     CONFIG_SDM120_MQTT_USERNAME := EmptyString;
     CONFIG_SDM120_MQTT_PASSWORD := EmptyString |}.

Definition startup_all_ok : startup_environment :=
  {| library_answer := fun _ _ => ESP_OK;
     handle_answer := fun _ _ => true;
     nvs_flash_init_answer := fun _ => NVS_OK;
     mbc_master_init_tcp_answer := fun _ => (ESP_OK, true);
     xEventGroupWaitBits_answer := fun _ => WIFI_CONNECTED_BIT;
     xTaskCreate_answer := fun _ _ => true |}.

Definition cfg_invalid_ip : config :=
  {| CONFIG_SDM120_DEVICE_IP := "192.168.1.256";
     CONFIG_SDM120_MQTT_TOPIC_PREFIX := "sdm120";
     CONFIG_SDM120_MQTT_HOME_ASSISTANT := true;
     CONFIG_SDM120_INTER_PARAM_DELAY := 50 |}.

(** The globals before [app_main]. *)
Definition startup_globals_initial : startup_globals :=
  {| g_wifi_event_group := false; g_wifi_netif := false; g_mqtt_client := false |}.

(** * Properties *)

(** ** Decoding *)

Lemma word_bytes (w : Z) :
  0 <= w < 65536 -> w mod 256 + 256 * ((w / 2 ^ 8) mod 256) = w.
Proof.
  intros Hw. change (2 ^ 8) with 256.
  rewrite (Z.mod_small (w / 256) 256) by (Z.div_mod_to_equations; lia).
  Z.div_mod_to_equations. lia.
Qed.

Lemma low_word_bytes (v : Z) :
  v mod 256 + 256 * ((v / 2 ^ 8) mod 256) = v mod 65536.
Proof.
  change (2 ^ 8) with 256. Z.div_mod_to_equations. lia.
Qed.

Lemma high_word_bytes (v : Z) :
  (v / 2 ^ 16) mod 256 + 256 * ((v / 2 ^ 24) mod 256) = (v / 65536) mod 65536.
Proof.
  change (2 ^ 16) with 65536. change (2 ^ 24) with (65536 * 256).
  rewrite <- Z.div_div by lia.
  rewrite <- (low_word_bytes (v / 65536)). reflexivity.
Qed.

Lemma convert_sdm120_ieee754_arith (raw : Z) :
  convert_sdm120_ieee754 raw = (raw / 65536) mod 65536 + 65536 * (raw mod 65536).
Proof.
  unfold convert_sdm120_ieee754, get_f.
  set (c := set_u32 raw).
  assert (H0 : get_words 0 c = raw mod 65536) by apply low_word_bytes.
  assert (H1 : get_words 1 c = (raw / 65536) mod 65536) by apply high_word_bytes.
  rewrite H0, H1. cbn [set_words bytes0 bytes1 bytes2 bytes3].
  pose proof (word_bytes (raw mod 65536)) as Hlo.
  pose proof (word_bytes ((raw / 65536) mod 65536)) as Hhi.
  pose proof (Z.mod_pos_bound raw 65536).
  pose proof (Z.mod_pos_bound (raw / 65536) 65536).
  change (2 ^ 24) with (65536 * 256). change (2 ^ 16) with 65536.
  change (2 ^ 8) with 256 in *. lia.
Qed.

Lemma word_swapped_payload_arith (f : Z) :
  word_swapped_payload f = 65536 * (f mod 65536) + (f / 65536) mod 65536.
Proof.
  unfold word_swapped_payload.
  change 0xFFFF with (Z.ones 16).
  rewrite !Z.land_ones by lia.
  rewrite Z.shiftl_mul_pow2, Z.shiftr_div_pow2 by lia.
  change (2 ^ 16) with 65536.
  rewrite <- Z.lxor_lor, <- Z.add_nocarry_lxor; try lia.
  all: rewrite <- (Z.shiftl_mul_pow2 _ 16) by lia;
       change 65536 with (2 ^ 16); rewrite <- (Z.land_ones (f / 2 ^ 16) 16) by lia;
       apply Z.bits_inj'; intros n Hn;
       rewrite Z.land_spec, Z.land_spec, Z.bits_0;
       destruct (Z.ltb_spec n 16);
       [ rewrite Z.shiftl_spec_low by lia; reflexivity
       | rewrite Z.ones_spec_high by lia; rewrite !andb_false_r; reflexivity ].
Qed.

Lemma convert_word_swapped_payload (f : Z) :
  0 <= f < 2 ^ 32 -> convert_sdm120_ieee754 (word_swapped_payload f) = f.
Proof.
  intros Hf. rewrite convert_sdm120_ieee754_arith, word_swapped_payload_arith.
  change (2 ^ 32) with 4294967296 in Hf.
  Z.div_mod_to_equations. lia.
Qed.

(** The binary32 patterns and the binary32 values correspond. *)

Lemma digits2_pos_size (m : positive) : digits2_pos m = Pos.size m.
Proof. induction m; simpl; congruence. Qed.

Lemma digits2_pos_bounds (m : positive) :
  2 ^ (Zpos (digits2_pos m) - 1) <= Zpos m < 2 ^ Zpos (digits2_pos m).
Proof.
  rewrite digits2_pos_size.
  pose proof (Pos.size_gt m) as Hgt. pose proof (Pos.size_le m) as Hle.
  apply Pos2Z.pos_lt_pos in Hgt. apply Pos2Z.pos_le_pos in Hle.
  rewrite Pos2Z.inj_pow in Hgt, Hle.
  replace (Zpos (Pos.size m)) with (Z.succ (Zpos (Pos.size m) - 1)) in Hle by lia.
  rewrite Z.pow_succ_r in Hle by lia.
  change (Zpos m~0) with (2 * Zpos m) in Hle. lia.
Qed.

Lemma is_binary32_finite (s : bool) (m : positive) (e : Z) :
  is_binary32 (S754_finite s m e) = true ->
  (e = -149 /\ Zpos m < 2 ^ 23) \/ (-149 <= e <= 104 /\ 2 ^ 23 <= Zpos m < 2 ^ 24).
Proof.
  unfold is_binary32, valid_binary, bounded, canonical_mantissa, fexp, emin, prec, emax.
  intros H. apply andb_true_iff in H. destruct H as [Hc He].
  apply Z.eqb_eq in Hc. apply Z.leb_le in He.
  pose proof (digits2_pos_bounds m) as [Hlo Hhi].
  set (d := Zpos (digits2_pos m)) in *.
  assert (Hd : 0 < d) by (unfold d; lia).
  destruct (Z.le_gt_cases d 23) as [Hd23 | Hd23].
  - left. split; [lia|].
    apply Z.lt_le_trans with (2 ^ d); [assumption|].
    apply Z.pow_le_mono_r; lia.
  - right. assert (d = 24) by lia. subst d. rewrite H in *.
    change (24 - 1) with 23 in Hlo. lia.
Qed.

Lemma float_of_value_range (v : spec_float) :
  is_binary32 v = true -> 0 <= float_of_value v < 2 ^ 32.
Proof.
  intros Hv. change (2 ^ 32) with 4294967296.
  destruct v as [s | s | | s m e]; unfold float_of_value, sign_bit.
  - change (2 ^ 31) with 2147483648. destruct s; lia.
  - change (2 ^ 31) with 2147483648. change (2 ^ 23) with 8388608. destruct s; lia.
  - lia.
  - apply is_binary32_finite in Hv.
    change (2 ^ 31) with 2147483648.
    change (2 ^ 23) with 8388608 in *. change (2 ^ 24) with 16777216 in *.
    destruct (Z.ltb_spec (Zpos m) 8388608); destruct s; lia.
Qed.

Lemma pattern_fields (sg E m : Z) :
  0 <= sg <= 1 -> 0 <= E < 256 -> 0 <= m < 8388608 ->
  let x := sg * 2147483648 + E * 8388608 + m in
  x / 2 ^ 31 = sg /\ (x / 2 ^ 23) mod 2 ^ 8 = E /\ x mod 2 ^ 23 = m.
Proof.
  intros Hs HE Hm x. subst x.
  change (2 ^ 31) with 2147483648. change (2 ^ 23) with 8388608.
  change (2 ^ 8) with 256.
  repeat split; Z.div_mod_to_equations; lia.
Qed.

Lemma float_value_fields (s : bool) (E m : Z) :
  0 <= E < 256 -> 0 <= m < 8388608 ->
  float_value (sign_bit s + E * 8388608 + m) =
    if E =? 0 then
      match m with
      | Zpos p => S754_finite s p (-149)
      | _ => S754_zero s
      end
    else if E =? 255 then
      if m =? 0 then S754_infinity s else S754_nan
    else
      match m + 8388608 with
      | Zpos p => S754_finite s p (E - 150)
      | _ => S754_nan
      end.
Proof.
  intros HE Hm.
  assert (Hsg : sign_bit s = (if s then 1 else 0) * 2147483648)
    by (destruct s; reflexivity).
  destruct (pattern_fields (if s then 1 else 0) E m) as (H31 & H23 & H0);
    [destruct s; lia | assumption | assumption |].
  unfold float_value. rewrite Hsg, H31, H23, H0.
  replace (Z.odd (if s then 1 else 0)) with s by (destruct s; reflexivity).
  reflexivity.
Qed.

Lemma float_value_of_value (v : spec_float) :
  is_binary32 v = true -> float_value (float_of_value v) = v.
Proof.
  intros Hv. destruct v as [s | s | | s m e].
  - destruct s; vm_compute; reflexivity.
  - destruct s; vm_compute; reflexivity.
  - vm_compute; reflexivity.
  - apply is_binary32_finite in Hv.
    change (2 ^ 23) with 8388608 in Hv. change (2 ^ 24) with 16777216 in Hv.
    unfold float_of_value. change (2 ^ 23) with 8388608.
    destruct (Z.ltb_spec (Zpos m) 8388608) as [Hsub | Hnorm].
    + destruct Hv as [[He _] | [_ Hm]]; [subst e | lia].
      replace (sign_bit s + Zpos m) with (sign_bit s + 0 * 8388608 + Zpos m) by lia.
      rewrite float_value_fields by lia. reflexivity.
    + destruct Hv as [[_ Hm] | [He Hm]]; [lia |].
      rewrite float_value_fields by lia.
      destruct (Z.eqb_spec (e + 150) 0); [lia |].
      destruct (Z.eqb_spec (e + 150) 255); [lia |].
      replace (Zpos m - 8388608 + 8388608) with (Zpos m) by lia.
      f_equal. lia.
Qed.

(** The constants of the advisory checks, and the comparisons at the
    boundaries. *)

Lemma float_of_int_patterns :
  map (fun n => float_of_value (float_of_int n)) [0; 45; 65; 500; 10000] =
  [0x00000000; 0x42340000; 0x42820000; 0x43FA0000; 0x461C4000].
Proof. vm_compute. reflexivity. Qed.

(** [double_1_1] is within half a unit in the last place of 11/10:
    |m * 2^-52 - 11/10| <= 2^-53, multiplied by 10 * 2^52. *)
Lemma double_1_1_nearest :
  double_1_1 = S754_finite false 4953959590107546 (-52) /\
  valid_binary 53 1024 double_1_1 = true /\
  Z.abs (10 * 4953959590107546 - 11 * 2 ^ 52) <= 5.
Proof. repeat split. vm_compute. discriminate. Qed.

Lemma digits2_pos_iter_xO (m p : positive) :
  digits2_pos (Pos.iter xO m p) = (digits2_pos m + p)%positive.
Proof.
  induction p as [| p IH] using Pos.peano_ind.
  - cbn. lia.
  - rewrite Pos.iter_succ. cbn [digits2_pos]. rewrite IH. lia.
Qed.

(** A promoted binary32 number is a binary64 number. *)
Lemma promote_binary64 (v : spec_float) :
  is_binary32 v = true -> valid_binary 53 1024 (promote v) = true.
Proof.
  destruct v as [s | s | | s m e]; try reflexivity.
  intros Hv. pose proof (is_binary32_finite s m e Hv) as Hrange.
  pose proof (digits2_pos_bounds m) as Hd.
  assert (Hdig : 1 <= Zpos (digits2_pos m) <= 24).
  { split; [lia |].
    destruct (Z.le_gt_cases (Zpos (digits2_pos m)) 24) as [Hle | Hgt]; [exact Hle |].
    assert (2 ^ 24 <= 2 ^ (Zpos (digits2_pos m) - 1)) by (apply Z.pow_le_mono_r; lia).
    change (2 ^ 23) with 8388608 in Hrange. change (2 ^ 24) with 16777216 in *.
    lia. }
  unfold promote, valid_binary, bounded, canonical_mantissa, fexp, emin.
  set (d := Zpos (digits2_pos m)) in *.
  assert (Hshift : exists p, 53 - d = Zpos p) by (destruct (53 - d) eqn:E; try lia; eauto).
  destruct Hshift as [p Hp]. rewrite Hp. cbn [Z.to_N Pos.shiftl].
  rewrite digits2_pos_iter_xO, Pos2Z.inj_add. fold d. rewrite <- Hp.
  apply andb_true_iff. split.
  - apply Z.eqb_eq. lia.
  - apply Z.leb_le. lia.
Qed.

Lemma advisory_comparisons_at_the_bounds :
  float_lt_int 0x80000001 0 = true /\ float_lt_int 0x80000000 0 = false /\
  float_gt_int 0x43FA0001 500 = true /\ float_gt_int 0x43FA0000 500 = false /\
  float_lt_int 0x4233FFFF 45 = true /\ float_lt_int 0x42340000 45 = false /\
  float_gt_int 0x42820001 65 = true /\ float_gt_int 0x42820000 65 = false /\
  float_gt_double 0x3F8CCCCD double_1_1 = true /\
  float_gt_double 0x3F8CCCCC double_1_1 = false /\
  float_lt_double 0xBF8CCCCD double_minus_1_1 = true /\
  float_lt_double 0xBF8CCCCC double_minus_1_1 = false /\
  float_gt_double 0x7FC00000 double_1_1 = false /\
  float_lt_double 0x7FC00000 double_minus_1_1 = false.
Proof. vm_compute. repeat split. Qed.

(** C1.  Decoding undoes the word swap, for every 32-bit pattern [f] and
    every binary32 value [v]: applied to the four bytes of a float with their
    two 16-bit halves exchanged, [convert_sdm120_ieee754] gives back exactly
    that float, bit for bit, and so the value it denotes; equal inputs give
    equal outputs. *)
Theorem convert_sdm120_ieee754_roundtrip (f : float) (v : spec_float) :
  0 <= f < 2 ^ 32 ->
  is_binary32 v = true ->
  convert_sdm120_ieee754 (word_swapped_payload f) = f /\
  float_value (convert_sdm120_ieee754 (word_swapped_payload (float_of_value v))) = v /\
  (forall raw raw' : Z, raw = raw' ->
     convert_sdm120_ieee754 raw = convert_sdm120_ieee754 raw').
Proof.
  intros Hf Hv. split; [| split].
  - apply convert_word_swapped_payload; assumption.
  - rewrite convert_word_swapped_payload by (apply float_of_value_range; assumption).
    apply float_value_of_value; assumption.
  - intros raw raw' ->. reflexivity.
Qed.

(** C1 at 1.0. *)
Lemma convert_sdm120_ieee754_roundtrip_witness :
  convert_sdm120_ieee754 (word_swapped_payload 0x3F800000) = 0x3F800000 /\
  float_value (convert_sdm120_ieee754 (word_swapped_payload (float_of_value one))) = one /\
  (forall raw raw' : Z, raw = raw' ->
     convert_sdm120_ieee754 raw = convert_sdm120_ieee754 raw').
Proof.
  apply (convert_sdm120_ieee754_roundtrip 0x3F800000 one).
  - vm_compute. split; [discriminate | reflexivity].
  - vm_compute. reflexivity.
Defined.

(** C2, as the specification states it, fails: the raw value 0x80003F00
    decodes to the pattern 0x3F008000, the number 8421376 * 2^-24
    (0.501953125), not to 1.0. *)
Lemma convert_0x80003F00_not_one :
  convert_sdm120_ieee754 0x80003F00 = 0x3F008000 /\
  float_value (convert_sdm120_ieee754 0x80003F00) = S754_finite false 8421376 (-24) /\
  float_value (convert_sdm120_ieee754 0x80003F00) <> one /\
  convert_sdm120_ieee754 0x80003F00 <> float_of_value one.
Proof.
  repeat split; vm_compute; try reflexivity; discriminate.
Qed.

(** C2, amended.  The pattern of 1.0 is 0x3F800000; with its two halves
    exchanged it is 0x00003F80, and that raw value decodes to exactly 1.0. *)
Theorem convert_0x00003F80_is_one :
  float_of_value one = 0x3F800000 /\
  word_swapped_payload 0x3F800000 = 0x00003F80 /\
  convert_sdm120_ieee754 0x00003F80 = 0x3F800000 /\
  float_value (convert_sdm120_ieee754 0x00003F80) = one.
Proof.
  repeat split; vm_compute; reflexivity.
Qed.

(** ** Traces and sequencing *)

Lemma attempts_of_app (c : nat) (o1 o2 : list event) :
  attempts_of c (o1 ++ o2) = (attempts_of c o1 + attempts_of c o2)%nat.
Proof. unfold attempts_of. rewrite filter_app, length_app. reflexivity. Qed.

Lemma successes_app (o1 o2 : list event) :
  successes (o1 ++ o2) = (successes o1 + successes o2)%nat.
Proof. unfold successes. rewrite filter_app, length_app. reflexivity. Qed.

Lemma delays_of_app (o1 o2 : list event) :
  delays_of (o1 ++ o2) = delays_of o1 ++ delays_of o2.
Proof. apply flat_map_app. Qed.
Lemma publish_calls_app (o1 o2 : list event) :
  publish_calls (o1 ++ o2) = publish_calls o1 ++ publish_calls o2.
Proof. apply flat_map_app. Qed.
Lemma schedule_app (o1 o2 : list event) :
  schedule (o1 ++ o2) = schedule o1 ++ schedule o2.
Proof. apply flat_map_app. Qed.

(** The result and the events of a sequence. *)

Lemma bind_fst {A B : Type} (m : M A) (k : A -> M B) (h : list event) :
  fst (bind m k h) = fst (k (fst (m h)) (h ++ snd (m h))).
Proof.
  unfold bind. destruct (m h) as [a out1]. simpl.
  destruct (k a (h ++ out1)) as [b out2]. reflexivity.
Qed.

Lemma bind_snd {A B : Type} (m : M A) (k : A -> M B) (h : list event) :
  snd (bind m k h) = snd (m h) ++ snd (k (fst (m h)) (h ++ snd (m h))).
Proof.
  unfold bind. destruct (m h) as [a out1]. simpl.
  destruct (k a (h ++ out1)) as [b out2]. reflexivity.
Qed.

(** ** The retry loop *)

Section RetryLoop.

Variable env : environment.

(** One pass of the retry loop, unfolded. *)
Lemma retry_loop_step (k rc c : nat) (key : string) (e0 : esp_err_t) (raw0 : Z)
    (h : list event) :
  retry_loop env (S k) rc c key e0 raw0 h =
    let (err, raw) := mbc_master_get_parameter_answer env h c key in
    if is_ESP_OK err then ((err, raw, rc), [EvGetParameter c key err raw])
    else
      let pre :=
        EvGetParameter c key err raw ::
        (if (rc <? max_retries)%nat then
           [EvLog ESP_LOG_WARN
              (LOG_RETRY (rc + 1) max_retries c err
                 (MODBUS_RETRY_DELAY_BASE_MS + Z.of_nat rc * 300));
            EvDelay (MODBUS_RETRY_DELAY_BASE_MS + Z.of_nat rc * 300)]
         else []) in
      let (r, out) := retry_loop env k (S rc) c key err raw (h ++ pre) in
      (r, pre ++ out).
Proof.
  cbn [retry_loop]. unfold bind at 1. unfold mbc_master_get_parameter at 1.
  destruct (mbc_master_get_parameter_answer env h c key) as [err raw].
  destruct (is_ESP_OK err); [reflexivity |].
  unfold bind at 1.
  destruct (rc <? max_retries)%nat.
  - unfold bind at 1. unfold ESP_LOGW, vTaskDelay, emit.
    cbn [app]. rewrite <- !app_assoc. cbn [app].
    destruct (retry_loop env k (S rc) c key err raw _) as [r out]. reflexivity.
  - unfold ret at 1. cbn [app]. rewrite app_nil_r.
    destruct (retry_loop env k (S rc) c key err raw _) as [r out]. reflexivity.
Qed.

Lemma retry_schedule_cons (base step : Z) (rc n : nat) :
  (1 <= n)%nat ->
  None :: Some (base + Z.of_nat rc * step) :: retry_schedule base step (S rc) n =
  retry_schedule base step rc (S n).
Proof.
  intros Hn. unfold retry_schedule.
  replace (S n - 1)%nat with (S (n - 1)) by lia.
  cbn [seq flat_map app]. reflexivity.
Qed.

Lemma retry_loop_post (k : nat) :
  forall (rc c : nat) (key : string) (e0 : esp_err_t) (raw0 : Z) (h : list event),
    (k + rc = max_retries + 1)%nat -> (1 <= k)%nat ->
    satisfies (retry_loop env k rc c key e0 raw0) h (retry_post k rc c key).
Proof.
  induction k as [| k IH]; intros rc c key e0 raw0 h Hk Hpos; [lia |].
  unfold satisfies. rewrite retry_loop_step.
  destruct (mbc_master_get_parameter_answer env h c key) as [err raw].
  destruct (is_ESP_OK err) eqn:Herr.
  - cbn [fst snd retry_post]. rewrite Herr.
    unfold attempts_of. cbn. rewrite Nat.eqb_refl, Herr.
    repeat split; try reflexivity.
    + exists 1%nat. repeat split; try reflexivity; lia.
    + intros c' Hc'. destruct (Nat.eqb_spec c c'); [congruence | reflexivity].
  - destruct k as [| k].
    + (* last pass: nothing follows *)
      assert (Hrc : (rc <? max_retries)%nat = false)
        by (apply Nat.ltb_ge; unfold max_retries in *; lia).
      rewrite Hrc. cbv zeta. cbn [retry_loop ret fst snd retry_post app].
      unfold attempts_of. cbn. rewrite Nat.eqb_refl, Herr.
      repeat split; try reflexivity.
      * exists 1%nat. repeat split; try reflexivity; lia.
      * intros c' Hc'. destruct (Nat.eqb_spec c c'); [congruence | reflexivity].
    + assert (Hrc : (rc <? max_retries)%nat = true)
        by (apply Nat.ltb_lt; unfold max_retries in *; lia).
      rewrite Hrc. cbv zeta.
      match goal with
      | |- context [retry_loop env (S k) (S rc) c key err raw ?h'] =>
          specialize (IH (S rc) c key err raw h' ltac:(lia) ltac:(lia));
          unfold satisfies in IH;
          destruct (retry_loop env (S k) (S rc) c key err raw h') as [[[err' raw'] rc'] out]
      end.
      cbn [fst snd retry_post] in IH |- *.
      destruct IH as ((n & Hn & Hatt & Hsched) & Hother & Hsucc & Hpub & Hconn & Hinfo).
      repeat split.
      * exists (S n). repeat split; try lia.
        -- rewrite attempts_of_app, Hatt. unfold attempts_of. cbn.
           rewrite Nat.eqb_refl. reflexivity.
        -- rewrite schedule_app, Hsched. cbn [schedule flat_map schedule_of app].
           apply retry_schedule_cons. lia.
      * intros c' Hc'. rewrite attempts_of_app, (Hother c' Hc').
        unfold attempts_of. cbn.
        destruct (Nat.eqb_spec c c'); [congruence | reflexivity].
      * rewrite filter_app, Hsucc. cbn. rewrite Herr. reflexivity.
      * rewrite publish_calls_app, Hpub. reflexivity.
      * rewrite filter_app, Hconn. reflexivity.
      * intros c'. rewrite filter_app, Hinfo. reflexivity.
Qed.

End RetryLoop.

(** ** Events that touch neither the field bus nor the broker *)

Lemma local_attempts (c : nat) (out : list event) :
  forallb is_local out = true -> attempts_of c out = 0%nat.
Proof.
  unfold attempts_of. induction out as [| e out IH]; [reflexivity |].
  cbn [forallb]. intros H. apply andb_true_iff in H. destruct H as [He Hout].
  destruct e; try discriminate; cbn; auto.
Qed.

Lemma local_success (out : list event) :
  forallb is_local out = true -> filter is_success out = [].
Proof.
  induction out as [| e out IH]; [reflexivity |].
  cbn [forallb]. intros H. apply andb_true_iff in H. destruct H as [He Hout].
  destruct e; try discriminate; cbn; auto.
Qed.

Lemma local_publish (out : list event) :
  forallb is_local out = true -> publish_calls out = [].
Proof.
  induction out as [| e out IH]; [reflexivity |].
  cbn [forallb]. intros H. apply andb_true_iff in H. destruct H as [He Hout].
  destruct e; try discriminate; cbn; auto.
Qed.

Lemma local_cid_info (c : nat) (out : list event) :
  forallb is_local out = true -> filter (is_cid_info_of c) out = [].
Proof.
  induction out as [| e out IH]; [reflexivity |].
  cbn [forallb]. intros H. apply andb_true_iff in H. destruct H as [He Hout].
  destruct e; try discriminate; cbn; auto.
Qed.

Lemma check_sdm120_connectivity_local (env : environment) (h : list event) :
  forallb is_local (snd (check_sdm120_connectivity env h)) = true.
Proof.
  unfold check_sdm120_connectivity, bind, ask, ESP_LOGI, ESP_LOGW, emit, ret,
    esp_netif_is_netif_up.
  cbn [fst snd app].
  destruct (s_wifi_netif env _); cbn [negb]; [| reflexivity].
  destruct (esp_netif_is_netif_up_answer env _); cbn [negb]; [| reflexivity].
  destruct (wifi_connected env _); reflexivity.
Qed.

Lemma advisory_checks_local (c : nat) (v : float) (h : list event) :
  forallb is_local (snd (advisory_checks c v h)) = true.
Proof.
  unfold advisory_checks.
  repeat match goal with
         | |- context [if ?b then _ else _] => destruct b
         end; reflexivity.
Qed.

Lemma high_energy_note_local (c : nat) (v : float) (h : list event) :
  forallb is_local (snd (high_energy_note c v h)) = true.
Proof.
  unfold high_energy_note.
  match goal with
  | |- context [if ?b then _ else _] => destruct b
  end; reflexivity.
Qed.

(** ** One parameter of the batch *)

Section ReadParameter.

Variable cfg : config.
Variable env : environment.

Lemma read_parameter_unfold (c : nat) (st : batch_state) (h : list event) :
  read_parameter cfg env c st h =
    bind (mbc_master_get_cid_info env c)
      (fun '(err, param_descriptor) =>
         match (if is_ESP_OK err then param_descriptor else None) with
         | None => ESP_LOGE (LOG_NO_CID_INFO c err) ;; ret st
         | Some descr =>
             r <- retry_loop env (max_retries + 1) 0 c (param_key descr) ESP_FAIL 0 ;;
             after_retry cfg env c st r
         end) h.
Proof. reflexivity. Qed.

(** After the retry loop only local events follow; the data changes only
    by the store of a successful read, and the success counter counts it. *)
Lemma after_retry_post (c : nat) (st : batch_state) (read_err : esp_err_t)
    (raw : Z) (rc : nat) (h : list event) :
  satisfies (after_retry cfg env c st (read_err, raw, rc)) h (fun st' out =>
    forallb is_local out = true /\
    success_count st' =
      (success_count st + (if is_ESP_OK read_err then 1 else 0))%nat /\
    data st' =
      (if is_ESP_OK read_err then
         match store_converted_value c (convert_sdm120_ieee754 raw) (data st) with
         | Some d => d
         | None => data st
         end
       else data st)).
Proof.
  unfold satisfies, after_retry.
  rewrite bind_fst, bind_snd.
  destruct (is_ESP_OK read_err).
  - cbv zeta. rewrite !bind_fst, !bind_snd.
    pose proof (advisory_checks_local c (convert_sdm120_ieee754 raw) h) as Hadv.
    destruct (advisory_checks c (convert_sdm120_ieee754 raw) h) as [[] oa].
    cbn [fst snd] in *.
    destruct (store_converted_value c (convert_sdm120_ieee754 raw) (data st)) as [d |].
    + rewrite !bind_fst, !bind_snd.
      pose proof (high_energy_note_local c (convert_sdm120_ieee754 raw) (h ++ oa)) as Hnote.
      destruct (high_energy_note c (convert_sdm120_ieee754 raw) (h ++ oa)) as [[] on].
      cbn [fst snd] in *.
      destruct (c <? 3)%nat; cbn; rewrite ?forallb_app, ?Hadv, ?Hnote; cbn;
        repeat split; lia.
    + destruct (c <? 3)%nat; cbn; rewrite ?forallb_app, ?Hadv; cbn;
        repeat split; lia.
  - cbv zeta.
    set (tc := if is_ESP_ERR_TIMEOUT read_err then S (timeout_count st)
               else timeout_count st).
    destruct ((3 <=? tc)%nat && (2 <=? c)%nat)%bool.
    + unfold bind, ESP_LOGE, ESP_LOGW, vTaskDelay, emit, ret.
      cbn [fst snd app].
      match goal with
      | |- context [check_sdm120_connectivity env ?h'] =>
          pose proof (check_sdm120_connectivity_local env h') as Hloc;
          destruct (check_sdm120_connectivity env h') as [r out]
      end.
      cbn [fst snd] in *.
      destruct (c <? 3)%nat; cbn [fst snd app forallb is_local andb data success_count];
        rewrite ?forallb_app, ?Hloc; cbn; repeat split; lia.
    + destruct (c <? 3)%nat; cbn; repeat split; lia.
Qed.

Lemma is_ESP_OK_true (e : esp_err_t) : is_ESP_OK e = true -> e = ESP_OK.
Proof. unfold is_ESP_OK. destruct (esp_err_eq_dec e ESP_OK); [auto | discriminate]. Qed.

Lemma read_parameter_satisfies (c : nat) (st : batch_state) (h : list event) :
  satisfies (read_parameter cfg env c st) h (read_parameter_post c st).
Proof.
  unfold satisfies. rewrite read_parameter_unfold, bind_fst, bind_snd.
  unfold mbc_master_get_cid_info.
  destruct (mbc_master_get_cid_info_answer env h c) as [err pd]. cbn [fst snd].
  set (ev0 := EvGetCidInfo c err match pd with Some _ => true | None => false end).
  assert (Hinfo : forall c', filter (is_cid_info_of c') [ev0] =
                             if (c =? c')%nat then [ev0] else []) by reflexivity.
  destruct (if is_ESP_OK err then pd else None) as [descr |]; cbv beta iota.
  - rewrite bind_fst, bind_snd.
    pose proof (retry_loop_post env (max_retries + 1) 0 c (param_key descr) ESP_FAIL 0
                  (h ++ [ev0]) ltac:(lia) ltac:(unfold max_retries; lia)) as Hretry.
    unfold satisfies in Hretry.
    destruct (retry_loop env (max_retries + 1) 0 c (param_key descr) ESP_FAIL 0 (h ++ [ev0]))
      as [[[read_err raw] rc] out1].
    cbn [fst snd] in Hretry |- *.
    destruct Hretry as ((n & Hn & Hatt & _) & Hother & Hsucc & Hpub & _ & Hci).
    pose proof (after_retry_post c st read_err raw rc ((h ++ [ev0]) ++ out1)) as Hafter.
    unfold satisfies in Hafter.
    destruct (after_retry cfg env c st (read_err, raw, rc) ((h ++ [ev0]) ++ out1)) as [st' out2].
    cbn [fst snd] in Hafter |- *.
    destruct Hafter as (Hloc & Hcount & Hdata).
    unfold read_parameter_post.
    rewrite !attempts_of_app, !publish_calls_app, !successes_app, !filter_app.
    assert (Hs2 : successes out2 = 0%nat)
      by (unfold successes; rewrite (local_success out2 Hloc); reflexivity).
    assert (Hs1 : successes out1 = if is_ESP_OK read_err then 1%nat else 0%nat)
      by (unfold successes; rewrite Hsucc; destruct (is_ESP_OK read_err); reflexivity).
    rewrite (local_attempts c out2 Hloc), (local_publish out2 Hloc),
      (local_success out2 Hloc), Hpub, Hatt, Hsucc, Hs1, Hs2.
    replace (successes [ev0]) with 0%nat by reflexivity.
    replace (attempts_of c [ev0]) with 0%nat by reflexivity.
    replace (filter is_success [ev0]) with (@nil event) by reflexivity.
    replace (publish_calls [ev0]) with (@nil (string * payload * Z * Z)) by reflexivity.
    repeat split.
    + lia.
    + rewrite !attempts_of_app, (Hother c' H), (local_attempts c' out2 Hloc). reflexivity.
    + rewrite !filter_app, Hinfo, Hci, (local_cid_info c' out2 Hloc).
      destruct (Nat.eqb_spec c c'); [congruence | reflexivity].
    + exists err, (match pd with Some _ => true | None => false end).
      rewrite Hinfo, Nat.eqb_refl, Hci, (local_cid_info c out2 Hloc). reflexivity.
    + rewrite Hcount. destruct (is_ESP_OK read_err); lia.
    + destruct (is_ESP_OK read_err) eqn:Hok.
      * right. apply is_ESP_OK_true in Hok. subst read_err.
        exists (param_key descr), raw. split; [reflexivity | assumption].
      * left. split; [reflexivity | assumption].
  - cbn. unfold read_parameter_post, attempts_of, successes. cbn.
    rewrite Nat.eqb_refl.
    repeat split; try reflexivity; try lia.
    + destruct (Nat.eqb_spec c c'); [congruence | reflexivity].
    + eexists _, _. reflexivity.
    + left. split; reflexivity.
Qed.

(** The reads of a parameter are those of its retry loop. *)
Lemma read_parameter_segment (c : nat) (st : batch_state) (h : list event) :
  attempts_of c (snd (read_parameter cfg env c st h)) = 0%nat \/
  retry_segment env h c (snd (read_parameter cfg env c st h)).
Proof.
  rewrite read_parameter_unfold, bind_snd.
  unfold mbc_master_get_cid_info.
  destruct (mbc_master_get_cid_info_answer env h c) as [err pd]. cbn [fst snd].
  set (ev0 := EvGetCidInfo c err match pd with Some _ => true | None => false end).
  destruct (if is_ESP_OK err then pd else None) as [descr |]; cbv beta iota.
  - right. rewrite bind_snd.
    exists (param_key descr), [ev0].
    pose proof (after_retry_post c st
                  (fst (fst (fst (retry_loop env (max_retries + 1) 0 c (param_key descr)
                                    ESP_FAIL 0 (h ++ [ev0])))))
                  (snd (fst (fst (retry_loop env (max_retries + 1) 0 c (param_key descr)
                                    ESP_FAIL 0 (h ++ [ev0])))))
                  (snd (fst (retry_loop env (max_retries + 1) 0 c (param_key descr)
                               ESP_FAIL 0 (h ++ [ev0]))))
                  ((h ++ [ev0]) ++
                   snd (retry_loop env (max_retries + 1) 0 c (param_key descr)
                          ESP_FAIL 0 (h ++ [ev0])))) as Hafter.
    unfold satisfies in Hafter.
    destruct (retry_loop env (max_retries + 1) 0 c (param_key descr) ESP_FAIL 0 (h ++ [ev0]))
      as [[[read_err raw] rc] out1].
    cbn [fst snd] in *. destruct Hafter as (Hloc & _).
    eexists. split; [reflexivity |]. split; [reflexivity |].
    apply local_attempts. exact Hloc.
  - left. reflexivity.
Qed.

End ReadParameter.

(** ** The batch *)

Lemma filter_is_success_of (c : nat) (out : list event) :
  filter (is_success_of c) out = filter (is_attempt_of c) (filter is_success out).
Proof.
  induction out as [| e out IH]; [reflexivity |].
  unfold is_success_of in *. cbn [filter].
  destruct (is_success e); cbn [filter]; rewrite ?andb_true_r, ?andb_false_r, IH;
    reflexivity.
Qed.

Lemma no_attempt_no_success (c : nat) (out : list event) :
  attempts_of c out = 0%nat -> filter (is_success_of c) out = [].
Proof.
  unfold attempts_of. intros H. apply length_zero_iff_nil in H.
  induction out as [| e out IH]; [reflexivity |].
  cbn [filter] in H |- *. unfold is_success_of at 1.
  destruct (is_attempt_of c e); [discriminate |]. cbn [andb]. auto.
Qed.

Lemma store_converted_value_field (c : nat) (v : float) (d : sdm120_data_t) :
  (c < CID_COUNT)%nat ->
  exists d' : sdm120_data_t,
    store_converted_value c v d = Some d' /\
    field_of_cid c d' = Some v /\
    (forall c' : nat, c' <> c -> field_of_cid c' d' = field_of_cid c' d).
Proof.
  unfold CID_COUNT. intros Hc. destruct d.
  do 10 (destruct c as [| c];
         [ eexists; split; [reflexivity |]; split; [reflexivity |];
           intros c' Hc';
           do 10 (destruct c' as [| c']; [try congruence; reflexivity |]);
           reflexivity
         | ]).
  lia.
Qed.

Lemma store_converted_value_none (c : nat) (v : float) (d : sdm120_data_t) :
  (CID_COUNT <= c)%nat -> store_converted_value c v d = None.
Proof.
  unfold CID_COUNT. intros Hc. destruct d.
  do 10 (destruct c as [| c]; [lia |]). reflexivity.
Qed.

Section Batch.

Variable cfg : config.
Variable env : environment.

Lemma read_parameters_satisfies (n : nat) :
  forall (c0 : nat) (st : batch_state) (h : list event),
    satisfies (read_parameters cfg env n c0 st) h (read_parameters_post n c0 st).
Proof.
  induction n as [| n IH]; intros c0 st h.
  - unfold satisfies, read_parameters_post. cbn.
    repeat split; try reflexivity; try lia.
    intros c Hc. left. split; reflexivity.
  - cbn [read_parameters]. unfold satisfies. rewrite bind_fst, bind_snd.
    pose proof (read_parameter_satisfies cfg env c0 st h) as H1.
    unfold satisfies in H1.
    destruct (read_parameter cfg env c0 st h) as [st1 o1]. cbn [fst snd] in *.
    specialize (IH (S c0) st1 (h ++ o1)). unfold satisfies in IH.
    destruct (read_parameters cfg env n (S c0) st1 (h ++ o1)) as [st2 o2].
    cbn [fst snd] in *.
    destruct H1 as (Hatt1 & Hoth1 & Hinfo1 & Hpub1 & Hcnt1 & Hdata1).
    destruct IH as (Hatt2 & Hout2 & Hinfo2 & Hpub2 & Hcnt2 & Hdata2).
    unfold read_parameters_post. repeat split.
    + intros c. rewrite attempts_of_app.
      destruct (Nat.eq_dec c c0) as [-> | Hne].
      * destruct (Hout2 c0 ltac:(lia)) as [-> _]. lia.
      * destruct (Hoth1 c Hne) as [-> _]. apply Hatt2.
    + rewrite attempts_of_app.
      destruct (Hoth1 c ltac:(lia)) as [-> _].
      destruct (Hout2 c ltac:(lia)) as [-> _]. reflexivity.
    + rewrite filter_app.
      destruct (Hoth1 c ltac:(lia)) as [_ ->].
      destruct (Hout2 c ltac:(lia)) as [_ ->]. reflexivity.
    + intros c Hc. rewrite filter_app.
      destruct (Nat.eq_dec c c0) as [-> | Hne].
      * destruct (Hout2 c0 ltac:(lia)) as [_ ->]. rewrite app_nil_r. exact Hinfo1.
      * destruct (Hoth1 c Hne) as [_ ->]. apply Hinfo2. lia.
    + rewrite publish_calls_app, Hpub1, Hpub2. reflexivity.
    + rewrite successes_app. lia.
    + intros c Hc. rewrite filter_app.
      destruct (Nat.eq_dec c c0) as [-> | Hne].
      * (* the parameter read in this pass *)
        destruct (Hout2 c0 ltac:(lia)) as [Hno2 _].
        pose proof (no_attempt_no_success c0 o2 Hno2) as Hnone2.
        rewrite Hnone2, app_nil_r.
        assert (Hkeep : field_of_cid c0 (data st2) = field_of_cid c0 (data st1)).
        { destruct (Hdata2 c0 Hc) as [[_ Hf] | (key & raw & Hs & _)]; [exact Hf |].
          rewrite Hnone2 in Hs. discriminate. }
        rewrite Hkeep, filter_is_success_of.
        destruct Hdata1 as [[Hs1 Hd1] | (key & raw & Hs1 & Hd1)].
        -- left. rewrite Hs1, Hd1. split; reflexivity.
        -- right. exists key, raw. rewrite Hs1. cbn. rewrite Nat.eqb_refl.
           split; [reflexivity |].
           destruct (store_converted_value_field c0 (convert_sdm120_ieee754 raw)
                       (data st) Hc) as (d' & Hst & Hf & _).
           rewrite Hst in Hd1. rewrite Hd1. exact Hf.
      * (* a parameter read in another pass *)
        destruct (Hoth1 c Hne) as [Hno1 _].
        rewrite (no_attempt_no_success c o1 Hno1). cbn [app].
        assert (Hkeep : field_of_cid c (data st1) = field_of_cid c (data st)).
        { destruct Hdata1 as [[_ Hd1] | (key & raw & _ & Hd1)].
          - rewrite Hd1. reflexivity.
          - destruct (Nat.lt_ge_cases c0 CID_COUNT) as [Hlt | Hge].
            + destruct (store_converted_value_field c0 (convert_sdm120_ieee754 raw)
                          (data st) Hlt) as (d' & Hst & _ & Hf).
              rewrite Hst in Hd1. rewrite Hd1. apply Hf. exact Hne.
            + rewrite (store_converted_value_none c0 _ _ Hge) in Hd1.
              rewrite Hd1. reflexivity. }
        rewrite <- Hkeep. apply Hdata2. exact Hc.
Qed.

Lemma read_parameters_segment (n : nat) :
  forall (c0 : nat) (st : batch_state) (h : list event) (c : nat),
    attempts_of c (snd (read_parameters cfg env n c0 st h)) = 0%nat \/
    retry_segment env h c (snd (read_parameters cfg env n c0 st h)).
Proof.
  induction n as [| n IH]; intros c0 st h c; [left; reflexivity |].
  cbn [read_parameters]. rewrite bind_snd.
  pose proof (read_parameter_satisfies cfg env c0 st h) as H1.
  pose proof (read_parameter_segment cfg env c0 st h) as Hseg1.
  unfold satisfies in H1.
  destruct (read_parameter cfg env c0 st h) as [st1 o1]. cbn [fst snd] in *.
  pose proof (read_parameters_satisfies n (S c0) st1 (h ++ o1)) as H2.
  specialize (IH (S c0) st1 (h ++ o1) c).
  unfold satisfies in H2.
  destruct (read_parameters cfg env n (S c0) st1 (h ++ o1)) as [st2 o2].
  cbn [fst snd] in *.
  destruct H1 as (_ & Hoth1 & _). destruct H2 as (_ & Hout2 & _).
  destruct (Nat.eq_dec c c0) as [-> | Hne].
  - destruct (Hout2 c0 ltac:(lia)) as [Hno2 _].
    destruct Hseg1 as [Hno1 | (key & before & after & Heq & Hb & Ha)].
    + left. rewrite attempts_of_app. lia.
    + right. exists key, before, (after ++ o2). split; [| split].
      * rewrite Heq at 1. rewrite <- !app_assoc. reflexivity.
      * exact Hb.
      * rewrite attempts_of_app. lia.
  - destruct (Hoth1 c Hne) as [Hno1 _].
    destruct IH as [Hno2 | (key & before & after & Heq & Hb & Ha)].
    + left. rewrite attempts_of_app. lia.
    + right. exists key, (o1 ++ before), after. split; [| split].
      * rewrite Heq at 1. rewrite <- !app_assoc. reflexivity.
      * rewrite attempts_of_app. lia.
      * exact Ha.
Qed.

End Batch.

(** ** [read_sdm120_data] as a whole *)

Section ReadAll.

Variable cfg : config.
Variable env : environment.

(** The batch is the loop over all CIDs between two log lines, and the
    return value is decided by [success_count] alone. *)
Lemma read_sdm120_data_shape (d0 : sdm120_data_t) (h : list event) :
  let ev := EvLog ESP_LOG_INFO (LOG_READING_PARAMETERS sdm120_cid_count) in
  let st := fst (read_parameters cfg env sdm120_cid_count 0 initial_batch_state (h ++ [ev])) in
  let o := snd (read_parameters cfg env sdm120_cid_count 0 initial_batch_state (h ++ [ev])) in
  exists tail : list event,
    forallb is_local tail = true /\
    read_sdm120_data cfg env (Some d0) h =
      ((if (success_count st =? 0)%nat then ESP_ERR_TIMEOUT else ESP_OK,
        Some (data st)),
       [ev] ++ o ++ tail).
Proof.
  cbv zeta. unfold read_sdm120_data.
  unfold bind at 1. unfold ESP_LOGI at 1, emit at 1.
  unfold bind at 1. fold initial_batch_state.
  destruct (read_parameters cfg env sdm120_cid_count 0 initial_batch_state _) as [st o].
  cbn [fst snd].
  destruct (success_count st =? 0)%nat.
  - eexists. split; [| cbn; reflexivity]. reflexivity.
  - destruct (sdm120_cid_count / 2 <? timeout_count st)%nat.
    + eexists. split; [| cbn; reflexivity]. reflexivity.
    + eexists. split; [| cbn; reflexivity]. reflexivity.
Qed.

Lemma read_sdm120_data_post (d0 : sdm120_data_t) (h : list event) :
  exists (st : batch_state) (o tail : list event),
    read_parameters_post sdm120_cid_count 0 initial_batch_state st o /\
    forallb is_local tail = true /\
    read_sdm120_data cfg env (Some d0) h =
      ((if (success_count st =? 0)%nat then ESP_ERR_TIMEOUT else ESP_OK,
        Some (data st)),
       [EvLog ESP_LOG_INFO (LOG_READING_PARAMETERS sdm120_cid_count)] ++ o ++ tail).
Proof.
  destruct (read_sdm120_data_shape d0 h) as (tail & Hloc & Heq).
  eexists _, _, tail. split; [| split; [exact Hloc | exact Heq]].
  apply (read_parameters_satisfies cfg env).
Qed.

(** The return value and the data of a batch, and what a batch leaves
    alone. *)
Lemma read_sdm120_data_result (d0 : sdm120_data_t) (h : list event) :
  let r := read_sdm120_data cfg env (Some d0) h in
  exists d : sdm120_data_t,
    fst r = (if (successes (snd r) =? 0)%nat then ESP_ERR_TIMEOUT else ESP_OK, Some d) /\
    publish_calls (snd r) = [].
Proof.
  cbv zeta.
  destruct (read_sdm120_data_post d0 h) as (st & o & tail & Hpost & Hloc & ->).
  cbn [fst snd].
  destruct Hpost as (_ & _ & _ & Hpub & Hcnt & _).
  exists (data st). split.
  - rewrite !successes_app. unfold successes at 1 3.
    rewrite (local_success tail Hloc). cbn [filter is_success List.length].
    rewrite Hcnt. cbn [success_count initial_batch_state].
    rewrite Nat.add_0_r. reflexivity.
  - rewrite !publish_calls_app, Hpub, (local_publish tail Hloc). reflexivity.
Qed.

Lemma read_sdm120_data_segment (d0 : sdm120_data_t) (h : list event) (c : nat) :
  attempts_of c (snd (read_sdm120_data cfg env (Some d0) h)) = 0%nat \/
  retry_segment env h c (snd (read_sdm120_data cfg env (Some d0) h)).
Proof.
  destruct (read_sdm120_data_shape d0 h) as (tail & Hloc & ->). cbn [snd].
  set (ev := EvLog ESP_LOG_INFO (LOG_READING_PARAMETERS sdm120_cid_count)).
  destruct (read_parameters_segment cfg env sdm120_cid_count 0 initial_batch_state
              (h ++ [ev]) c) as [Hno | (key & before & after & Heq & Hb & Ha)].
  - left. rewrite !attempts_of_app, Hno, (local_attempts c tail Hloc). reflexivity.
  - right. exists key, ([ev] ++ before), (after ++ tail). split; [| split].
    + rewrite Heq at 1. rewrite <- !app_assoc. reflexivity.
    + rewrite attempts_of_app, Hb. reflexivity.
    + rewrite attempts_of_app, Ha, (local_attempts c tail Hloc). reflexivity.
Qed.

End ReadAll.

(** C3.  Whatever the field bus answers, and for every parameter [c]: one
    batch calls [mbc_master_get_parameter] for [c] at most [max_retries + 1]
    = 3 times; and when it reads [c] at all, the reads of [c] are one run of
    the retry loop, which makes [n] attempts, [1 <= n <= 3], with exactly one
    delay before each retry, the delay before retry [i] (counted from 0, the
    retry that follows attempt [i]) being 200 + i * 300 ms. *)
Theorem retry_attempts_bounded_delays_linear (cfg : config) (env : environment)
    (d0 : sdm120_data_t) (h : list event) (c : nat) :
  let out := snd (read_sdm120_data cfg env (Some d0) h) in
  (attempts_of c out <= max_retries + 1)%nat /\
  (attempts_of c out = 0%nat \/
   exists (n : nat) (before retries after : list event),
     out = before ++ retries ++ after /\
     attempts_of c before = 0%nat /\
     attempts_of c after = 0%nat /\
     attempts_of c retries = n /\
     (1 <= n <= max_retries + 1)%nat /\
     schedule retries = retry_schedule MODBUS_RETRY_DELAY_BASE_MS 300 0 n) /\
  (max_retries + 1 = 3)%nat /\
  retry_schedule MODBUS_RETRY_DELAY_BASE_MS 300 0 3 =
    [None; Some (200 + 0 * 300); None; Some (200 + 1 * 300); None].
Proof.
  cbv zeta. split; [| split; [| split; reflexivity]].
  - destruct (read_sdm120_data_post cfg env d0 h) as (st & o & tail & Hpost & Hloc & ->).
    cbn [snd]. rewrite !attempts_of_app, (local_attempts c tail Hloc).
    destruct Hpost as (Hatt & _). specialize (Hatt c).
    replace (attempts_of c [EvLog ESP_LOG_INFO (LOG_READING_PARAMETERS sdm120_cid_count)])
      with 0%nat by reflexivity.
    lia.
  - destruct (read_sdm120_data_segment cfg env d0 h c)
      as [Hno | (key & before & after & Heq & Hb & Ha)]; [left; exact Hno | right].
    pose proof (retry_loop_post env (max_retries + 1) 0 c key ESP_FAIL 0 (h ++ before)
                  ltac:(lia) ltac:(unfold max_retries; lia)) as H.
    unfold satisfies in H.
    destruct (retry_loop env (max_retries + 1) 0 c key ESP_FAIL 0 (h ++ before))
      as [[[err raw] rc] retries].
    cbn [fst snd retry_post] in *. destruct H as ((n & Hn & Hatt & Hsched) & _).
    exists n, before, retries, after. repeat split; try assumption; lia.
Qed.

(** C4.  For a parameter [c] of the table: the batch does not depend on
    what the data structure held before (it is cleared first); afterwards the
    field of [c] holds the decoded value of the read that succeeded, and zero
    when no read of [c] succeeded; and [c] is reached whatever happened to
    the parameters before it. *)
Theorem read_sdm120_data_fields (cfg : config) (env : environment)
    (d0 : sdm120_data_t) (h : list event) (c : nat) :
  (c < CID_COUNT)%nat ->
  let r := read_sdm120_data cfg env (Some d0) h in
  r = read_sdm120_data cfg env (Some zeroed_data) h /\
  exists d : sdm120_data_t,
    snd (fst r) = Some d /\
    (forall key raw, In (EvGetParameter c key ESP_OK raw) (snd r) ->
       field_of_cid c d = Some (convert_sdm120_ieee754 raw)) /\
    ((forall key raw, ~ In (EvGetParameter c key ESP_OK raw) (snd r)) ->
       field_of_cid c d = Some 0) /\
    (exists err found, In (EvGetCidInfo c err found) (snd r)).
Proof.
  intros Hc r. split; [reflexivity |]. subst r.
  destruct (read_sdm120_data_post cfg env d0 h) as (st & o & tail & Hpost & Hloc & ->).
  cbn [fst snd]. exists (data st). split; [reflexivity |].
  destruct Hpost as (_ & _ & Hinfo & _ & _ & Hdata).
  specialize (Hdata c Hc).
  set (ev := EvLog ESP_LOG_INFO (LOG_READING_PARAMETERS sdm120_cid_count)).
  assert (Hfilter : filter (is_success_of c) ([ev] ++ o ++ tail) = filter (is_success_of c) o).
  { rewrite !filter_app.
    rewrite (no_attempt_no_success c tail (local_attempts c tail Hloc)).
    rewrite app_nil_r. reflexivity. }
  assert (Hzero : field_of_cid c (data initial_batch_state) = Some 0).
  { unfold CID_COUNT in Hc.
    do 10 (destruct c as [| c]; [reflexivity |]). lia. }
  repeat split.
  - intros key raw Hin.
    assert (Hin' : In (EvGetParameter c key ESP_OK raw) (filter (is_success_of c) o)).
    { rewrite <- Hfilter. apply filter_In. split; [exact Hin |].
      unfold is_success_of. cbn. rewrite Nat.eqb_refl. reflexivity. }
    destruct Hdata as [[Hs _] | (key' & raw' & Hs & Hf)]; rewrite Hs in Hin'.
    + destruct Hin'.
    + destruct Hin' as [Heq | []]. injection Heq as _ <-. exact Hf.
  - intros Hnone.
    destruct Hdata as [[_ Hf] | (key' & raw' & Hs & _)].
    + rewrite Hf. exact Hzero.
    + exfalso. apply (Hnone key' raw').
      assert (Hin : In (EvGetParameter c key' ESP_OK raw') (filter (is_success_of c) o))
        by (rewrite Hs; left; reflexivity).
      rewrite <- Hfilter in Hin. apply filter_In in Hin. exact (proj1 Hin).
  - destruct (Hinfo c ltac:(unfold sdm120_cid_count, CID_COUNT in *; cbn; lia))
      as (err & found & Hci).
    exists err, found.
    assert (Hin : In (EvGetCidInfo c err found) (filter (is_cid_info_of c) o))
      by (rewrite Hci; left; reflexivity).
    apply filter_In in Hin. apply in_or_app. right. apply in_or_app. left.
    exact (proj1 Hin).
Qed.

(** C5, amended.  The return value of [read_sdm120_data] tells two cases
    apart: it is [ESP_ERR_TIMEOUT] exactly when no parameter was read
    ([AllFailed]); it is [ESP_OK] when some or all were read ([Partial] and
    [Complete] alike). *)
Theorem read_sdm120_data_outcome (cfg : config) (env : environment)
    (d0 : sdm120_data_t) (h : list event) :
  let r := read_sdm120_data cfg env (Some d0) h in
  fst (fst r) =
    match classify (successes (snd r)) sdm120_cid_count with
    | AllFailed => ESP_ERR_TIMEOUT
    | Partial | Complete => ESP_OK
    end /\
  (fst (fst r) = ESP_ERR_TIMEOUT <-> successes (snd r) = 0%nat).
Proof.
  cbv zeta.
  destruct (read_sdm120_data_result cfg env d0 h) as (d & Hr & _).
  rewrite Hr. cbn [fst]. unfold classify.
  destruct (Nat.eqb_spec (successes (snd (read_sdm120_data cfg env (Some d0) h))) 0)
    as [H0 | H0].
  - split; [reflexivity |]. split; auto.
  - split.
    + destruct (_ <? sdm120_cid_count)%nat; reflexivity.
    + split; [discriminate | intros; contradiction].
Qed.

(** ** The publisher *)

Section Publisher.

Variable cfg : config.
Variable env : environment.

Lemma mqtt_publish_not_connected (data_in : option sdm120_data_t) (h : list event) :
  mqtt_connected env h = false \/ mqtt_client env h = false ->
  mqtt_publish_sdm120_data cfg env data_in h =
    (ESP_ERR_INVALID_STATE, [EvLog ESP_LOG_WARN LOG_MQTT_NOT_CONNECTED]).
Proof.
  intros H. unfold mqtt_publish_sdm120_data, bind, ask. cbn [app].
  rewrite !app_nil_r.
  assert (Hguard : (negb (mqtt_connected env h) || negb (mqtt_client env h))%bool = true)
    by (destruct H as [-> | ->]; [reflexivity | apply orb_true_r]).
  rewrite Hguard. reflexivity.
Qed.

Lemma mqtt_publish_connected (d : sdm120_data_t) (h : list event) :
  mqtt_connected env h = true -> mqtt_client env h = true ->
  let msg_id := aggregate_msg_id cfg env d h in
  let agg := EvPublish (snprintf_topic cfg "/data") (aggregate_payload cfg env d h) 0 0 msg_id in
  exists rest : list event,
    mqtt_publish_sdm120_data cfg env (Some d) h =
      (if msg_id =? -1 then ESP_FAIL else ESP_OK, agg :: rest) /\
    delays_of rest = [] /\
    publish_calls rest =
      (if msg_id =? -1 then []
       else individual_calls cfg d ++
            (if MQTT_HOME_ASSISTANT_DISCOVERY cfg then [availability_call cfg] else [])).
Proof.
  intros Hconn Hclient. cbv zeta.
  unfold mqtt_publish_sdm120_data, aggregate_msg_id, aggregate_payload.
  unfold bind at 1. unfold ask at 1. cbn [app]. rewrite app_nil_r.
  unfold bind at 1. unfold ask at 1. cbn [app]. rewrite app_nil_r.
  rewrite Hconn, Hclient. cbn [negb orb].
  unfold bind at 1. unfold timestamp_ms at 1 2. cbn [app fst]. rewrite app_nil_r.
  unfold bind at 1. unfold esp_mqtt_client_publish at 1. cbv zeta.
  set (msg_id := esp_mqtt_client_publish_answer env h _ _ 0 0).
  destruct (msg_id =? -1).
  - eexists. split; [cbn; reflexivity |]. split; reflexivity.
  - unfold MQTT_PUBLISH_INDIVIDUAL_TOPICS, publish_individual, esp_mqtt_client_publish,
      bind, ESP_LOGI, emit, ret.
    cbn [app fst snd].
    destruct (MQTT_HOME_ASSISTANT_DISCOVERY cfg).
    + eexists. split; [cbn [app]; reflexivity |]. split; reflexivity.
    + eexists. split; [cbn [app]; reflexivity |]. split; reflexivity.
Qed.

(** The publisher never delays. *)
Lemma mqtt_publish_no_delay (data_in : option sdm120_data_t) (h : list event) :
  delays_of (snd (mqtt_publish_sdm120_data cfg env data_in h)) = [].
Proof.
  destruct (mqtt_connected env h) eqn:Hconn;
    [destruct (mqtt_client env h) eqn:Hclient |].
  - destruct data_in as [d |].
    + destruct (mqtt_publish_connected d h Hconn Hclient) as (rest & -> & Hd & _).
      cbn [snd]. change (EvPublish ?a ?b ?c ?d0 ?e :: rest) with
        ([EvPublish a b c d0 e] ++ rest).
      rewrite delays_of_app, Hd. reflexivity.
    + unfold mqtt_publish_sdm120_data, bind, ask. cbn [app]. rewrite !app_nil_r.
      rewrite Hconn, Hclient. reflexivity.
  - rewrite mqtt_publish_not_connected by (right; assumption). reflexivity.
  - rewrite mqtt_publish_not_connected by (left; assumption). reflexivity.
Qed.

End Publisher.

(** C7.  When the session is not connected ([mqtt_connected] is false or
    there is no client), [mqtt_publish_sdm120_data] returns
    [ESP_ERR_INVALID_STATE] at once: it writes one warning to the log and
    calls the broker client not a single time; nothing is kept for later. *)
Theorem publish_not_connected_no_broker_call (cfg : config) (env : environment)
    (data_in : option sdm120_data_t) (h : list event) :
  mqtt_connected env h = false \/ mqtt_client env h = false ->
  mqtt_publish_sdm120_data cfg env data_in h =
    (ESP_ERR_INVALID_STATE, [EvLog ESP_LOG_WARN LOG_MQTT_NOT_CONNECTED]) /\
  publish_calls (snd (mqtt_publish_sdm120_data cfg env data_in h)) = [].
Proof.
  intros H. rewrite (mqtt_publish_not_connected cfg env data_in h H).
  split; reflexivity.
Qed.

(** C8, amended.  When the session is connected, the aggregate message is
    accepted by the client (its message identifier is not -1) and Home
    Assistant discovery is configured, one call of
    [mqtt_publish_sdm120_data] makes exactly 12 calls of
    [esp_mqtt_client_publish]: the aggregate message, the ten per-field
    messages, and the retained availability message; without Home Assistant
    discovery it makes the first eleven. *)
Theorem publish_connected_calls (cfg : config) (env : environment)
    (d : sdm120_data_t) (h : list event) :
  mqtt_connected env h = true ->
  mqtt_client env h = true ->
  aggregate_msg_id cfg env d h <> -1 ->
  let calls := publish_calls (snd (mqtt_publish_sdm120_data cfg env (Some d) h)) in
  MQTT_PUBLISH_INDIVIDUAL_TOPICS = true /\
  calls =
    [aggregate_call cfg env d h] ++ individual_calls cfg d ++
    (if CONFIG_SDM120_MQTT_HOME_ASSISTANT cfg then [availability_call cfg] else []) /\
  List.length calls =
    (if CONFIG_SDM120_MQTT_HOME_ASSISTANT cfg then 12 else 11)%nat.
Proof.
  intros Hconn Hclient Hid. cbv zeta.
  destruct (mqtt_publish_connected cfg env d h Hconn Hclient) as (rest & -> & _ & Hcalls).
  apply Z.eqb_neq in Hid. rewrite Hid in Hcalls.
  cbn [snd]. split; [reflexivity |].
  assert (Heq : publish_calls
                  (EvPublish (snprintf_topic cfg "/data") (aggregate_payload cfg env d h) 0 0
                     (aggregate_msg_id cfg env d h) :: rest) =
                [aggregate_call cfg env d h] ++ individual_calls cfg d ++
                (if CONFIG_SDM120_MQTT_HOME_ASSISTANT cfg then [availability_call cfg] else [])).
  { change (publish_calls (?e :: rest)) with (publish_call e ++ publish_calls rest).
    rewrite Hcalls. reflexivity. }
  rewrite Heq. split; [reflexivity |].
  destruct (CONFIG_SDM120_MQTT_HOME_ASSISTANT cfg); reflexivity.
Qed.

(** C10.  With the session connected and data to publish, the return value
    of [mqtt_publish_sdm120_data] is decided by the aggregate message alone:
    [ESP_FAIL] exactly when the client answers -1 to it, [ESP_OK] otherwise,
    whatever the client answers to the per-field and availability
    messages. *)
Theorem publish_result_is_aggregate_result (cfg : config) (env : environment)
    (d : sdm120_data_t) (h : list event) :
  mqtt_connected env h = true ->
  mqtt_client env h = true ->
  fst (mqtt_publish_sdm120_data cfg env (Some d) h) =
    (if aggregate_msg_id cfg env d h =? -1 then ESP_FAIL else ESP_OK) /\
  (fst (mqtt_publish_sdm120_data cfg env (Some d) h) = ESP_FAIL <->
   aggregate_msg_id cfg env d h = -1) /\
  (forall env' : environment,
      mqtt_connected env' h = true ->
      mqtt_client env' h = true ->
      aggregate_msg_id cfg env' d h = aggregate_msg_id cfg env d h ->
      fst (mqtt_publish_sdm120_data cfg env' (Some d) h) =
      fst (mqtt_publish_sdm120_data cfg env (Some d) h)).
Proof.
  intros Hconn Hclient.
  destruct (mqtt_publish_connected cfg env d h Hconn Hclient) as (rest & Heq & _).
  rewrite Heq. cbn [fst]. split; [reflexivity |]. split.
  - destruct (Z.eqb_spec (aggregate_msg_id cfg env d h) (-1)) as [Hm | Hm].
    + split; auto.
    + split; [discriminate | intros; contradiction].
  - intros env' Hconn' Hclient' Hsame.
    destruct (mqtt_publish_connected cfg env' d h Hconn' Hclient') as (rest' & Heq' & _).
    rewrite Heq'. cbn [fst]. rewrite Hsame. reflexivity.
Qed.

(** ** The polling task *)

Lemma publish_result_log_quiet (mqtt_result : esp_err_t) :
  delays_of (publish_result_log mqtt_result) = [] /\
  publish_calls (publish_result_log mqtt_result) = [].
Proof.
  unfold publish_result_log.
  destruct (is_ESP_OK mqtt_result); [split; reflexivity |].
  destruct (esp_err_eq_dec mqtt_result ESP_ERR_INVALID_STATE); split; reflexivity.
Qed.

(** One pass of the loop, after the batch [r] has been read. *)
Lemma monitoring_cycle_shape (cfg : config) (env : environment)
    (read_count : Z) (meter_data : sdm120_data_t) (h : list event) :
  let r := read_sdm120_data cfg env (Some meter_data) h in
  let count := (read_count + 1) mod 2 ^ 32 in
  exists d : sdm120_data_t,
    fst r = (if (successes (snd r) =? 0)%nat then ESP_ERR_TIMEOUT else ESP_OK, Some d) /\
    publish_calls (snd r) = [] /\
    monitoring_cycle cfg env read_count meter_data h =
      ((count, d),
       snd r ++
       (if (successes (snd r) =? 0)%nat then
          [EvLog ESP_LOG_WARN (LOG_FAILED_TO_READ count);
           EvLog ESP_LOG_WARN LOG_RECOVERY_DELAY;
           EvDelay 2000; EvDelay 5000]
        else
          let report := EvLog ESP_LOG_INFO (LOG_READING_REPORT count d) in
          let p := mqtt_publish_sdm120_data cfg env (Some d) ((h ++ snd r) ++ [report]) in
          [report] ++ snd p ++ publish_result_log (fst p) ++ [EvDelay 5000])).
Proof.
  cbv zeta.
  destruct (read_sdm120_data_result cfg env meter_data h) as (d & Hr & Hpub).
  exists d. split; [exact Hr |]. split; [exact Hpub |].
  unfold monitoring_cycle. cbv zeta.
  set (count := (read_count + 1) mod 2 ^ 32).
  unfold bind at 1.
  destruct (read_sdm120_data cfg env (Some meter_data) h) as [[result dout] out].
  cbn [fst snd] in *. injection Hr as -> ->.
  destruct (successes out =? 0)%nat.
  - reflexivity.
  - cbn [is_ESP_OK esp_err_eq_dec]. unfold is_ESP_OK at 1. cbn [esp_err_eq_dec esp_err_t_rec esp_err_t_rect].
    unfold bind at 1. unfold bind at 1. unfold ESP_LOGI at 1, emit at 1.
    unfold bind at 1.
    destruct (mqtt_publish_sdm120_data cfg env (Some d) ((h ++ out) ++ _)) as [mqtt_result pout].
    cbn [fst snd]. unfold publish_result_log.
    destruct (is_ESP_OK mqtt_result).
    + cbn. rewrite <- !app_assoc. reflexivity.
    + destruct (esp_err_eq_dec mqtt_result ESP_ERR_INVALID_STATE).
      * cbn. rewrite <- !app_assoc. reflexivity.
      * cbn. rewrite <- !app_assoc. reflexivity.
Qed.

Lemma monitoring_cycle_cadence (cfg : config) (env : environment)
    (read_count : Z) (meter_data : sdm120_data_t) (h : list event) :
  pass_cadence cfg env read_count meter_data h.
Proof.
  unfold pass_cadence.
  cbv zeta.
  destruct (monitoring_cycle_shape cfg env read_count meter_data h) as (d & Hr & Hpub & ->).
  cbn [snd]. rewrite Hr. cbn [fst snd].
  eexists d, _. split; [reflexivity |]. split; [reflexivity |].
  destruct (successes (snd (read_sdm120_data cfg env (Some meter_data) h)) =? 0)%nat.
  - split; [reflexivity |]. split; [| split; reflexivity].
    rewrite publish_calls_app, Hpub. reflexivity.
  - cbv zeta. split; [reflexivity |]. split; [reflexivity |].
    destruct (publish_result_log_quiet
                (fst (mqtt_publish_sdm120_data cfg env (Some d)
                        ((h ++ snd (read_sdm120_data cfg env (Some meter_data) h)) ++
                         [EvLog ESP_LOG_INFO
                            (LOG_READING_REPORT ((read_count + 1) mod 2 ^ 32) d)]))))
      as [Hqd Hqp].
    split.
    + rewrite !publish_calls_app, Hpub, Hqp. cbn [publish_calls flat_map publish_call app].
      rewrite app_nil_r. reflexivity.
    + rewrite !delays_of_app, mqtt_publish_no_delay, Hqd. reflexivity.
Qed.

(** The passes of the task follow one another: pass [n + 1] is one
    [monitoring_cycle], run in the state and after the history that the first
    [n] passes leave. *)
Lemma monitoring_cycles_next (cfg : config) (env : environment) (n : nat) :
  forall (read_count : Z) (meter_data : sdm120_data_t) (h : list event),
    monitoring_cycles cfg env (S n) read_count meter_data h =
      let '((count, d), o) := monitoring_cycles cfg env n read_count meter_data h in
      let '(r, o') := monitoring_cycle cfg env count d (h ++ o) in
      (r, o ++ o').
Proof.
  induction n as [| n IH]; intros read_count meter_data h.
  - cbn [monitoring_cycles]. unfold bind, ret. rewrite app_nil_r.
    destruct (monitoring_cycle cfg env read_count meter_data h) as [[count d] o].
    rewrite app_nil_r. reflexivity.
  - change (monitoring_cycles cfg env (S (S n)) read_count meter_data h)
      with (bind (monitoring_cycle cfg env read_count meter_data)
              (fun x => let '(count, d) := x in monitoring_cycles cfg env (S n) count d) h).
    change (monitoring_cycles cfg env (S n) read_count meter_data h)
      with (bind (monitoring_cycle cfg env read_count meter_data)
              (fun x => let '(count, d) := x in monitoring_cycles cfg env n count d) h).
    unfold bind.
    destruct (monitoring_cycle cfg env read_count meter_data h) as [[count1 d1] o1].
    rewrite IH.
    destruct (monitoring_cycles cfg env n count1 d1 (h ++ o1)) as [[count2 d2] o2].
    rewrite <- app_assoc.
    destruct (monitoring_cycle cfg env count2 d2 (h ++ o1 ++ o2)) as [r o3].
    rewrite <- app_assoc. reflexivity.
Qed.

(** C6.  Every pass of [sdm120_monitoring_task], the first and each one
    that follows [n] earlier passes, is a [monitoring_cycle].  In a pass in
    which no parameter was read, [read_sdm120_data] returns
    [ESP_ERR_TIMEOUT], the publisher is not called (the pass adds no call of
    the broker client and no line of the publisher to the log), and the pass
    ends with the recovery delay of 2000 ms followed by the period of
    5000 ms.  In every other pass the publisher is called with the batch,
    and the pass ends with the period of 5000 ms alone, whatever the
    publisher returned. *)
Theorem monitoring_task_cadence (cfg : config) (env : environment)
    (n : nat) (meter_data : sdm120_data_t) (h : list event) :
  let earlier := sdm120_monitoring_task cfg env n meter_data h in
  let count := fst (fst earlier) in
  let d := snd (fst earlier) in
  snd (sdm120_monitoring_task cfg env (S n) meter_data h) =
    snd earlier ++ snd (monitoring_cycle cfg env count d (h ++ snd earlier)) /\
  pass_cadence cfg env count d (h ++ snd earlier).
Proof.
  cbv zeta. split; [| apply monitoring_cycle_cadence].
  unfold sdm120_monitoring_task. rewrite !bind_snd, !bind_fst.
  unfold ESP_LOGI, emit. cbn [fst snd].
  rewrite monitoring_cycles_next.
  destruct (monitoring_cycles cfg env n 0 meter_data (h ++ [EvLog ESP_LOG_INFO LOG_TASK_STARTED]))
    as [[count d] o].
  cbn [fst snd]. rewrite <- !app_assoc.
  destruct (monitoring_cycle cfg env count d (h ++ [EvLog ESP_LOG_INFO LOG_TASK_STARTED] ++ o))
    as [r o'].
  reflexivity.
Qed.

(** ** The timeout counter in general *)

Lemma parameter_results_app (o1 o2 : list event) :
  parameter_results (o1 ++ o2) = parameter_results o1 ++ parameter_results o2.
Proof. apply flat_map_app. Qed.

Lemma connectivity_checks_app (o1 o2 : list event) :
  connectivity_checks (o1 ++ o2) = (connectivity_checks o1 + connectivity_checks o2)%nat.
Proof. unfold connectivity_checks. rewrite filter_app, length_app. reflexivity. Qed.

Lemma timeout_counter_app (l1 l2 : list esp_err_t) :
  forall count : nat,
    timeout_counter count (l1 ++ l2) =
      let (k1, c1) := timeout_counter count l1 in
      let (k2, c2) := timeout_counter c1 l2 in
      ((k1 + k2)%nat, c2).
Proof.
  induction l1 as [| err l1 IH]; intros count; cbn [app timeout_counter].
  - destruct (timeout_counter count l2); reflexivity.
  - destruct (is_ESP_OK err); [apply IH |].
    cbv zeta. destruct (3 <=? _)%nat.
    + rewrite IH. destruct (timeout_counter 0 l1) as [k1 c1].
      destruct (timeout_counter c1 l2) as [k2 c2]. reflexivity.
    + apply IH.
Qed.

Lemma parameter_result_failed_read (c : nat) (key : string) (err : esp_err_t) (raw : Z) :
  is_ESP_OK err = false -> parameter_result (EvGetParameter c key err raw) = [].
Proof. destruct err; try reflexivity. discriminate. Qed.

Section TimeoutCounter.

Variable cfg : config.
Variable env : environment.

Lemma retry_loop_results (k : nat) :
  forall (rc c : nat) (key : string) (e0 : esp_err_t) (raw0 : Z) (h : list event),
    is_ESP_OK e0 = false ->
    let r := retry_loop env k rc c key e0 raw0 h in
    parameter_results (snd r) =
      (if is_ESP_OK (fst (fst (fst r))) then [ESP_OK] else []) /\
    connectivity_checks (snd r) = 0%nat.
Proof.
  induction k as [| k IH]; intros rc c key e0 raw0 h He0; cbv zeta.
  - cbn. rewrite He0. split; reflexivity.
  - rewrite retry_loop_step.
    destruct (mbc_master_get_parameter_answer env h c key) as [err raw].
    destruct (is_ESP_OK err) eqn:Herr.
    + cbn [fst snd]. rewrite Herr. apply is_ESP_OK_true in Herr. subst err.
      split; reflexivity.
    + cbv zeta.
      match goal with
      | |- context [retry_loop env k (S rc) c key err raw ?h'] =>
          specialize (IH (S rc) c key err raw h' Herr); cbv zeta in IH;
          destruct (retry_loop env k (S rc) c key err raw h') as [[[err' raw'] rc'] out]
      end.
      cbn [fst snd] in *. destruct IH as [IHr IHc].
      change (EvGetParameter c key err raw :: ?l ++ out)
        with ([EvGetParameter c key err raw] ++ l ++ out).
      rewrite !parameter_results_app, !connectivity_checks_app, IHr, IHc.
      unfold parameter_results at 1. cbn [flat_map].
      rewrite (parameter_result_failed_read c key err raw Herr).
      destruct (rc <? max_retries)%nat; split; reflexivity.
Qed.

Lemma check_sdm120_connectivity_counted (h : list event) :
  parameter_results (snd (check_sdm120_connectivity env h)) = [] /\
  connectivity_checks (snd (check_sdm120_connectivity env h)) = 1%nat.
Proof.
  unfold check_sdm120_connectivity, bind, ask, ESP_LOGI, ESP_LOGW, emit, ret,
    esp_netif_is_netif_up.
  cbn [fst snd app].
  destruct (s_wifi_netif env _); cbn [negb]; [| split; reflexivity].
  destruct (esp_netif_is_netif_up_answer env _); cbn [negb]; [| split; reflexivity].
  destruct (wifi_connected env _); split; reflexivity.
Qed.

Lemma advisory_checks_counted (c : nat) (v : float) (h : list event) :
  parameter_results (snd (advisory_checks c v h)) = [] /\
  connectivity_checks (snd (advisory_checks c v h)) = 0%nat.
Proof.
  unfold advisory_checks.
  repeat match goal with
         | |- context [if ?b then _ else _] => destruct b
         end; split; reflexivity.
Qed.

Lemma high_energy_note_counted (c : nat) (v : float) (h : list event) :
  parameter_results (snd (high_energy_note c v h)) = [] /\
  connectivity_checks (snd (high_energy_note c v h)) = 0%nat.
Proof.
  unfold high_energy_note.
  match goal with
  | |- context [if ?b then _ else _] => destruct b
  end; split; reflexivity.
Qed.

(** After the retry loop: a success adds no result of its own (the result is
    the successful read itself) and leaves the counter alone; a failure adds
    its error and moves the counter as [timeout_counter] does. *)
Lemma after_retry_counted (c : nat) (st : batch_state) (read_err : esp_err_t)
    (raw : Z) (rc : nat) (h : list event) :
  (timeout_count st <= c)%nat ->
  let r := after_retry cfg env c st (read_err, raw, rc) h in
  timeout_counter (timeout_count st)
    ((if is_ESP_OK read_err then [ESP_OK] else []) ++ parameter_results (snd r)) =
    (connectivity_checks (snd r), timeout_count (fst r)) /\
  (timeout_count (fst r) <= S c)%nat.
Proof.
  intros Hle. cbv zeta. unfold after_retry.
  rewrite bind_fst, bind_snd.
  destruct (is_ESP_OK read_err) eqn:Hok.
  - cbv zeta. rewrite !bind_fst, !bind_snd.
    destruct (advisory_checks_counted c (convert_sdm120_ieee754 raw) h) as [Har Hac].
    destruct (advisory_checks c (convert_sdm120_ieee754 raw) h) as [[] oa].
    cbn [fst snd] in *.
    destruct (store_converted_value c (convert_sdm120_ieee754 raw) (data st)) as [d |].
    + rewrite !bind_fst, !bind_snd.
      destruct (high_energy_note_counted c (convert_sdm120_ieee754 raw) (h ++ oa))
        as [Hnr Hnc].
      destruct (high_energy_note c (convert_sdm120_ieee754 raw) (h ++ oa)) as [[] on].
      cbn [fst snd] in *.
      destruct (c <? 3)%nat; cbn [fst snd ret vTaskDelay emit bind app timeout_count];
        rewrite ?parameter_results_app, ?connectivity_checks_app, ?Har, ?Hac, ?Hnr, ?Hnc;
        cbn; (split; [reflexivity | lia]).
    + destruct (c <? 3)%nat; cbn [fst snd ret vTaskDelay ESP_LOGW emit bind app timeout_count];
        rewrite ?parameter_results_app, ?connectivity_checks_app, ?Har, ?Hac;
        cbn; (split; [reflexivity | lia]).
  - cbv zeta.
    set (tc := if is_ESP_ERR_TIMEOUT read_err then S (timeout_count st)
               else timeout_count st).
    assert (Htc : (tc <= S c)%nat)
      by (unfold tc; destruct (is_ESP_ERR_TIMEOUT read_err); lia).
    destruct (3 <=? tc)%nat eqn:H3.
    + assert (H2 : (2 <=? c)%nat = true)
        by (apply Nat.leb_le; apply Nat.leb_le in H3; lia).
      rewrite H2. cbn [andb].
      unfold bind, ESP_LOGE, ESP_LOGW, vTaskDelay, emit, ret.
      cbn [fst snd app].
      match goal with
      | |- context [check_sdm120_connectivity env ?h'] =>
          destruct (check_sdm120_connectivity_counted h') as [Hcr Hcc];
          destruct (check_sdm120_connectivity env h') as [r out]
      end.
      cbn [fst snd] in *.
      destruct (c <? 3)%nat; cbn [fst snd app timeout_count]; rewrite app_nil_r;
        repeat match goal with
               | |- context [?e :: ?e' :: out ++ ?l] =>
                   change (e :: e' :: out ++ l) with ([e; e'] ++ out ++ l)
               end;
        rewrite !parameter_results_app, !connectivity_checks_app, Hcr, Hcc;
        cbn [parameter_results flat_map parameter_result app timeout_counter];
        rewrite Hok; fold tc; rewrite H3; cbn; (split; [reflexivity | lia]).
    + cbn [andb].
      destruct (c <? 3)%nat; cbn [fst snd ret vTaskDelay ESP_LOGE emit bind app timeout_count];
        cbn [parameter_results flat_map parameter_result app timeout_counter];
        rewrite Hok; fold tc; rewrite H3; cbn; (split; [reflexivity | lia]).
Qed.

Lemma read_parameter_counted (c : nat) (st : batch_state) (h : list event) :
  (timeout_count st <= c)%nat ->
  let r := read_parameter cfg env c st h in
  timeout_counter (timeout_count st) (parameter_results (snd r)) =
    (connectivity_checks (snd r), timeout_count (fst r)) /\
  (timeout_count (fst r) <= S c)%nat.
Proof.
  intros Hle. cbv zeta. rewrite read_parameter_unfold, bind_fst, bind_snd.
  unfold mbc_master_get_cid_info.
  destruct (mbc_master_get_cid_info_answer env h c) as [err pd]. cbn [fst snd].
  set (ev0 := EvGetCidInfo c err match pd with Some _ => true | None => false end).
  destruct (if is_ESP_OK err then pd else None) as [descr |]; cbv beta iota.
  - rewrite bind_fst, bind_snd.
    destruct (retry_loop_results (max_retries + 1) 0 c (param_key descr) ESP_FAIL 0
                (h ++ [ev0]) eq_refl) as [Hrr Hrc].
    destruct (retry_loop env (max_retries + 1) 0 c (param_key descr) ESP_FAIL 0 (h ++ [ev0]))
      as [[[read_err raw] rc] out1].
    cbn [fst snd] in *.
    destruct (after_retry_counted c st read_err raw rc ((h ++ [ev0]) ++ out1) Hle)
      as [Hcount Hbound].
    destruct (after_retry cfg env c st (read_err, raw, rc) ((h ++ [ev0]) ++ out1))
      as [st' out2].
    cbn [fst snd] in *.
    rewrite !parameter_results_app, !connectivity_checks_app, Hrr, Hrc.
    split; [exact Hcount | exact Hbound].
  - cbn. split; [reflexivity | lia].
Qed.

Lemma read_parameters_counted (n : nat) :
  forall (c0 : nat) (st : batch_state) (h : list event),
    (timeout_count st <= c0)%nat ->
    let r := read_parameters cfg env n c0 st h in
    timeout_counter (timeout_count st) (parameter_results (snd r)) =
      (connectivity_checks (snd r), timeout_count (fst r)).
Proof.
  induction n as [| n IH]; intros c0 st h Hle; cbv zeta; [reflexivity |].
  cbn [read_parameters]. rewrite bind_fst, bind_snd.
  destruct (read_parameter_counted c0 st h Hle) as [H1 Hb1].
  destruct (read_parameter cfg env c0 st h) as [st1 o1]. cbn [fst snd] in *.
  specialize (IH (S c0) st1 (h ++ o1) Hb1). cbv zeta in IH.
  destruct (read_parameters cfg env n (S c0) st1 (h ++ o1)) as [st2 o2].
  cbn [fst snd] in *.
  rewrite parameter_results_app, connectivity_checks_app, timeout_counter_app, H1, IH.
  reflexivity.
Qed.

(** The connectivity checks of a batch are those of [timeout_counter]: the
    counter counts the timeouts since the last check, whether or not other
    parameters were read in between. *)
Lemma connectivity_checks_follow_timeout_counter (d0 : sdm120_data_t) (h : list event) :
  let out := snd (read_sdm120_data cfg env (Some d0) h) in
  connectivity_checks out = fst (timeout_counter 0 (parameter_results out)).
Proof.
  cbv zeta.
  set (ev := EvLog ESP_LOG_INFO (LOG_READING_PARAMETERS sdm120_cid_count)).
  assert (Hshape : exists tail : list event,
             parameter_results tail = [] /\ connectivity_checks tail = 0%nat /\
             snd (read_sdm120_data cfg env (Some d0) h) =
               [ev] ++
               snd (read_parameters cfg env sdm120_cid_count 0 initial_batch_state
                      (h ++ [ev])) ++ tail).
  { unfold read_sdm120_data.
    unfold bind at 1. unfold ESP_LOGI at 1, emit at 1.
    unfold bind at 1. fold initial_batch_state. fold ev.
    destruct (read_parameters cfg env sdm120_cid_count 0 initial_batch_state (h ++ [ev]))
      as [st o].
    cbn [fst snd].
    destruct (success_count st =? 0)%nat.
    - eexists. split; [| split; [| cbn; reflexivity]]; reflexivity.
    - destruct (sdm120_cid_count / 2 <? timeout_count st)%nat;
        (eexists; split; [| split; [| cbn; reflexivity]]; reflexivity). }
  destruct Hshape as (tail & Htr & Htc & ->).
  pose proof (read_parameters_counted sdm120_cid_count 0 initial_batch_state
                (h ++ [ev]) (Nat.le_refl 0)) as Hloop.
  cbv zeta in Hloop. cbn [timeout_count initial_batch_state] in Hloop.
  rewrite !parameter_results_app, !connectivity_checks_app, Htr, Htc, app_nil_r.
  change (parameter_results [ev]) with (@nil esp_err_t).
  change (connectivity_checks [ev]) with 0%nat.
  cbn [app]. rewrite Hloop. cbn [fst]. lia.
Qed.

End TimeoutCounter.

(** ** The properties on explicit inputs *)

(** A parameter that times out three times: attempt, 200 ms, attempt,
    500 ms, attempt. *)
Lemma retry_loop_example :
  let out := snd (retry_loop env_all_fail (max_retries + 1) 0 CID_VOLTAGE "Voltage"
                    ESP_FAIL 0 []) in
  attempts_of CID_VOLTAGE out = 3%nat /\
  schedule out = [None; Some 200; None; Some 500; None].
Proof. vm_compute. split; reflexivity. Qed.

(** A pass in which nothing is read, and a pass in which all is read and
    published. *)
Lemma monitoring_cycle_examples :
  (let pass := snd (monitoring_cycle cfg_example env_all_fail 0 zeroed_data []) in
   successes pass = 0%nat /\
   publish_calls pass = [] /\
   skipn 33 (delays_of pass) = [2000; 5000]) /\
  (let pass := snd (monitoring_cycle cfg_example env_all_ok 0 zeroed_data []) in
   successes pass = 10%nat /\
   List.length (publish_calls pass) = 12%nat /\
   skipn 13 (delays_of pass) = [5000]).
Proof. vm_compute. repeat split. Qed.

(** C4 on a batch in which every parameter but the voltage is read, for
    the current. *)
Lemma read_sdm120_data_fields_witness :
  let r := read_sdm120_data cfg_example env_partial (Some zeroed_data) [] in
  r = read_sdm120_data cfg_example env_partial (Some zeroed_data) [] /\
  exists d : sdm120_data_t,
    snd (fst r) = Some d /\
    (forall key raw, In (EvGetParameter CID_CURRENT key ESP_OK raw) (snd r) ->
       field_of_cid CID_CURRENT d = Some (convert_sdm120_ieee754 raw)) /\
    ((forall key raw, ~ In (EvGetParameter CID_CURRENT key ESP_OK raw) (snd r)) ->
       field_of_cid CID_CURRENT d = Some 0) /\
    (exists err found, In (EvGetCidInfo CID_CURRENT err found) (snd r)).
Proof.
  apply (read_sdm120_data_fields cfg_example env_partial zeroed_data [] CID_CURRENT).
  unfold CID_CURRENT, CID_COUNT. lia.
Defined.

(** C5, as the specification states it, fails: no reading of the return
    value classifies the batch three ways, because a batch in which all ten
    parameters were read and a batch in which nine were read both return
    [ESP_OK]. *)
Lemma return_value_is_not_three_way :
  ~ exists outcome_of : esp_err_t -> outcome,
      forall env : environment,
        let r := read_sdm120_data cfg_example env (Some zeroed_data) [] in
        outcome_of (fst (fst r)) = classify (successes (snd r)) sdm120_cid_count.
Proof.
  intros [outcome_of H].
  pose proof (H env_all_ok) as Hall. pose proof (H env_partial) as Hpart.
  vm_compute in Hall. vm_compute in Hpart. congruence.
Qed.

(** C7 with the broker session down. *)
Lemma publish_not_connected_no_broker_call_witness :
  mqtt_publish_sdm120_data cfg_example env_disconnected (Some zeroed_data) [] =
    (ESP_ERR_INVALID_STATE, [EvLog ESP_LOG_WARN LOG_MQTT_NOT_CONNECTED]) /\
  publish_calls
    (snd (mqtt_publish_sdm120_data cfg_example env_disconnected (Some zeroed_data) [])) = [].
Proof.
  apply (publish_not_connected_no_broker_call cfg_example env_disconnected
           (Some zeroed_data) []).
  left. reflexivity.
Defined.

(** C8, as the specification states it, fails.  With the session connected,
    per-field publishing enabled and all ten parameters read, the publisher
    makes a single call when the client refuses the aggregate message, and
    eleven calls when Home Assistant discovery is not configured. *)
Lemma publish_calls_not_always_twelve :
  (let r := read_sdm120_data cfg_example env_publish_fails (Some zeroed_data) [] in
   let p := mqtt_publish_sdm120_data cfg_example env_publish_fails (snd (fst r)) (snd r) in
   mqtt_connected env_publish_fails (snd r) = true /\
   mqtt_client env_publish_fails (snd r) = true /\
   MQTT_PUBLISH_INDIVIDUAL_TOPICS = true /\
   successes (snd r) = 10%nat /\
   List.length (publish_calls (snd p)) = 1%nat /\
   List.length (publish_calls (snd p)) <> 12%nat) /\
  (let r := read_sdm120_data cfg_no_discovery env_all_ok (Some zeroed_data) [] in
   let p := mqtt_publish_sdm120_data cfg_no_discovery env_all_ok (snd (fst r)) (snd r) in
   mqtt_connected env_all_ok (snd r) = true /\
   mqtt_client env_all_ok (snd r) = true /\
   MQTT_PUBLISH_INDIVIDUAL_TOPICS = true /\
   successes (snd r) = 10%nat /\
   List.length (publish_calls (snd p)) = 11%nat /\
   List.length (publish_calls (snd p)) <> 12%nat).
Proof.
  split; cbv zeta; repeat split; try (vm_compute; reflexivity); vm_compute; discriminate.
Qed.

(** C8, amended, with a client that accepts every message. *)
Lemma publish_connected_calls_witness :
  let calls :=
    publish_calls (snd (mqtt_publish_sdm120_data cfg_example env_all_ok (Some zeroed_data) [])) in
  MQTT_PUBLISH_INDIVIDUAL_TOPICS = true /\
  calls =
    [aggregate_call cfg_example env_all_ok zeroed_data []] ++
    individual_calls cfg_example zeroed_data ++
    (if CONFIG_SDM120_MQTT_HOME_ASSISTANT cfg_example
     then [availability_call cfg_example] else []) /\
  List.length calls =
    (if CONFIG_SDM120_MQTT_HOME_ASSISTANT cfg_example then 12 else 11)%nat.
Proof.
  apply (publish_connected_calls cfg_example env_all_ok zeroed_data []).
  - reflexivity.
  - reflexivity.
  - vm_compute. discriminate.
Defined.

(** C10 with a client that accepts the aggregate message and refuses the
    eleven others. *)
Lemma publish_result_is_aggregate_result_witness :
  fst (mqtt_publish_sdm120_data cfg_example env_only_aggregate_accepted
         (Some zeroed_data) []) =
    (if aggregate_msg_id cfg_example env_only_aggregate_accepted zeroed_data [] =? -1
     then ESP_FAIL else ESP_OK) /\
  (fst (mqtt_publish_sdm120_data cfg_example env_only_aggregate_accepted
          (Some zeroed_data) []) = ESP_FAIL <->
   aggregate_msg_id cfg_example env_only_aggregate_accepted zeroed_data [] = -1) /\
  (forall env' : environment,
      mqtt_connected env' [] = true ->
      mqtt_client env' [] = true ->
      aggregate_msg_id cfg_example env' zeroed_data [] =
        aggregate_msg_id cfg_example env_only_aggregate_accepted zeroed_data [] ->
      fst (mqtt_publish_sdm120_data cfg_example env' (Some zeroed_data) []) =
      fst (mqtt_publish_sdm120_data cfg_example env_only_aggregate_accepted
             (Some zeroed_data) [])).
Proof.
  apply (publish_result_is_aggregate_result cfg_example env_only_aggregate_accepted
           zeroed_data []); reflexivity.
Defined.

(** C9: the counter of [read_sdm120_data] is not a counter of consecutive
    timeouts.  When the parameters with an even CID time out and those with
    an odd CID are read, no two parameters in a row time out, and a counter
    of consecutive timeouts would never reach 3; yet the third timeout
    (CID 4) sets off the connectivity check, once. *)
Theorem connectivity_check_without_consecutive_timeouts :
  let out := snd (read_sdm120_data cfg_example env_alternating (Some zeroed_data) []) in
  parameter_results out =
    [ESP_ERR_TIMEOUT; ESP_OK; ESP_ERR_TIMEOUT; ESP_OK; ESP_ERR_TIMEOUT;
     ESP_OK; ESP_ERR_TIMEOUT; ESP_OK; ESP_ERR_TIMEOUT; ESP_OK] /\
  longest_timeout_run 0 (parameter_results out) = 1%nat /\
  fst (consecutive_timeout_counter 0 (parameter_results out)) = 0%nat /\
  fst (timeout_counter 0 (parameter_results out)) = 1%nat /\
  connectivity_checks out = 1%nat /\
  exists before after,
    out = before ++
          [EvLog ESP_LOG_ERROR (LOG_READ_FAILED CID_REACTIVE_POWER 3 ESP_ERR_TIMEOUT);
           EvLog ESP_LOG_WARN LOG_MULTIPLE_TIMEOUTS;
           EvLog ESP_LOG_INFO LOG_CHECKING_CONNECTIVITY] ++ after.
Proof.
  cbv zeta. repeat split; try (vm_compute; reflexivity).
  match goal with
  | |- exists before after, ?out = _ =>
      let o := eval vm_compute in out in
      exists (firstn 38 o), (skipn 41 o)
  end.
  vm_compute. reflexivity.
Qed.

(** * More of the program *)

(** ** The decoder is its own inverse *)

(** X1.  [convert_sdm120_ieee754] is its own inverse.  For every raw value
    the result is a 32-bit pattern, decoding the result again gives back the
    raw value (its low 32 bits), and the result is the raw value with its
    two 16-bit halves exchanged, so that the function that decodes a register
    pair is also the one that encodes it. *)
Theorem convert_sdm120_ieee754_involution (raw : Z) :
  0 <= convert_sdm120_ieee754 raw < 2 ^ 32 /\
  convert_sdm120_ieee754 (convert_sdm120_ieee754 raw) = raw mod 2 ^ 32 /\
  convert_sdm120_ieee754 raw = word_swapped_payload (raw mod 2 ^ 32).
Proof.
  rewrite !convert_sdm120_ieee754_arith, word_swapped_payload_arith.
  change (2 ^ 32) with 4294967296.
  pose proof (Z.mod_pos_bound raw 65536 ltac:(lia)) as Hlo.
  pose proof (Z.mod_pos_bound (raw / 65536) 65536 ltac:(lia)) as Hhi.
  set (lo := raw mod 65536) in *. set (hi := (raw / 65536) mod 65536) in *.
  assert (Hraw : raw mod 4294967296 = lo + 65536 * hi).
  { subst lo hi. Z.div_mod_to_equations. lia. }
  assert (Hdiv : (hi + 65536 * lo) / 65536 = lo) by (Z.div_mod_to_equations; lia).
  assert (Hmod : (hi + 65536 * lo) mod 65536 = hi) by (Z.div_mod_to_equations; lia).
  rewrite Hdiv, Hmod, (Z.mod_small lo) by lia.
  rewrite Hraw.
  assert (Hdiv' : (lo + 65536 * hi) / 65536 = hi) by (Z.div_mod_to_equations; lia).
  assert (Hmod' : (lo + 65536 * hi) mod 65536 = lo) by (Z.div_mod_to_equations; lia).
  rewrite Hdiv', Hmod', (Z.mod_small hi) by lia.
  repeat split; lia.
Qed.

(** ** Observations, continued *)

Lemma visited_app (o1 o2 : list event) : visited (o1 ++ o2) = visited o1 ++ visited o2.
Proof. apply flat_map_app. Qed.

Lemma reads_app (o1 o2 : list event) : reads (o1 ++ o2) = (reads o1 + reads o2)%nat.
Proof. unfold reads. rewrite filter_app, length_app. reflexivity. Qed.

Lemma sum_Z_app (l1 l2 : list Z) : sum_Z (l1 ++ l2) = sum_Z l1 + sum_Z l2.
Proof. unfold sum_Z. induction l1 as [| x l1 IH]; cbn [app fold_right]; lia. Qed.

Lemma sum_nat_app (l1 l2 : list nat) : sum_nat (l1 ++ l2) = (sum_nat l1 + sum_nat l2)%nat.
Proof. unfold sum_nat. induction l1 as [| x l1 IH]; cbn [app fold_right]; lia. Qed.

Lemma total_delay_app (o1 o2 : list event) :
  total_delay (o1 ++ o2) = total_delay o1 + total_delay o2.
Proof. unfold total_delay. rewrite delays_of_app. apply sum_Z_app. Qed.

(** What a run of notes leaves unchanged. *)
Lemma notes_quiet (out : list event) :
  forallb is_note out = true ->
  visited out = [] /\ reads out = 0%nat /\ delays_of out = [] /\
  filter is_summary out = [] /\ parameter_results out = [] /\
  forallb is_local out = true.
Proof.
  induction out as [| e out IH]; [repeat split |].
  cbn [forallb]. intros H. apply andb_true_iff in H. destruct H as [He Hout].
  destruct (IH Hout) as (Hv & Hr & Hd & Hs & Hp & Hl).
  unfold reads in *.
  destruct e as [lvl line | | | | |]; try discriminate.
  - cbn [visited flat_map visited_cid filter is_read delays_of delay_of is_summary
         parameter_results parameter_result forallb is_local app andb].
    fold (visited out). fold (delays_of out). fold (parameter_results out).
    rewrite Hv, Hd, Hl, Hr.
    destruct line; try discriminate; cbn in He |- *; rewrite ?Hs, ?Hp;
      repeat split; try reflexivity; discriminate.
  - cbn [visited flat_map visited_cid filter is_read delays_of delay_of is_summary
         parameter_results parameter_result forallb is_local app andb].
    fold (visited out). fold (delays_of out). fold (parameter_results out).
    rewrite Hv, Hd, Hl, Hr, Hs, Hp. repeat split.
Qed.

Lemma check_sdm120_connectivity_notes (env : environment) (h : list event) :
  forallb is_note (snd (check_sdm120_connectivity env h)) = true.
Proof.
  unfold check_sdm120_connectivity, bind, ask, ESP_LOGI, ESP_LOGW, emit, ret,
    esp_netif_is_netif_up.
  cbn [fst snd app].
  destruct (s_wifi_netif env _); cbn [negb]; [| reflexivity].
  destruct (esp_netif_is_netif_up_answer env _); cbn [negb]; [| reflexivity].
  destruct (wifi_connected env _); reflexivity.
Qed.

Lemma advisory_checks_notes (c : nat) (v : float) (h : list event) :
  forallb is_note (snd (advisory_checks c v h)) = true.
Proof.
  unfold advisory_checks.
  repeat match goal with
         | |- context [if ?b then _ else _] => destruct b
         end; reflexivity.
Qed.

Lemma high_energy_note_notes (c : nat) (v : float) (h : list event) :
  forallb is_note (snd (high_energy_note c v h)) = true.
Proof.
  unfold high_energy_note.
  match goal with
  | |- context [if ?b then _ else _] => destruct b
  end; reflexivity.
Qed.

(** ** The loop body, written out *)

Section LoopBody.

Variable cfg : config.
Variable env : environment.

(** The body from [if (read_err == ESP_OK)] on, branch by branch. *)
Lemma after_retry_cases (c : nat) (st : batch_state) (err : esp_err_t) (raw : Z)
    (rc : nat) (h : list event) :
  after_retry cfg env c st (err, raw, rc) h =
    if is_ESP_OK err then
      let v := convert_sdm120_ieee754 raw in
      let oa := snd (advisory_checks c v h) in
      match store_converted_value c v (data st) with
      | Some d =>
          ({| data := d; timeout_count := timeout_count st;
              success_count := S (success_count st) |},
           oa ++ snd (high_energy_note c v (h ++ oa)) ++ inter_parameter_delays cfg c)
      | None =>
          ({| data := data st; timeout_count := timeout_count st;
              success_count := S (success_count st) |},
           oa ++ [EvLog ESP_LOG_WARN (LOG_UNKNOWN_CID c)] ++ inter_parameter_delays cfg c)
      end
    else
      let tc := if is_ESP_ERR_TIMEOUT err then S (timeout_count st)
                else timeout_count st in
      let failed := EvLog ESP_LOG_ERROR (LOG_READ_FAILED c rc err) in
      let multiple := EvLog ESP_LOG_WARN LOG_MULTIPLE_TIMEOUTS in
      if ((3 <=? tc)%nat && (2 <=? c)%nat)%bool then
        ({| data := data st; timeout_count := 0; success_count := success_count st |},
         [failed; multiple] ++
         snd (check_sdm120_connectivity env ((h ++ [failed]) ++ [multiple])) ++
         inter_parameter_delays cfg c)
      else
        ({| data := data st; timeout_count := tc; success_count := success_count st |},
         [failed] ++ inter_parameter_delays cfg c).
Proof.
  unfold after_retry, inter_parameter_delays.
  destruct (is_ESP_OK err).
  - cbv zeta.
    unfold bind at 1. unfold bind at 1.
    destruct (advisory_checks c (convert_sdm120_ieee754 raw) h) as [[] oa]. cbn [fst snd].
    destruct (store_converted_value c (convert_sdm120_ieee754 raw) (data st)) as [d |].
    + unfold bind at 1.
      destruct (high_energy_note c (convert_sdm120_ieee754 raw) (h ++ oa)) as [[] on].
      unfold bind, vTaskDelay, emit, ret. cbn [fst snd].
      destruct (c <? 3)%nat; cbn [app]; rewrite ?app_nil_r, <- ?app_assoc; reflexivity.
    + unfold bind, vTaskDelay, ESP_LOGW, emit, ret. cbn [fst snd].
      destruct (c <? 3)%nat; cbn [app]; rewrite ?app_nil_r, <- ?app_assoc; reflexivity.
  - cbv zeta.
    set (tc := if is_ESP_ERR_TIMEOUT err then S (timeout_count st) else timeout_count st).
    destruct ((3 <=? tc)%nat && (2 <=? c)%nat)%bool.
    + unfold bind, ESP_LOGE, ESP_LOGW, vTaskDelay, emit, ret. cbn [fst snd app].
      destruct (check_sdm120_connectivity env _) as [r oc]. cbn [fst snd].
      destruct (c <? 3)%nat; cbn [app]; rewrite ?app_nil_r, <- ?app_assoc; reflexivity.
    + unfold bind, ESP_LOGE, vTaskDelay, emit, ret. cbn [fst snd app].
      destruct (c <? 3)%nat; reflexivity.
Qed.

(** The whole body: the descriptor lookup, and when it succeeds the retry
    loop and what follows it. *)
Lemma read_parameter_cases (c : nat) (st : batch_state) (h : list event) :
  let answer := mbc_master_get_cid_info_answer env h c in
  let lookup :=
    EvGetCidInfo c (fst answer) (match snd answer with Some _ => true | None => false end) in
  match (if is_ESP_OK (fst answer) then snd answer else None) with
  | None =>
      read_parameter cfg env c st h =
        (st, [lookup; EvLog ESP_LOG_ERROR (LOG_NO_CID_INFO c (fst answer))])
  | Some descr =>
      let r := retry_loop env (max_retries + 1) 0 c (param_key descr) ESP_FAIL 0
                 (h ++ [lookup]) in
      let a := after_retry cfg env c st (fst r) ((h ++ [lookup]) ++ snd r) in
      read_parameter cfg env c st h = (fst a, [lookup] ++ snd r ++ snd a)
  end.
Proof.
  cbv zeta.
  destruct (mbc_master_get_cid_info_answer env h c) as [err pd] eqn:Hanswer.
  cbn [fst snd].
  rewrite (surjective_pairing (read_parameter cfg env c st h)).
  rewrite read_parameter_unfold, bind_fst, bind_snd.
  unfold mbc_master_get_cid_info. rewrite Hanswer. cbn [fst snd].
  destruct (if is_ESP_OK err then pd else None) as [descr |]; cbv beta iota.
  - rewrite bind_fst, bind_snd. reflexivity.
  - reflexivity.
Qed.

End LoopBody.

(** ** What the retry loop emits *)

Lemma retry_loop_events (env : environment) (k : nat) :
  forall (rc c : nat) (key : string) (e0 : esp_err_t) (raw0 : Z) (h : list event),
    forallb (is_retry_event c) (snd (retry_loop env k rc c key e0 raw0 h)) = true.
Proof.
  induction k as [| k IH]; intros rc c key e0 raw0 h; [reflexivity |].
  rewrite retry_loop_step.
  destruct (mbc_master_get_parameter_answer env h c key) as [err raw].
  destruct (is_ESP_OK err).
  - cbn. rewrite Nat.eqb_refl. reflexivity.
  - cbv zeta.
    match goal with
    | |- context [retry_loop env k (S rc) c key err raw ?h'] =>
        specialize (IH (S rc) c key err raw h');
        destruct (retry_loop env k (S rc) c key err raw h') as [r out]
    end.
    cbn [fst snd] in *. rewrite forallb_app, IH.
    destruct (rc <? max_retries)%nat; cbn; rewrite Nat.eqb_refl; reflexivity.
Qed.

Lemma retry_events_quiet (c : nat) (out : list event) :
  forallb (is_retry_event c) out = true ->
  visited out = repeat c (attempts_of c out) /\
  reads out = attempts_of c out /\
  filter is_summary out = [].
Proof.
  unfold reads, attempts_of.
  induction out as [| e out IH]; [repeat split |].
  cbn [forallb]. intros H. apply andb_true_iff in H. destruct H as [He Hout].
  destruct (IH Hout) as (Hv & Hr & Hs).
  destruct e as [lvl line | | | c' | |]; try discriminate.
  - destruct line; try discriminate. cbn. repeat split; assumption.
  - cbn. repeat split; assumption.
  - cbn in He. apply Nat.eqb_eq in He. subst c'.
    cbn [visited flat_map visited_cid filter is_read is_attempt_of is_summary app].
    rewrite Nat.eqb_refl. cbn [List.length repeat]. fold (visited out).
    rewrite Hv, Hr. repeat split. assumption.
Qed.

Lemma delays_of_schedule (out : list event) :
  delays_of out =
    flat_map (fun o : option Z => match o with Some d => [d] | None => [] end)
      (schedule out).
Proof.
  unfold delays_of, schedule.
  induction out as [| e out IH]; [reflexivity |].
  cbn [flat_map]. rewrite flat_map_app, <- IH.
  destruct e; reflexivity.
Qed.

Lemma retry_schedule_delays (n : nat) :
  sum_Z (flat_map (fun o : option Z => match o with Some d => [d] | None => [] end)
           (retry_schedule MODBUS_RETRY_DELAY_BASE_MS 300 0 n)) = retry_delay n.
Proof.
  unfold retry_schedule, retry_delay, sum_Z. cbn [flat_map app].
  induction (seq 0 (n - 1)) as [| i l IH]; [reflexivity |].
  cbn [flat_map map app fold_right]. rewrite IH. reflexivity.
Qed.

(** ** One parameter, continued *)

Section OneParameter.

Variable cfg : config.
Variable env : environment.

Lemma inter_parameter_delays_total (c : nat) :
  visited (inter_parameter_delays cfg c) = [] /\
  reads (inter_parameter_delays cfg c) = 0%nat /\
  filter is_summary (inter_parameter_delays cfg c) = [] /\
  parameter_results (inter_parameter_delays cfg c) = [] /\
  attempts_of c (inter_parameter_delays cfg c) = 0%nat /\
  total_delay (inter_parameter_delays cfg c) =
    MODBUS_INTER_PARAM_DELAY_MS cfg + (if (c <? 3)%nat then 100 else 0).
Proof.
  unfold inter_parameter_delays, total_delay.
  destruct (c <? 3)%nat; cbn; repeat split; lia.
Qed.

Lemma after_retry_more (c : nat) (st : batch_state) (err : esp_err_t) (raw : Z)
    (rc : nat) (h : list event) :
  let o := snd (after_retry cfg env c st (err, raw, rc) h) in
  visited o = [] /\ reads o = 0%nat /\ filter is_summary o = [] /\
  total_delay o = MODBUS_INTER_PARAM_DELAY_MS cfg + (if (c <? 3)%nat then 100 else 0) /\
  parameter_results o = (if is_ESP_OK err then [] else [err]).
Proof.
  cbv zeta. rewrite after_retry_cases.
  destruct (inter_parameter_delays_total c) as (Hv & Hr & Hs & Hp & _ & Hd).
  destruct (is_ESP_OK err).
  - cbv zeta.
    destruct (notes_quiet _ (advisory_checks_notes c (convert_sdm120_ieee754 raw) h))
      as (Hv1 & Hr1 & Hd1 & Hs1 & Hp1 & _).
    assert (Ht1 : total_delay (snd (advisory_checks c (convert_sdm120_ieee754 raw) h)) = 0)
      by (unfold total_delay; rewrite Hd1; reflexivity).
    destruct (store_converted_value c (convert_sdm120_ieee754 raw) (data st)) as [d |];
      cbn [snd].
    + destruct (notes_quiet _ (high_energy_note_notes c (convert_sdm120_ieee754 raw)
                  (h ++ snd (advisory_checks c (convert_sdm120_ieee754 raw) h))))
        as (Hv2 & Hr2 & Hd2 & Hs2 & Hp2 & _).
      rewrite !visited_app, !reads_app, !filter_app, !total_delay_app, !parameter_results_app.
      unfold total_delay at 2. rewrite Hd2.
      rewrite Hv, Hr, Hs, Hp, Hd, Hv1, Hr1, Hs1, Hp1, Ht1, Hv2, Hr2, Hs2, Hp2.
      repeat split; cbn; lia.
    + rewrite !visited_app, !reads_app, !filter_app, !total_delay_app, !parameter_results_app.
      rewrite Hv, Hr, Hs, Hp, Hd, Hv1, Hr1, Hs1, Hp1, Ht1.
      repeat split; cbn; lia.
  - cbv zeta.
    destruct ((3 <=? _)%nat && (2 <=? c)%nat)%bool; cbn [snd].
    + match goal with
      | |- context [check_sdm120_connectivity env ?h'] =>
          destruct (notes_quiet _ (check_sdm120_connectivity_notes env h'))
            as (Hv2 & Hr2 & Hd2 & Hs2 & Hp2 & _)
      end.
      rewrite !visited_app, !reads_app, !filter_app, !total_delay_app, !parameter_results_app.
      unfold total_delay at 2. rewrite Hd2.
      rewrite Hv, Hr, Hs, Hp, Hd, Hv2, Hr2, Hs2, Hp2.
      repeat split; cbn; lia.
    + rewrite !visited_app, !reads_app, !filter_app, !total_delay_app, !parameter_results_app.
      rewrite Hv, Hr, Hs, Hp, Hd.
      repeat split; cbn; lia.
Qed.

Lemma read_parameter_more (c : nat) (st : batch_state) (h : list event) :
  let o := snd (read_parameter cfg env c st h) in
  (attempts_of c o <= max_retries + 1)%nat /\
  visited o = repeat c (S (attempts_of c o)) /\
  reads o = attempts_of c o /\
  filter is_summary o = [] /\
  total_delay o = parameter_delay cfg c (attempts_of c o) /\
  List.length (parameter_results o) = (if (attempts_of c o =? 0)%nat then 0 else 1)%nat /\
  exists (err : esp_err_t) (found : bool),
    filter (is_cid_info_of c) o = [EvGetCidInfo c err found] /\
    (attempts_of c o = 0%nat <-> (is_ESP_OK err && found)%bool = false).
Proof.
  cbv zeta. pose proof (read_parameter_cases cfg env c st h) as Hcases.
  cbv zeta in Hcases.
  destruct (mbc_master_get_cid_info_answer env h c) as [err pd]. cbn [fst snd] in Hcases.
  set (lookup := EvGetCidInfo c err match pd with Some _ => true | None => false end) in *.
  destruct (if is_ESP_OK err then pd else None) as [descr |] eqn:Hfound.
  - pose proof (retry_loop_post env (max_retries + 1) 0 c (param_key descr) ESP_FAIL 0
                  (h ++ [lookup]) ltac:(lia) ltac:(unfold max_retries; lia)) as Hretry.
    pose proof (retry_loop_events env (max_retries + 1) 0 c (param_key descr) ESP_FAIL 0
                  (h ++ [lookup])) as Hevents.
    pose proof (retry_loop_results env (max_retries + 1) 0 c (param_key descr) ESP_FAIL 0
                  (h ++ [lookup]) eq_refl) as Hresults.
    unfold satisfies in Hretry. cbv zeta in Hresults.
    destruct (retry_loop env (max_retries + 1) 0 c (param_key descr) ESP_FAIL 0 (h ++ [lookup]))
      as [[[read_err raw] rc] o1].
    cbn [fst snd retry_post] in Hretry, Hevents, Hresults, Hcases.
    destruct Hretry as ((n & Hn & Hatt & Hsched) & _ & _ & _ & _ & Hci).
    destruct Hresults as (Hres & _).
    destruct (retry_events_quiet c o1 Hevents) as (Hv1 & Hr1 & Hs1).
    pose proof (after_retry_more c st read_err raw rc ((h ++ [lookup]) ++ o1)) as Hmore.
    pose proof (after_retry_post cfg env c st read_err raw rc ((h ++ [lookup]) ++ o1)) as Hpost.
    unfold satisfies in Hpost. cbv zeta in Hmore.
    rewrite Hcases.
    destruct (after_retry cfg env c st (read_err, raw, rc) ((h ++ [lookup]) ++ o1))
      as [st' o2].
    cbn [fst snd] in *.
    destruct Hmore as (Hv2 & Hr2 & Hs2 & Hd2 & Hp2). destruct Hpost as (Hloc & _).
    pose proof (local_attempts c o2 Hloc) as Ha2.
    pose proof (local_cid_info c o2 Hloc) as Hci2.
    assert (Htotal : total_delay o1 = retry_delay n).
    { unfold total_delay. rewrite delays_of_schedule, Hsched.
      apply retry_schedule_delays. }
    rewrite !attempts_of_app, !visited_app, !reads_app, !filter_app, !total_delay_app,
      !parameter_results_app, !length_app.
    rewrite Hv1, Hr1, Hs1, Hv2, Hr2, Hs2, Hd2, Hp2, Ha2, Hci2, Hci, Hatt, Htotal, Hres.
    replace (attempts_of c [lookup]) with 0%nat by reflexivity.
    replace (visited [lookup]) with [c] by reflexivity.
    replace (reads [lookup]) with 0%nat by reflexivity.
    replace (filter is_summary [lookup]) with (@nil event) by reflexivity.
    replace (total_delay [lookup]) with 0 by reflexivity.
    replace (parameter_results [lookup]) with (@nil esp_err_t) by reflexivity.
    replace (filter (is_cid_info_of c) [lookup]) with [lookup]
      by (cbn; rewrite Nat.eqb_refl; reflexivity).
    rewrite !Nat.add_0_l, !Nat.add_0_r, !app_nil_r.
    unfold parameter_delay.
    destruct (Nat.eqb_spec n 0) as [Hn0 | Hn0]; [lia |].
    split; [lia |]. split; [reflexivity |]. split; [reflexivity |].
    split; [reflexivity |]. split; [lia |].
    split; [destruct (is_ESP_OK read_err); reflexivity |].
    exists err, (match pd with Some _ => true | None => false end).
    split; [reflexivity |].
    destruct (is_ESP_OK err), pd; try discriminate.
    cbn. split; [lia | discriminate].
  - rewrite Hcases. cbn [snd].
    unfold attempts_of, reads, total_delay, parameter_delay. cbn.
    rewrite Nat.eqb_refl. cbn.
    repeat split; try lia.
    exists err, (match pd with Some _ => true | None => false end).
    split; [reflexivity |].
    split; [| reflexivity].
    intros _. destruct (is_ESP_OK err), pd; try discriminate; reflexivity.
Qed.

End OneParameter.

(** ** The loop over the parameters, continued *)

Section Loop.

Variable cfg : config.
Variable env : environment.

Lemma map_attempts_later {B : Type} (F : nat -> nat -> B) (c0 n : nat)
    (o1 o2 : list event) :
  (forall c : nat, c <> c0 -> attempts_of c o1 = 0%nat) ->
  map (fun c => F c (attempts_of c (o1 ++ o2))) (seq (S c0) n) =
  map (fun c => F c (attempts_of c o2)) (seq (S c0) n).
Proof.
  intros Hother. apply map_ext_in. intros c Hc. apply in_seq in Hc.
  rewrite attempts_of_app, Hother by lia. reflexivity.
Qed.

Lemma read_parameters_more (n : nat) :
  forall (c0 : nat) (st : batch_state) (h : list event),
    let o := snd (read_parameters cfg env n c0 st h) in
    visited o = List.concat (map (fun c => repeat c (S (attempts_of c o))) (seq c0 n)) /\
    reads o = sum_nat (map (fun c => attempts_of c o) (seq c0 n)) /\
    filter is_summary o = [] /\
    total_delay o =
      sum_Z (map (fun c => parameter_delay cfg c (attempts_of c o)) (seq c0 n)) /\
    List.length (parameter_results o) =
      sum_nat (map (fun c => if (attempts_of c o =? 0)%nat then 0 else 1)%nat (seq c0 n)) /\
    (forall c : nat, (c0 <= c < c0 + n)%nat ->
       exists (err : esp_err_t) (found : bool),
         filter (is_cid_info_of c) o = [EvGetCidInfo c err found] /\
         (attempts_of c o = 0%nat <-> (is_ESP_OK err && found)%bool = false)).
Proof.
  induction n as [| n IH]; intros c0 st h.
  - cbn. repeat split. intros c Hc. lia.
  - cbv zeta. cbn [read_parameters]. rewrite bind_snd.
    pose proof (read_parameter_satisfies cfg env c0 st h) as Hpost.
    pose proof (read_parameter_more cfg env c0 st h) as Hone.
    unfold satisfies in Hpost. cbv zeta in Hone.
    destruct (read_parameter cfg env c0 st h) as [st1 o1]. cbn [fst snd] in *.
    pose proof (read_parameters_satisfies cfg env n (S c0) st1 (h ++ o1)) as Hposts.
    specialize (IH (S c0) st1 (h ++ o1)).
    unfold satisfies in Hposts. cbv zeta in IH.
    destruct (read_parameters cfg env n (S c0) st1 (h ++ o1)) as [st2 o2].
    cbn [fst snd] in *.
    destruct Hpost as (_ & Hother & _).
    destruct Hposts as (_ & Hout & _).
    destruct Hone as (_ & Hv1 & Hr1 & Hs1 & Hd1 & Hp1 & Hl1).
    destruct IH as (Hv2 & Hr2 & Hs2 & Hd2 & Hp2 & Hl2).
    assert (Hother' : forall c : nat, c <> c0 -> attempts_of c o1 = 0%nat)
      by (intros c Hc; apply (Hother c Hc)).
    assert (Hc0 : attempts_of c0 (o1 ++ o2) = attempts_of c0 o1).
    { rewrite attempts_of_app. destruct (Hout c0 ltac:(lia)) as (H0 & _). lia. }
    cbn [seq map List.concat sum_nat sum_Z fold_right].
    fold (sum_nat (map (fun c => attempts_of c (o1 ++ o2)) (seq (S c0) n))).
    fold (sum_Z (map (fun c => parameter_delay cfg c (attempts_of c (o1 ++ o2)))
                   (seq (S c0) n))).
    fold (sum_nat (map (fun c => if (attempts_of c (o1 ++ o2) =? 0)%nat then 0 else 1)%nat
                     (seq (S c0) n))).
    rewrite (map_attempts_later (fun c a => repeat c (S a)) c0 n o1 o2 Hother').
    rewrite (map_attempts_later (fun _ a => a) c0 n o1 o2 Hother').
    rewrite (map_attempts_later (fun c a => parameter_delay cfg c a) c0 n o1 o2 Hother').
    rewrite (map_attempts_later (fun _ a => if (a =? 0)%nat then 0 else 1)%nat
               c0 n o1 o2 Hother').
    rewrite Hc0, visited_app, reads_app, filter_app, total_delay_app,
      parameter_results_app, length_app.
    rewrite Hv1, Hr1, Hs1, Hd1, Hp1, Hv2, Hr2, Hs2, Hd2, Hp2.
    repeat split.
    intros c Hc. rewrite attempts_of_app, filter_app.
    destruct (Nat.eq_dec c c0) as [-> | Hne].
    + destruct (Hout c0 ltac:(lia)) as (Ha & Hi). rewrite Ha, Hi, app_nil_r, Nat.add_0_r.
      exact Hl1.
    + destruct (Hother c Hne) as (Ha & Hi). rewrite Ha, Hi. cbn [app Nat.add].
      apply Hl2. lia.
Qed.

End Loop.

(** ** The counter of timeouts *)

Lemma timeout_counter_total (results : list esp_err_t) :
  forall count : nat,
    (count < 3)%nat ->
    (snd (timeout_counter count results) < 3)%nat /\
    (3 * fst (timeout_counter count results) + snd (timeout_counter count results) =
     count + timeouts results)%nat.
Proof.
  unfold timeouts.
  induction results as [| err rest IH]; intros count Hcount.
  - cbn. lia.
  - cbn [timeout_counter filter].
    destruct (is_ESP_OK err) eqn:Hok.
    + apply is_ESP_OK_true in Hok. subst err.
      change (is_ESP_ERR_TIMEOUT ESP_OK) with false. cbv iota.
      apply IH. exact Hcount.
    + destruct (is_ESP_ERR_TIMEOUT err).
      * cbv zeta. destruct (Nat.leb_spec 3 (S count)).
        -- specialize (IH 0%nat ltac:(lia)).
           destruct (timeout_counter 0 rest) as [checks final].
           cbn [fst snd List.length] in *. lia.
        -- specialize (IH (S count) ltac:(lia)). cbn [List.length]. lia.
      * cbv zeta. destruct (Nat.leb_spec 3 count); [lia |].
        apply IH. exact Hcount.
Qed.

Lemma sum_nat_map_le (f : nat -> nat) (b : nat) (l : list nat) :
  (forall x : nat, (f x <= b)%nat) ->
  (sum_nat (map f l) <= b * List.length l)%nat.
Proof.
  intros Hf. unfold sum_nat.
  induction l as [| x l IH]; cbn [map fold_right List.length]; [lia |].
  specialize (Hf x). lia.
Qed.

Lemma timeouts_le_length (results : list esp_err_t) :
  (timeouts results <= List.length results)%nat.
Proof. unfold timeouts. apply filter_length_le. Qed.

(** ** The batch, continued *)

Lemma retry_delay_values (n : nat) :
  (n <= max_retries + 1)%nat -> 0 <= retry_delay n <= 700.
Proof.
  unfold max_retries. intros Hn.
  destruct n as [| [| [| [| n]]]]; try lia; vm_compute; split; discriminate.
Qed.

Lemma parameter_delay_bounds (cfg : config) (c n : nat) :
  0 <= MODBUS_INTER_PARAM_DELAY_MS cfg ->
  (n <= max_retries + 1)%nat ->
  0 <= parameter_delay cfg c n <=
    700 + MODBUS_INTER_PARAM_DELAY_MS cfg + (if (c <? 3)%nat then 100 else 0).
Proof.
  intros Hd Hn. unfold parameter_delay.
  pose proof (retry_delay_values n Hn).
  destruct (n =? 0)%nat; destruct (c <? 3)%nat; lia.
Qed.

Section BatchMore.

Variable cfg : config.
Variable env : environment.

(** The batch with the lines after its loop written out. *)
Lemma read_sdm120_data_explicit (d0 : sdm120_data_t) (h : list event) :
  let ev := EvLog ESP_LOG_INFO (LOG_READING_PARAMETERS sdm120_cid_count) in
  let r := read_parameters cfg env sdm120_cid_count 0 initial_batch_state (h ++ [ev]) in
  let st := fst r in
  read_sdm120_data cfg env (Some d0) h =
    ((if (success_count st =? 0)%nat then ESP_ERR_TIMEOUT else ESP_OK, Some (data st)),
     [ev] ++ snd r ++
     [EvLog ESP_LOG_INFO
        (LOG_READING_COMPLETED (success_count st) sdm120_cid_count (timeout_count st))] ++
     (if (success_count st =? 0)%nat then [EvLog ESP_LOG_ERROR LOG_ALL_PARAMETERS_FAILED]
      else if (sdm120_cid_count / 2 <? timeout_count st)%nat
           then [EvLog ESP_LOG_WARN LOG_HIGH_TIMEOUT_RATE]
           else [])).
Proof.
  cbv zeta. unfold read_sdm120_data.
  unfold bind at 1. unfold ESP_LOGI at 1, emit at 1.
  unfold bind at 1. fold initial_batch_state.
  destruct (read_parameters cfg env sdm120_cid_count 0 initial_batch_state _) as [st o].
  cbn [fst snd].
  destruct (success_count st =? 0)%nat.
  - reflexivity.
  - destruct (sdm120_cid_count / 2 <? timeout_count st)%nat; reflexivity.
Qed.

(** The counter at the end of the loop. *)
Lemma read_parameters_timeout_count (h : list event) :
  let r := read_parameters cfg env sdm120_cid_count 0 initial_batch_state h in
  timeout_counter 0 (parameter_results (snd r)) =
    (connectivity_checks (snd r), timeout_count (fst r)) /\
  (timeout_count (fst r) < 3)%nat /\
  (3 * connectivity_checks (snd r) + timeout_count (fst r) =
   timeouts (parameter_results (snd r)))%nat.
Proof.
  cbv zeta.
  pose proof (read_parameters_counted cfg env sdm120_cid_count 0 initial_batch_state h
                (Nat.le_refl 0)) as Hloop.
  cbv zeta in Hloop. cbn [timeout_count initial_batch_state] in Hloop.
  destruct (timeout_counter_total
              (parameter_results
                 (snd (read_parameters cfg env sdm120_cid_count 0 initial_batch_state h)))
              0 ltac:(lia)) as (Hlt & Hsum).
  rewrite Hloop in Hlt, Hsum. cbn [fst snd] in Hlt, Hsum.
  split; [exact Hloop |]. split; [exact Hlt | exact Hsum].
Qed.

Lemma read_parameters_successes (n : nat) :
  forall (c0 : nat) (st : batch_state) (h : list event),
    (successes (snd (read_parameters cfg env n c0 st h)) <= n)%nat.
Proof.
  induction n as [| n IH]; intros c0 st h; [cbn; lia |].
  cbn [read_parameters]. rewrite bind_snd, successes_app.
  pose proof (read_parameter_satisfies cfg env c0 st h) as Hpost.
  unfold satisfies in Hpost.
  destruct (read_parameter cfg env c0 st h) as [st1 o1]. cbn [fst snd] in *.
  specialize (IH (S c0) st1 (h ++ o1)).
  destruct Hpost as (_ & _ & _ & _ & _ & [(H1 & _) | (key & raw & H1 & _)]);
    unfold successes at 1; rewrite H1; cbn [List.length]; lia.
Qed.

End BatchMore.

(** X2.  The warning about a high timeout rate is dead code.  The counter
    [timeout_count] starts again at 0 whenever it reaches 3, so at the end of
    the loop it is at most 2 and never above half the number of parameters.
    Whatever the field bus answers, the summary lines of a batch are the
    line that opens it, the line with the counts, in which the timeout count
    is at most 2, and the error line when nothing was read; no batch logs
    [LOG_HIGH_TIMEOUT_RATE]. *)
Theorem high_timeout_rate_never_logged (cfg : config) (env : environment)
    (d0 : sdm120_data_t) (h : list event) :
  let out := snd (read_sdm120_data cfg env (Some d0) h) in
  let t := snd (timeout_counter 0 (parameter_results out)) in
  (t <= 2)%nat /\
  filter is_summary out =
    [EvLog ESP_LOG_INFO (LOG_READING_PARAMETERS sdm120_cid_count);
     EvLog ESP_LOG_INFO (LOG_READING_COMPLETED (successes out) sdm120_cid_count t)] ++
    (if (successes out =? 0)%nat then [EvLog ESP_LOG_ERROR LOG_ALL_PARAMETERS_FAILED]
     else []) /\
  (forall level : esp_log_level_t, ~ In (EvLog level LOG_HIGH_TIMEOUT_RATE) out).
Proof.
  cbv zeta. rewrite read_sdm120_data_explicit. cbn [snd].
  set (ev := EvLog ESP_LOG_INFO (LOG_READING_PARAMETERS sdm120_cid_count)).
  destruct (read_parameters_timeout_count cfg env (h ++ [ev])) as (Hcounter & Hlt & _).
  destruct (read_parameters_more cfg env sdm120_cid_count 0 initial_batch_state (h ++ [ev]))
    as (_ & _ & Hsummary & _).
  pose proof (read_parameters_satisfies cfg env sdm120_cid_count 0 initial_batch_state
                (h ++ [ev])) as Hpost.
  unfold satisfies in Hpost. destruct Hpost as (_ & _ & _ & _ & Hcount & _).
  cbn [success_count initial_batch_state Nat.add] in Hcount.
  destruct (read_parameters cfg env sdm120_cid_count 0 initial_batch_state (h ++ [ev]))
    as [st o].
  cbn [fst snd] in *.
  assert (Hhigh : (sdm120_cid_count / 2 <? timeout_count st)%nat = false).
  { apply Nat.ltb_ge. change (sdm120_cid_count / 2)%nat with 5%nat. lia. }
  rewrite Hhigh.
  set (completed := EvLog ESP_LOG_INFO
                      (LOG_READING_COMPLETED (success_count st) sdm120_cid_count
                         (timeout_count st))).
  set (tail := if (success_count st =? 0)%nat
               then [EvLog ESP_LOG_ERROR LOG_ALL_PARAMETERS_FAILED] else []).
  assert (Htail : parameter_results tail = [] /\ successes tail = 0%nat /\
                  filter is_summary tail = tail).
  { subst tail. destruct (success_count st =? 0)%nat; repeat split. }
  destruct Htail as (Htr & Hts & Htf).
  assert (Hresults : parameter_results ([ev] ++ o ++ [completed] ++ tail) =
                     parameter_results o).
  { rewrite !parameter_results_app, Htr.
    change (parameter_results [ev]) with (@nil esp_err_t).
    change (parameter_results [completed]) with (@nil esp_err_t).
    cbn [app]. rewrite app_nil_r. reflexivity. }
  assert (Hsucc : successes ([ev] ++ o ++ [completed] ++ tail) = success_count st).
  { rewrite !successes_app, Hts, Hcount.
    change (successes [ev]) with 0%nat. change (successes [completed]) with 0%nat. lia. }
  assert (Hfilter : filter is_summary ([ev] ++ o ++ [completed] ++ tail) =
                    [ev; completed] ++ tail).
  { rewrite !filter_app, Hsummary, Htf. reflexivity. }
  rewrite Hresults, Hsucc, Hcounter. cbn [snd].
  split; [lia |]. split; [exact Hfilter |].
  intros level Hin.
  assert (Hin' : In (EvLog level LOG_HIGH_TIMEOUT_RATE)
                   (filter is_summary ([ev] ++ o ++ [completed] ++ tail)))
    by (apply filter_In; split; [exact Hin | reflexivity]).
  rewrite Hfilter in Hin'. subst tail.
  destruct (success_count st =? 0)%nat; cbn in Hin';
    repeat (destruct Hin' as [Hin' | Hin']; [discriminate |]); exact Hin'.
Qed.

(** X3.  The connectivity check is rate limited by the timeouts.  In every
    batch the number of checks is the one that [timeout_counter] computes
    from the results of the parameters, three parameters that timed out are
    used up by each check, at most one result is recorded per parameter, and
    so a batch makes at most 3 checks. *)
Theorem connectivity_checks_bounded (cfg : config) (env : environment)
    (d0 : sdm120_data_t) (h : list event) :
  let out := snd (read_sdm120_data cfg env (Some d0) h) in
  connectivity_checks out = fst (timeout_counter 0 (parameter_results out)) /\
  (3 * connectivity_checks out <= timeouts (parameter_results out))%nat /\
  (List.length (parameter_results out) <= sdm120_cid_count)%nat /\
  (connectivity_checks out <= 3)%nat.
Proof.
  cbv zeta.
  pose proof (connectivity_checks_follow_timeout_counter cfg env d0 h) as Hfollow.
  cbv zeta in Hfollow.
  destruct (timeout_counter_total
              (parameter_results (snd (read_sdm120_data cfg env (Some d0) h)))
              0 ltac:(lia)) as (_ & Hsum).
  rewrite <- Hfollow in Hsum.
  assert (Hlen : (List.length (parameter_results (snd (read_sdm120_data cfg env (Some d0) h)))
                  <= sdm120_cid_count)%nat).
  { rewrite read_sdm120_data_explicit. cbn [snd].
    set (ev := EvLog ESP_LOG_INFO (LOG_READING_PARAMETERS sdm120_cid_count)).
    destruct (read_parameters_more cfg env sdm120_cid_count 0 initial_batch_state
                (h ++ [ev])) as (_ & _ & _ & _ & Hres & _).
    destruct (read_parameters cfg env sdm120_cid_count 0 initial_batch_state (h ++ [ev]))
      as [st o].
    cbn [fst snd] in *.
    rewrite !parameter_results_app, !length_app, Hres.
    assert (Htail : forall b1 b2 : bool,
               parameter_results
                 (if b1 then [EvLog ESP_LOG_ERROR LOG_ALL_PARAMETERS_FAILED]
                  else if b2 then [EvLog ESP_LOG_WARN LOG_HIGH_TIMEOUT_RATE] else []) = [])
      by (intros [|] [|]; reflexivity).
    rewrite Htail. change (parameter_results [ev]) with (@nil esp_err_t).
    cbn [parameter_results flat_map parameter_result app List.length].
    pose proof (sum_nat_map_le
                  (fun c => if (attempts_of c o =? 0)%nat then 0 else 1)%nat 1
                  (seq 0 sdm120_cid_count)
                  ltac:(intros c; cbv beta; destruct (attempts_of c o =? 0)%nat; lia)) as Hsum'.
    rewrite length_seq in Hsum'. lia. }
  pose proof (timeouts_le_length
                (parameter_results (snd (read_sdm120_data cfg env (Some d0) h)))) as Hle.
  change sdm120_cid_count with 10%nat in *.
  repeat split; try assumption; lia.
Qed.

(** ** The batch between its first and its last log lines *)

Lemma logs_quiet (out : list event) :
  forallb is_log out = true ->
  visited out = [] /\ reads out = 0%nat /\ total_delay out = 0 /\
  forallb is_local out = true.
Proof.
  unfold reads, total_delay.
  induction out as [| e out IH]; [repeat split |].
  cbn [forallb]. intros H. apply andb_true_iff in H. destruct H as [He Hout].
  destruct (IH Hout) as (Hv & Hr & Hd & Hl).
  destruct e; try discriminate. cbn. repeat split; assumption.
Qed.

Lemma read_sdm120_data_frame (cfg : config) (env : environment)
    (d0 : sdm120_data_t) (h : list event) :
  let ev := EvLog ESP_LOG_INFO (LOG_READING_PARAMETERS sdm120_cid_count) in
  exists tail : list event,
    forallb is_log tail = true /\
    snd (read_sdm120_data cfg env (Some d0) h) =
      [ev] ++
      snd (read_parameters cfg env sdm120_cid_count 0 initial_batch_state (h ++ [ev])) ++
      tail.
Proof.
  cbv zeta. rewrite read_sdm120_data_explicit. cbn [snd].
  eexists. split; [| reflexivity].
  destruct (success_count _ =? 0)%nat; [reflexivity |].
  destruct (sdm120_cid_count / 2 <? _)%nat; reflexivity.
Qed.

(** X4.  A batch walks through the table in order, whatever the field bus
    answers.  The CIDs named by its calls of [mbc_master_get_cid_info] and
    [mbc_master_get_parameter] are CID 0, then CID 1, ..., then CID 9: for
    each CID one lookup followed by all reads of that CID.  The reads of the
    batch are the reads of the ten parameters, at most 30. *)
Theorem parameters_visited_in_table_order (cfg : config) (env : environment)
    (d0 : sdm120_data_t) (h : list event) :
  let out := snd (read_sdm120_data cfg env (Some d0) h) in
  visited out =
    List.concat (map (fun c => repeat c (S (attempts_of c out))) (seq 0 sdm120_cid_count)) /\
  reads out = sum_nat (map (fun c => attempts_of c out) (seq 0 sdm120_cid_count)) /\
  (reads out <= 3 * sdm120_cid_count)%nat.
Proof.
  cbv zeta.
  destruct (read_sdm120_data_frame cfg env d0 h) as (tail & Hlogs & ->).
  set (ev := EvLog ESP_LOG_INFO (LOG_READING_PARAMETERS sdm120_cid_count)).
  destruct (logs_quiet tail Hlogs) as (Hvt & Hrt & _ & Hloc).
  destruct (read_parameters_more cfg env sdm120_cid_count 0 initial_batch_state (h ++ [ev]))
    as (Hv & Hr & _).
  pose proof (read_parameters_satisfies cfg env sdm120_cid_count 0 initial_batch_state
                (h ++ [ev])) as Hpost.
  unfold satisfies in Hpost. destruct Hpost as (Hmax & _).
  set (o := snd (read_parameters cfg env sdm120_cid_count 0 initial_batch_state (h ++ [ev])))
    in *.
  assert (Hatt : forall c : nat, attempts_of c ([ev] ++ o ++ tail) = attempts_of c o).
  { intros c. rewrite !attempts_of_app, (local_attempts c tail Hloc).
    change (attempts_of c [ev]) with 0%nat. lia. }
  rewrite !visited_app, !reads_app, Hvt, Hrt, Hv, Hr, app_nil_r.
  change (visited [ev]) with (@nil nat). change (reads [ev]) with 0%nat.
  cbn [app Nat.add]. rewrite Nat.add_0_r.
  rewrite (map_ext _ _ (fun c => f_equal (fun a => repeat c (S a)) (Hatt c))).
  rewrite (map_ext _ _ Hatt).
  split; [reflexivity |]. split; [reflexivity |].
  pose proof (sum_nat_map_le (fun c => attempts_of c o) 3 (seq 0 sdm120_cid_count)
                ltac:(intros c; apply (Hmax c))) as Hsum.
  rewrite length_seq in Hsum. exact Hsum.
Qed.

(** X5.  No parameter is read successfully twice in a batch: for every CID
    at most one call of [mbc_master_get_parameter] returns [ESP_OK], and a
    batch has at most as many successful reads as the table has entries. *)
Theorem at_most_one_success_per_parameter (cfg : config) (env : environment)
    (d0 : sdm120_data_t) (h : list event) :
  let out := snd (read_sdm120_data cfg env (Some d0) h) in
  (forall c : nat, (List.length (filter (is_success_of c) out) <= 1)%nat) /\
  (successes out <= sdm120_cid_count)%nat.
Proof.
  cbv zeta.
  destruct (read_sdm120_data_frame cfg env d0 h) as (tail & Hlogs & ->).
  set (ev := EvLog ESP_LOG_INFO (LOG_READING_PARAMETERS sdm120_cid_count)).
  destruct (logs_quiet tail Hlogs) as (_ & _ & _ & Hloc).
  pose proof (read_parameters_satisfies cfg env sdm120_cid_count 0 initial_batch_state
                (h ++ [ev])) as Hpost.
  pose proof (read_parameters_successes cfg env sdm120_cid_count 0 initial_batch_state
                (h ++ [ev])) as Hsucc.
  unfold satisfies in Hpost. destruct Hpost as (_ & Hout & _ & _ & _ & Hfields).
  set (o := snd (read_parameters cfg env sdm120_cid_count 0 initial_batch_state (h ++ [ev])))
    in *.
  split.
  - intros c. rewrite !filter_app, !length_app.
    rewrite (filter_is_success_of c tail), (local_success tail Hloc).
    change (filter (is_success_of c) [ev]) with (@nil event).
    cbn [filter List.length]. rewrite Nat.add_0_r.
    destruct (Nat.lt_ge_cases c CID_COUNT) as [Hc | Hc].
    + destruct (Hfields c Hc) as [(H0 & _) | (key & raw & H1 & _)].
      * rewrite H0. cbn. lia.
      * rewrite H1. cbn. lia.
    + destruct (Hout c) as (Ha & _).
      { right. change sdm120_cid_count with CID_COUNT. lia. }
      rewrite (no_attempt_no_success c o Ha). cbn. lia.
  - assert (Htail : successes tail = 0%nat)
      by (unfold successes; rewrite (local_success tail Hloc); reflexivity).
    rewrite !successes_app, Htail. change (successes [ev]) with 0%nat. lia.
Qed.

(** X6.  A parameter is read exactly when its descriptor was found.  For
    every CID of the table a batch makes one call of
    [mbc_master_get_cid_info]; when that call fails or returns no descriptor
    the batch does not call [mbc_master_get_parameter] for the CID at all,
    and otherwise it calls it at least once. *)
Theorem parameter_read_iff_descriptor_found (cfg : config) (env : environment)
    (d0 : sdm120_data_t) (h : list event) (c : nat) :
  (c < sdm120_cid_count)%nat ->
  let out := snd (read_sdm120_data cfg env (Some d0) h) in
  exists (err : esp_err_t) (found : bool),
    filter (is_cid_info_of c) out = [EvGetCidInfo c err found] /\
    (attempts_of c out = 0%nat <-> (is_ESP_OK err && found)%bool = false).
Proof.
  intros Hc. cbv zeta.
  destruct (read_sdm120_data_frame cfg env d0 h) as (tail & Hlogs & ->).
  set (ev := EvLog ESP_LOG_INFO (LOG_READING_PARAMETERS sdm120_cid_count)).
  destruct (logs_quiet tail Hlogs) as (_ & _ & _ & Hloc).
  destruct (read_parameters_more cfg env sdm120_cid_count 0 initial_batch_state (h ++ [ev]))
    as (_ & _ & _ & _ & _ & Hlookup).
  destruct (Hlookup c ltac:(lia)) as (err & found & Hinfo & Hiff).
  exists err, found.
  rewrite !filter_app, !attempts_of_app, Hinfo, (local_cid_info c tail Hloc),
    (local_attempts c tail Hloc).
  change (filter (is_cid_info_of c) [ev]) with (@nil event).
  change (attempts_of c [ev]) with 0%nat.
  cbn [app Nat.add]. rewrite Nat.add_0_r. split; [reflexivity | exact Hiff].
Qed.

(** X7.  The time a batch spends in [vTaskDelay] is determined by the
    number of attempts of each parameter: a parameter that is not read costs
    nothing, a parameter read with [n] attempts costs the delays between the
    attempts (0, 200 or 200 + 500 ms), the inter-parameter delay, and 100 ms
    more for the first three CIDs. *)
Theorem batch_delay_formula (cfg : config) (env : environment)
    (d0 : sdm120_data_t) (h : list event) :
  let out := snd (read_sdm120_data cfg env (Some d0) h) in
  total_delay out =
    sum_Z (map (fun c => parameter_delay cfg c (attempts_of c out))
             (seq 0 sdm120_cid_count)) /\
  retry_delay 1 = 0 /\ retry_delay 2 = 200 /\ retry_delay 3 = 700.
Proof.
  cbv zeta.
  destruct (read_sdm120_data_frame cfg env d0 h) as (tail & Hlogs & ->).
  set (ev := EvLog ESP_LOG_INFO (LOG_READING_PARAMETERS sdm120_cid_count)).
  destruct (logs_quiet tail Hlogs) as (_ & _ & Hdt & Hloc).
  destruct (read_parameters_more cfg env sdm120_cid_count 0 initial_batch_state (h ++ [ev]))
    as (_ & _ & _ & Hd & _).
  set (o := snd (read_parameters cfg env sdm120_cid_count 0 initial_batch_state (h ++ [ev])))
    in *.
  assert (Hatt : forall c : nat, attempts_of c ([ev] ++ o ++ tail) = attempts_of c o).
  { intros c. rewrite !attempts_of_app, (local_attempts c tail Hloc).
    change (attempts_of c [ev]) with 0%nat. lia. }
  rewrite !total_delay_app, Hdt, Hd.
  change (total_delay [ev]) with 0.
  rewrite (map_ext _ _ (fun c => f_equal (parameter_delay cfg c) (Hatt c))).
  repeat split. lia.
Qed.

Lemma sum_Z_map_bounds (f lo hi : nat -> Z) (l : list nat) :
  (forall x : nat, In x l -> lo x <= f x <= hi x) ->
  sum_Z (map lo l) <= sum_Z (map f l) <= sum_Z (map hi l).
Proof.
  unfold sum_Z. induction l as [| x l IH]; intros Hf; cbn [map fold_right]; [lia |].
  pose proof (Hf x (or_introl eq_refl)).
  specialize (IH (fun y Hy => Hf y (or_intror Hy))). lia.
Qed.

Lemma read_parameters_delay_bounds (cfg : config) (env : environment) (h : list event) :
  0 <= CONFIG_SDM120_INTER_PARAM_DELAY cfg ->
  let o := snd (read_parameters cfg env sdm120_cid_count 0 initial_batch_state h) in
  0 <= total_delay o <= 7300 + 10 * CONFIG_SDM120_INTER_PARAM_DELAY cfg.
Proof.
  intros Hdelay. cbv zeta.
  destruct (read_parameters_more cfg env sdm120_cid_count 0 initial_batch_state h)
    as (_ & _ & _ & Hd & _).
  pose proof (read_parameters_satisfies cfg env sdm120_cid_count 0 initial_batch_state h)
    as Hpost.
  unfold satisfies in Hpost. destruct Hpost as (Hmax & _).
  set (o := snd (read_parameters cfg env sdm120_cid_count 0 initial_batch_state h)) in *.
  rewrite Hd.
  pose proof (sum_Z_map_bounds
                (fun c => parameter_delay cfg c (attempts_of c o))
                (fun _ => 0)
                (fun c => 700 + MODBUS_INTER_PARAM_DELAY_MS cfg +
                          (if (c <? 3)%nat then 100 else 0))
                (seq 0 sdm120_cid_count)
                (fun c _ => parameter_delay_bounds cfg c (attempts_of c o) Hdelay (Hmax c)))
    as Hsum.
  change (sum_Z (map (fun _ : nat => 0) (seq 0 sdm120_cid_count))) with 0 in Hsum.
  unfold MODBUS_INTER_PARAM_DELAY_MS in Hsum.
  change sdm120_cid_count with 10%nat in Hsum |- *.
  cbn [seq map Nat.ltb Nat.leb sum_Z fold_right] in Hsum |- *.
  lia.
Qed.

(** X8.  A batch cannot sleep for long.  When the inter-parameter delay of
    the configuration is not negative, the time a batch spends in
    [vTaskDelay] is at most 7300 ms plus ten inter-parameter delays: ten
    times the two retry delays of 200 and 500 ms, and 100 ms more for each of
    the first three CIDs. *)
Theorem batch_delay_bounded (cfg : config) (env : environment)
    (d0 : sdm120_data_t) (h : list event) :
  0 <= CONFIG_SDM120_INTER_PARAM_DELAY cfg ->
  let out := snd (read_sdm120_data cfg env (Some d0) h) in
  0 <= total_delay out <= 7300 + 10 * CONFIG_SDM120_INTER_PARAM_DELAY cfg.
Proof.
  intros Hdelay. cbv zeta.
  destruct (read_sdm120_data_frame cfg env d0 h) as (tail & Hlogs & ->).
  set (ev := EvLog ESP_LOG_INFO (LOG_READING_PARAMETERS sdm120_cid_count)).
  destruct (logs_quiet tail Hlogs) as (_ & _ & Hdt & _).
  pose proof (read_parameters_delay_bounds cfg env (h ++ [ev]) Hdelay) as Hloop.
  cbv zeta in Hloop.
  rewrite !total_delay_app, Hdt. change (total_delay [ev]) with 0. lia.
Qed.

(** ** The polling task, continued *)

Lemma monitoring_cycle_delay (cfg : config) (env : environment)
    (read_count : Z) (meter_data : sdm120_data_t) (h : list event) :
  let r := read_sdm120_data cfg env (Some meter_data) h in
  total_delay (snd (monitoring_cycle cfg env read_count meter_data h)) =
    total_delay (snd r) + (if (successes (snd r) =? 0)%nat then 7000 else 5000).
Proof.
  cbv zeta.
  destruct (monitoring_cycle_shape cfg env read_count meter_data h) as (d & _ & _ & ->).
  cbn [snd]. rewrite total_delay_app. f_equal.
  destruct (successes _ =? 0)%nat; [reflexivity |].
  cbv zeta. rewrite !total_delay_app.
  destruct (publish_result_log_quiet
              (fst (mqtt_publish_sdm120_data cfg env (Some d)
                      ((h ++ snd (read_sdm120_data cfg env (Some meter_data) h)) ++
                       [EvLog ESP_LOG_INFO
                          (LOG_READING_REPORT ((read_count + 1) mod 2 ^ 32) d)]))))
    as (Hlog & _).
  unfold total_delay at 2 3. rewrite mqtt_publish_no_delay, Hlog. reflexivity.
Qed.

Lemma monitoring_cycles_delay (cfg : config) (env : environment) (n : nat) :
  0 <= CONFIG_SDM120_INTER_PARAM_DELAY cfg ->
  forall (read_count : Z) (meter_data : sdm120_data_t) (h : list event),
    5000 * Z.of_nat n <=
    total_delay (snd (monitoring_cycles cfg env n read_count meter_data h)) <=
    Z.of_nat n * (14300 + 10 * CONFIG_SDM120_INTER_PARAM_DELAY cfg).
Proof.
  intros Hdelay.
  induction n as [| n IH]; intros read_count meter_data h.
  - cbn. lia.
  - cbn [monitoring_cycles]. rewrite bind_snd, total_delay_app.
    pose proof (monitoring_cycle_delay cfg env read_count meter_data h) as Hpass.
    assert (Hbatch : 0 <= total_delay (snd (read_sdm120_data cfg env (Some meter_data) h))
                     <= 7300 + 10 * CONFIG_SDM120_INTER_PARAM_DELAY cfg).
    { destruct (read_sdm120_data_frame cfg env meter_data h) as (tail & Hlogs & ->).
      destruct (logs_quiet tail Hlogs) as (_ & _ & Hdt & _).
      pose proof (read_parameters_delay_bounds cfg env
                    (h ++ [EvLog ESP_LOG_INFO (LOG_READING_PARAMETERS sdm120_cid_count)])
                    Hdelay) as Hloop.
      cbv zeta in Hloop. rewrite !total_delay_app, Hdt.
      change (total_delay [EvLog ESP_LOG_INFO (LOG_READING_PARAMETERS sdm120_cid_count)])
        with 0.
      lia. }
    cbv zeta in Hpass.
    destruct (monitoring_cycle cfg env read_count meter_data h) as [[count d] o1].
    cbn [fst snd] in *.
    specialize (IH count d (h ++ o1)).
    assert (Hadd : 5000 <= total_delay o1 <=
                   14300 + 10 * CONFIG_SDM120_INTER_PARAM_DELAY cfg).
    { rewrite Hpass. destruct (successes _ =? 0)%nat; lia. }
    lia.
Qed.

(** X9.  The polling task sleeps at least the publishing period in every
    pass, and not much more: when the inter-parameter delay is not negative,
    the first [n] passes spend at least [n] times 5000 ms and at most [n]
    times 14300 ms plus ten inter-parameter delays in [vTaskDelay] (a batch,
    the 2000 ms of recovery, and the period). *)
Theorem monitoring_task_delay_bounded (cfg : config) (env : environment)
    (n : nat) (meter_data : sdm120_data_t) (h : list event) :
  0 <= CONFIG_SDM120_INTER_PARAM_DELAY cfg ->
  let out := snd (sdm120_monitoring_task cfg env n meter_data h) in
  MQTT_PUBLISH_INTERVAL_MS * Z.of_nat n <= total_delay out <=
  Z.of_nat n * (14300 + 10 * CONFIG_SDM120_INTER_PARAM_DELAY cfg).
Proof.
  intros Hdelay. cbv zeta. unfold sdm120_monitoring_task.
  rewrite bind_snd, total_delay_app.
  change (total_delay (snd (ESP_LOGI LOG_TASK_STARTED h))) with 0.
  unfold MQTT_PUBLISH_INTERVAL_MS.
  pose proof (monitoring_cycles_delay cfg env n Hdelay 0 meter_data
                (h ++ snd (ESP_LOGI LOG_TASK_STARTED h))) as Hcycles.
  cbn [fst]. lia.
Qed.

(** ** Values that the advisory checks let through *)

Lemma SFltb_nan_r (x : spec_float) : SFltb x S754_nan = false.
Proof. destruct x; reflexivity. Qed.

Lemma advisory_checks_nan (c : nat) (v : float) (h : list event) :
  float_value v = S754_nan ->
  advisory_checks c v h = (tt, []) /\ high_energy_note c v h = (tt, []).
Proof.
  intros Hnan.
  unfold advisory_checks, high_energy_note, float_lt_int, float_gt_int,
    float_lt_double, float_gt_double.
  rewrite Hnan. cbn [promote]. rewrite !SFltb_nan_r.
  change (SFltb S754_nan ?x) with false.
  cbn [orb]. rewrite !andb_false_r. split; reflexivity.
Qed.

(** X10.  A reading that is not a number passes the advisory checks
    unnoticed.  When the decoded value of a parameter of the table is a NaN,
    the loop body writes no warning at all: it stores the NaN in the field
    of the parameter, counts the read as a success and goes on to the
    delays. *)
Theorem nan_reading_stored_without_warning (cfg : config) (env : environment)
    (c : nat) (st : batch_state) (raw : Z) (rc : nat) (h : list event) :
  (c < CID_COUNT)%nat ->
  float_value (convert_sdm120_ieee754 raw) = S754_nan ->
  exists d : sdm120_data_t,
    field_of_cid c d = Some (convert_sdm120_ieee754 raw) /\
    (forall c' : nat, c' <> c -> field_of_cid c' d = field_of_cid c' (data st)) /\
    after_retry cfg env c st (ESP_OK, raw, rc) h =
      ({| data := d; timeout_count := timeout_count st;
          success_count := S (success_count st) |},
       inter_parameter_delays cfg c).
Proof.
  intros Hc Hnan.
  destruct (store_converted_value_field c (convert_sdm120_ieee754 raw) (data st) Hc)
    as (d & Hstore & Hfield & Hothers).
  exists d. split; [exact Hfield |]. split; [exact Hothers |].
  rewrite after_retry_cases. change (is_ESP_OK ESP_OK) with true. cbv iota zeta.
  rewrite Hstore.
  destruct (advisory_checks_nan c (convert_sdm120_ieee754 raw) h Hnan) as (-> & _).
  cbn [snd app].
  destruct (advisory_checks_nan c (convert_sdm120_ieee754 raw) (h ++ []) Hnan) as (_ & ->).
  reflexivity.
Qed.

(** ** The connectivity check *)

(** X11.  [check_sdm120_connectivity] answers [ESP_OK] exactly when the
    interface handle is set, the interface is up and the Wi-Fi flag is set,
    and [ESP_ERR_INVALID_STATE] otherwise.  It asks [esp_netif_is_netif_up]
    at most once, and never when the handle is [NULL]. *)
Theorem check_sdm120_connectivity_result (env : environment) (h : list event) :
  let r := check_sdm120_connectivity env h in
  let h1 := h ++ [EvLog ESP_LOG_INFO LOG_CHECKING_CONNECTIVITY] in
  let netif := s_wifi_netif env h1 in
  let up := esp_netif_is_netif_up_answer env h1 in
  let connected := wifi_connected env (h1 ++ [EvNetifIsUp up]) in
  fst r = (if (netif && up && connected)%bool then ESP_OK else ESP_ERR_INVALID_STATE) /\
  filter is_netif_query (snd r) = (if netif then [EvNetifIsUp up] else []) /\
  (fst r = ESP_OK <-> netif = true /\ up = true /\ connected = true).
Proof.
  cbv zeta.
  unfold check_sdm120_connectivity, bind, ask, ESP_LOGI, ESP_LOGW, emit, ret,
    esp_netif_is_netif_up.
  cbn [fst snd app]. rewrite !app_nil_r.
  destruct (s_wifi_netif env _); cbn [negb andb fst snd].
  - destruct (esp_netif_is_netif_up_answer env _); cbn [negb andb fst snd app].
    + rewrite <- !app_assoc. cbn [app].
      destruct (wifi_connected env _); cbn [negb andb fst snd app filter is_netif_query];
        repeat split; try discriminate; try tauto; intros (_ & _ & H); discriminate.
    + repeat split; try discriminate; intros (_ & H & _); discriminate.
  - repeat split; try discriminate; intros (H & _); discriminate.
Qed.

(** ** The topics of the publisher *)

Lemma substring_0_length (n : nat) (s : string) :
  String.length (substring 0 n s) = Nat.min n (String.length s).
Proof.
  revert s. induction n as [| n IH]; intros s.
  - destruct s; reflexivity.
  - destruct s as [| a s]; [reflexivity |]. cbn. rewrite IH. reflexivity.
Qed.

Lemma substring_0_all (n : nat) (s : string) :
  (String.length s <= n)%nat -> substring 0 n s = s.
Proof.
  revert s. induction n as [| n IH]; intros s Hs.
  - destruct s; [reflexivity | cbn in Hs; lia].
  - destruct s as [| a s]; [reflexivity |]. cbn in Hs |- *. rewrite IH by lia. reflexivity.
Qed.

Lemma substring_0_append (n : nat) (p s : string) :
  (n <= String.length p)%nat ->
  substring 0 n (String.append p s) = substring 0 n p.
Proof.
  revert p. induction n as [| n IH]; intros p Hp.
  - destruct p; destruct s; reflexivity.
  - destruct p as [| a p]; [cbn in Hp; lia |]. cbn in Hp |- *.
    rewrite IH by lia. reflexivity.
Qed.

Lemma append_length (p s : string) :
  String.length (String.append p s) = (String.length p + String.length s)%nat.
Proof. induction p as [| a p IH]; cbn; [reflexivity | rewrite IH; reflexivity]. Qed.

Lemma append_inj_r (p s1 s2 : string) :
  String.append p s1 = String.append p s2 -> s1 = s2.
Proof.
  induction p as [| a p IH]; cbn; intros H; [exact H |].
  injection H as H. exact (IH H).
Qed.

Section Topics.

Variable cfg : config.
Variable env : environment.

Lemma snprintf_topic_short (suffix : string) :
  (String.length (MQTT_TOPIC_PREFIX cfg) + String.length suffix <= 127)%nat ->
  snprintf_topic cfg suffix = String.append (MQTT_TOPIC_PREFIX cfg) suffix.
Proof.
  intros H. unfold snprintf_topic. apply substring_0_all.
  rewrite append_length. exact H.
Qed.

Lemma snprintf_topic_long (suffix : string) :
  (127 <= String.length (MQTT_TOPIC_PREFIX cfg))%nat ->
  snprintf_topic cfg suffix = substring 0 127 (MQTT_TOPIC_PREFIX cfg).
Proof. intros H. unfold snprintf_topic. apply substring_0_append. exact H. Qed.

(** The topics of the calls of the publisher are topics made from
    [topic_suffixes], in the order of that list. *)
Lemma publish_topics (data_in : option sdm120_data_t) (h : list event) :
  exists k : nat,
    map topic_of_call (publish_calls (snd (mqtt_publish_sdm120_data cfg env data_in h))) =
    map (snprintf_topic cfg) (firstn k topic_suffixes).
Proof.
  destruct (mqtt_connected env h) eqn:Hconn; [destruct (mqtt_client env h) eqn:Hclient |].
  - destruct data_in as [d |].
    + destruct (mqtt_publish_connected cfg env d h Hconn Hclient) as (rest & -> & _ & Hcalls).
      cbn [snd]. change (publish_calls (?e :: rest)) with (publish_call e ++ publish_calls rest).
      rewrite Hcalls. cbn [publish_call app map topic_of_call fst].
      destruct (aggregate_msg_id cfg env d h =? -1).
      * exists 1%nat. reflexivity.
      * destruct (MQTT_HOME_ASSISTANT_DISCOVERY cfg).
        -- exists 12%nat. reflexivity.
        -- exists 11%nat. reflexivity.
    + exists 0%nat. unfold mqtt_publish_sdm120_data, bind, ask.
      rewrite Hconn. cbn [fst snd app]. rewrite app_nil_r, Hclient. reflexivity.
  - exists 0%nat. rewrite mqtt_publish_not_connected by (right; exact Hclient). reflexivity.
  - exists 0%nat. rewrite mqtt_publish_not_connected by (left; exact Hconn). reflexivity.
Qed.

End Topics.

Lemma topic_suffixes_distinct :
  NoDup topic_suffixes /\ Forall (fun s => (String.length s <= 15)%nat) topic_suffixes.
Proof.
  split.
  - unfold topic_suffixes.
    repeat (apply NoDup_cons; [cbn; intuition discriminate |]). apply NoDup_nil.
  - unfold topic_suffixes. repeat (apply Forall_cons; [cbn; lia |]). apply Forall_nil.
Qed.

Lemma NoDup_firstn {A : Type} (k : nat) (l : list A) : NoDup l -> NoDup (firstn k l).
Proof.
  revert l. induction k as [| k IH]; intros l Hl; [apply NoDup_nil |].
  destruct l as [| x l]; [apply NoDup_nil |]. cbn [firstn].
  inversion Hl as [| ? ? Hx Hl']; subst. apply NoDup_cons; [| apply IH; exact Hl'].
  intros Hin. apply Hx. revert Hin. clear. revert l.
  induction k as [| k IH]; intros l Hin; [destruct Hin |].
  destruct l as [| y l]; [destruct Hin |]. destruct Hin as [-> | Hin]; [left; reflexivity |].
  right. apply IH. exact Hin.
Qed.

(** X12.  With a topic prefix of at most 112 characters no two messages of
    one call of [mqtt_publish_sdm120_data] go to the same topic: after the
    cut at 127 characters the topics are still the prefix followed by the
    twelve different names, whatever is published of them. *)
Theorem publish_topics_distinct (cfg : config) (env : environment)
    (data_in : option sdm120_data_t) (h : list event) :
  (String.length (CONFIG_SDM120_MQTT_TOPIC_PREFIX cfg) <= 112)%nat ->
  NoDup (map topic_of_call
           (publish_calls (snd (mqtt_publish_sdm120_data cfg env data_in h)))).
Proof.
  intros Hlen.
  destruct (publish_topics cfg env data_in h) as (k & ->).
  destruct topic_suffixes_distinct as (Hnodup & Hshort).
  apply NoDup_map_NoDup_ForallPairs; [| apply NoDup_firstn; exact Hnodup].
  intros s1 s2 H1 H2 Heq.
  assert (Hin : forall s, In s (firstn k topic_suffixes) -> (String.length s <= 15)%nat).
  { intros s Hs. apply (proj1 (Forall_forall _ _) Hshort).
    rewrite <- (firstn_skipn k topic_suffixes). apply in_or_app. left. exact Hs. }
  pose proof (Hin s1 H1). pose proof (Hin s2 H2).
  rewrite !snprintf_topic_short in Heq by (unfold MQTT_TOPIC_PREFIX; lia).
  exact (append_inj_r _ _ _ Heq).
Qed.

(** X13.  A topic prefix of 127 characters or more leaves no room for the
    names: the cut at 127 characters makes every message of
    [mqtt_publish_sdm120_data], the aggregate one, the per-field ones and the
    availability one, go to one and the same topic, the first 127 characters
    of the prefix. *)
Theorem publish_topics_collapse (cfg : config) (env : environment)
    (data_in : option sdm120_data_t) (h : list event) :
  (127 <= String.length (CONFIG_SDM120_MQTT_TOPIC_PREFIX cfg))%nat ->
  Forall (fun call => topic_of_call call = substring 0 127 (CONFIG_SDM120_MQTT_TOPIC_PREFIX cfg))
    (publish_calls (snd (mqtt_publish_sdm120_data cfg env data_in h))).
Proof.
  intros Hlen.
  destruct (publish_topics cfg env data_in h) as (k & Htopics).
  apply Forall_forall. intros call Hcall.
  assert (Hin : In (topic_of_call call) (map (snprintf_topic cfg) (firstn k topic_suffixes))).
  { rewrite <- Htopics. apply in_map. exact Hcall. }
  apply in_map_iff in Hin. destruct Hin as (s & Hs & _).
  rewrite <- Hs. apply snprintf_topic_long. exact Hlen.
Qed.

(** ** The properties with a precondition, on explicit inputs *)

(** X6 on the voltage when only the voltage cannot be read. *)
Lemma parameter_read_iff_descriptor_found_witness :
  let out := snd (read_sdm120_data cfg_example env_partial (Some zeroed_data) []) in
  exists (err : esp_err_t) (found : bool),
    filter (is_cid_info_of CID_VOLTAGE) out = [EvGetCidInfo CID_VOLTAGE err found] /\
    (attempts_of CID_VOLTAGE out = 0%nat <-> (is_ESP_OK err && found)%bool = false).
Proof.
  apply (parameter_read_iff_descriptor_found cfg_example env_partial zeroed_data []
           CID_VOLTAGE).
  vm_compute. lia.
Defined.

(** X8 with the inter-parameter delay of 50 ms, every read timing out. *)
Lemma batch_delay_bounded_witness :
  let out := snd (read_sdm120_data cfg_example env_all_fail (Some zeroed_data) []) in
  0 <= total_delay out <= 7300 + 10 * CONFIG_SDM120_INTER_PARAM_DELAY cfg_example.
Proof.
  apply (batch_delay_bounded cfg_example env_all_fail zeroed_data []).
  vm_compute. discriminate.
Defined.

(** X9 on the first two passes. *)
Lemma monitoring_task_delay_bounded_witness :
  let out := snd (sdm120_monitoring_task cfg_example env_all_fail 2 zeroed_data []) in
  MQTT_PUBLISH_INTERVAL_MS * Z.of_nat 2 <= total_delay out <=
  Z.of_nat 2 * (14300 + 10 * CONFIG_SDM120_INTER_PARAM_DELAY cfg_example).
Proof.
  apply (monitoring_task_delay_bounded cfg_example env_all_fail 2 zeroed_data []).
  vm_compute. discriminate.
Defined.

(** X10 on a voltage register that holds a quiet NaN. *)
Lemma nan_reading_stored_without_warning_witness :
  exists d : sdm120_data_t,
    field_of_cid CID_VOLTAGE d = Some (convert_sdm120_ieee754 raw_nan) /\
    (forall c' : nat, c' <> CID_VOLTAGE ->
       field_of_cid c' d = field_of_cid c' (data initial_batch_state)) /\
    after_retry cfg_example env_all_ok CID_VOLTAGE initial_batch_state
      (ESP_OK, raw_nan, 0%nat) [] =
      ({| data := d; timeout_count := timeout_count initial_batch_state;
          success_count := S (success_count initial_batch_state) |},
       inter_parameter_delays cfg_example CID_VOLTAGE).
Proof.
  apply (nan_reading_stored_without_warning cfg_example env_all_ok CID_VOLTAGE
           initial_batch_state raw_nan 0%nat []).
  - vm_compute. lia.
  - vm_compute. reflexivity.
Defined.

(** X12 with the prefix [sdm120]. *)
Lemma publish_topics_distinct_witness :
  NoDup (map topic_of_call
           (publish_calls
              (snd (mqtt_publish_sdm120_data cfg_example env_all_ok (Some zeroed_data) [])))).
Proof.
  apply (publish_topics_distinct cfg_example env_all_ok (Some zeroed_data) []).
  vm_compute. lia.
Defined.

(** X13 with a prefix of 128 characters. *)
Lemma publish_topics_collapse_witness :
  Forall (fun call =>
            topic_of_call call =
            substring 0 127 (CONFIG_SDM120_MQTT_TOPIC_PREFIX cfg_long_prefix))
    (publish_calls
       (snd (mqtt_publish_sdm120_data cfg_long_prefix env_all_ok (Some zeroed_data) []))).
Proof.
  apply (publish_topics_collapse cfg_long_prefix env_all_ok (Some zeroed_data) []).
  vm_compute. lia.
Defined.

(** * Home Assistant discovery *)

(** ** The two loops that replace dots *)

Lemma sanitize_topic_length (s : string) :
  String.length (sanitize_topic s) = String.length s.
Proof. induction s as [| c s IH]; cbn; [reflexivity | rewrite IH; reflexivity]. Qed.

Lemma sanitize_topic_get (s : string) :
  forall i : nat,
    get i (sanitize_topic s) =
    option_map (fun c => if (c =? ".")%char then "_"%char else c) (get i s).
Proof.
  induction s as [| c s IH]; intros i; [reflexivity |].
  destruct i as [| i]; cbn; [reflexivity | apply IH].
Qed.

Lemma sanitize_topic_no_dot (s : string) (i : nat) :
  get i (sanitize_topic s) <> Some "."%char.
Proof.
  rewrite sanitize_topic_get. destruct (get i s) as [c |]; [| discriminate].
  cbn. destruct (Ascii.eqb_spec c "."%char) as [-> | Hc]; [discriminate |].
  intros H. injection H as H. exact (Hc H).
Qed.

Lemma sanitize_topic_append (s1 s2 : string) :
  sanitize_topic (String.append s1 s2) =
  String.append (sanitize_topic s1) (sanitize_topic s2).
Proof. induction s1 as [| c s1 IH]; cbn; [reflexivity | rewrite IH; reflexivity]. Qed.

Lemma sanitize_topic_idempotent (s : string) :
  sanitize_topic (sanitize_topic s) = sanitize_topic s.
Proof.
  induction s as [| c s IH]; cbn; [reflexivity |]. rewrite IH.
  destruct (Ascii.eqb_spec c "."%char) as [-> | Hc]; [reflexivity |].
  destruct (Ascii.eqb_spec c "."%char); [contradiction | reflexivity].
Qed.

Lemma sanitize_payload_length (s : string) :
  forall prev : ascii, String.length (sanitize_payload prev s) = String.length s.
Proof.
  induction s as [| c s IH]; intros prev; cbn [sanitize_payload String.length];
    [reflexivity | rewrite IH; reflexivity].
Qed.

(** Every character stays, or is a dot that became an underscore. *)
Lemma sanitize_payload_get (s : string) :
  forall (prev : ascii) (i : nat),
    get i (sanitize_payload prev s) = get i s \/
    (get i s = Some "."%char /\ get i (sanitize_payload prev s) = Some "_"%char).
Proof.
  induction s as [| c s IH]; intros prev i; [left; reflexivity |].
  cbn [sanitize_payload]. destruct i as [| i]; cbn [get].
  - destruct (Ascii.eqb_spec c "."%char) as [-> | Hc]; cbn [andb].
    + destruct (negb (prev =? double_quote)%char && _)%bool; auto.
    + left. reflexivity.
  - apply IH.
Qed.

(** The dots that stay have a double quote next to them. *)
Lemma sanitize_payload_dots (s : string) :
  forall (prev : ascii) (i : nat),
    get i (sanitize_payload prev s) = Some "."%char ->
    match i with
    | O => prev = double_quote
    | S i' => get i' (sanitize_payload prev s) = Some double_quote
    end \/
    get (S i) (sanitize_payload prev s) = Some double_quote.
Proof.
  induction s as [| c s IH]; intros prev i Hdot; [discriminate |].
  cbn [sanitize_payload] in Hdot |- *.
  set (next := match s with String n _ => n | EmptyString => zero end) in *.
  set (c' := if ((c =? ".")%char && negb (prev =? double_quote)%char &&
                 negb (next =? double_quote)%char)%bool
             then "_"%char else c) in *.
  assert (Hnext : forall p, next = double_quote ->
                    get 0 (sanitize_payload p s) = Some double_quote).
  { intros p Hn. subst next. destruct s as [| n s]; [discriminate Hn |].
    subst n. cbn. reflexivity. }
  destruct i as [| i].
  - cbn [get] in Hdot |- *. injection Hdot as Hdot.
    subst c'. destruct (Ascii.eqb_spec c "."%char) as [-> | Hc]; cbn [andb] in Hdot.
    + destruct (Ascii.eqb_spec prev double_quote) as [Hp | Hp]; [left; exact Hp |].
      destruct (Ascii.eqb_spec next double_quote) as [Hn | Hn].
      * right. apply Hnext. exact Hn.
      * cbn in Hdot. discriminate.
    + contradiction.
  - cbn [get] in Hdot |- *.
    destruct (IH c' i Hdot) as [Hleft | Hright]; [| right; exact Hright].
    left. destruct i as [| i]; [| exact Hleft].
    cbn [get]. f_equal. exact Hleft.
Qed.

Lemma sanitized_char_quote (left c right : ascii) :
  (sanitized_char left c right =? double_quote)%char = (c =? double_quote)%char.
Proof.
  unfold sanitized_char.
  destruct (Ascii.eqb_spec c "."%char) as [-> | Hc]; [| reflexivity].
  destruct (left =? double_quote)%char; destruct (right =? double_quote)%char;
    reflexivity.
Qed.

(** The loop works in place, but what it writes at a position is decided by
    the characters that the text held there before the loop. *)
Lemma sanitize_payload_exact (s : string) :
  forall (prev : ascii) (i : nat),
    get i (sanitize_payload prev s) =
    option_map
      (fun c => sanitized_char
                  (match i with O => prev | S j => char_at j s end) c (char_at (S i) s))
      (get i s).
Proof.
  induction s as [| c s IH]; intros prev i; [reflexivity |].
  cbn [sanitize_payload].
  fold (sanitized_char prev c (match s with String n _ => n | EmptyString => zero end)).
  destruct i as [| i].
  - cbn [get option_map]. f_equal. f_equal. destruct s; reflexivity.
  - cbn [get]. rewrite IH. destruct (get i s) as [x |]; [| reflexivity].
    cbn [option_map]. f_equal.
    change (char_at (S (S i)) (String c s)) with (char_at (S i) s).
    destruct i as [| i]; [| reflexivity].
    change (char_at 0 (String c s)) with c.
    unfold sanitized_char at 1 3. rewrite sanitized_char_quote. reflexivity.
Qed.

(** When the text does not start with a dot, the byte before it plays no
    part. *)
Lemma sanitize_payload_before (c : ascii) (s : string) (before before' : ascii) :
  c <> "."%char ->
  sanitize_payload before (String c s) = sanitize_payload before' (String c s).
Proof.
  intros Hc. cbn [sanitize_payload].
  destruct (Ascii.eqb_spec c "."%char) as [H | _]; [contradiction |]. reflexivity.
Qed.

(** ** Traces of the MQTT task *)

Lemma bindT_fst {E A B : Type} (m : T E A) (k : A -> T E B) (h : list E) :
  fst (bindT m k h) = fst (k (fst (m h)) (h ++ snd (m h))).
Proof.
  unfold bindT. destruct (m h) as [a out1]. cbn [fst snd].
  destruct (k a (h ++ out1)) as [b out2]. reflexivity.
Qed.

Lemma bindT_snd {E A B : Type} (m : T E A) (k : A -> T E B) (h : list E) :
  snd (bindT m k h) = snd (m h) ++ snd (k (fst (m h)) (h ++ snd (m h))).
Proof.
  unfold bindT. destruct (m h) as [a out1]. cbn [fst snd].
  destruct (k a (h ++ out1)) as [b out2]. reflexivity.
Qed.

Lemma ha_publish_calls_app (o1 o2 : list ha_event) :
  ha_publish_calls (o1 ++ o2) = ha_publish_calls o1 ++ ha_publish_calls o2.
Proof. apply flat_map_app. Qed.

Lemma ha_delays_of_app (o1 o2 : list ha_event) :
  ha_delays_of (o1 ++ o2) = ha_delays_of o1 ++ ha_delays_of o2.
Proof. apply flat_map_app. Qed.

Section DiscoveryProperties.

Variable cfg : config.
Variable MQTT_HA_DISCOVERY_PREFIX : string.
Variable broker : ha_environment.

(** The payload starts with a brace, so the byte before the buffer is never
    looked at. *)
Lemma discovery_payload_before (before before' : ascii) (s : ha_sensor_t) :
  discovery_payload cfg before s = discovery_payload cfg before' s.
Proof.
  unfold discovery_payload, discovery_payload_text, snprintf_buffer.
  change (1024 - 1)%nat with (S 1022).
  cbn [format fold_right].
  change (String.append "{" ?x) with (String "{"%char x).
  cbn [substring].
  apply sanitize_payload_before. discriminate.
Qed.

Lemma publish_discovery_step (s : ha_sensor_t) (entries : list ha_sensor_t)
    (h : list ha_event) :
  publish_discovery cfg MQTT_HA_DISCOVERY_PREFIX broker (s :: entries) h =
    let before := byte_before_payload broker h in
    let topic := discovery_topic cfg MQTT_HA_DISCOVERY_PREFIX s in
    let payload := discovery_payload cfg before s in
    let len := snprintf_result (discovery_payload_text cfg s) in
    let msg_id := ha_publish_answer broker h topic payload len 0 1 in
    let pre :=
      [HaPublish topic payload len 0 1 msg_id] ++
      (if msg_id =? -1
       then [HaLog ESP_LOG_WARN (LOG_HA_PUBLISH_FAILED (sensor_name s))] else []) ++
      [HaDelay 50] in
    let (r, o) := publish_discovery cfg MQTT_HA_DISCOVERY_PREFIX broker entries (h ++ pre) in
    (r, pre ++ o).
Proof.
  cbv zeta. cbn [publish_discovery].
  unfold bindT, askT, ha_esp_mqtt_client_publish, ha_vTaskDelay, HA_LOGW, emitT, retT.
  cbn [fst snd app]. rewrite !app_nil_r.
  destruct (ha_publish_answer broker h _ _ _ _ _ =? -1); cbn [fst snd app];
    rewrite <- ?app_assoc; cbn [app];
    destruct (publish_discovery cfg MQTT_HA_DISCOVERY_PREFIX broker entries _) as [[] o];
    reflexivity.
Qed.

Lemma publish_discovery_trace (entries : list ha_sensor_t) :
  forall h : list ha_event,
    let out := snd (publish_discovery cfg MQTT_HA_DISCOVERY_PREFIX broker entries h) in
    ha_publish_calls out = map (discovery_call cfg MQTT_HA_DISCOVERY_PREFIX) entries /\
    ha_delays_of out = repeat 50 (List.length entries) /\
    List.length (filter is_publish_warning out) = List.length (filter is_refused out).
Proof.
  induction entries as [| s entries IH]; intros h; [repeat split |].
  cbv zeta. rewrite publish_discovery_step. cbv zeta.
  set (before := byte_before_payload broker h).
  set (msg_id := ha_publish_answer broker h _ _ _ _ _).
  match goal with
  | |- context [publish_discovery cfg MQTT_HA_DISCOVERY_PREFIX broker entries ?h'] =>
      specialize (IH h');
      destruct (publish_discovery cfg MQTT_HA_DISCOVERY_PREFIX broker entries h') as [[] o]
  end.
  cbv zeta in IH. cbn [fst snd] in IH |- *. destruct IH as (Hcalls & Hdelays & Hcount).
  rewrite !ha_publish_calls_app, !ha_delays_of_app, !filter_app, !length_app.
  rewrite Hcalls, Hdelays, Hcount.
  unfold discovery_call at 2. rewrite (discovery_payload_before before zero s).
  destruct (Z.eqb_spec msg_id (-1)) as [Hid | Hid].
  - cbn. rewrite Hid. cbn. repeat split.
  - cbn. apply Z.eqb_neq in Hid. rewrite Hid. cbn. repeat split.
Qed.

Lemma mqtt_publish_ha_discovery_trace (mqtt_connected mqtt_client : bool)
    (h : list ha_event) :
  let r := mqtt_publish_ha_discovery cfg MQTT_HA_DISCOVERY_PREFIX broker
             mqtt_connected mqtt_client h in
  if (mqtt_connected && mqtt_client && MQTT_HOME_ASSISTANT_DISCOVERY cfg)%bool then
    exists (loop : list ha_event) (msg_id : Z),
      r = (ESP_OK,
           [HaLog ESP_LOG_INFO LOG_HA_PUBLISHING] ++ loop ++
           [HaPublish (snprintf_topic cfg "/status") "online" 0 0 1 msg_id;
            HaLog ESP_LOG_INFO LOG_HA_PUBLISHED]) /\
      ha_publish_calls loop = map (discovery_call cfg MQTT_HA_DISCOVERY_PREFIX) sensors /\
      ha_delays_of loop = repeat 50 10 /\
      List.length (filter is_publish_warning loop) = List.length (filter is_refused loop)
  else r = (ESP_ERR_INVALID_STATE, []).
Proof.
  cbv zeta. unfold mqtt_publish_ha_discovery.
  destruct mqtt_connected; [| reflexivity].
  destruct mqtt_client; [| reflexivity].
  destruct (MQTT_HOME_ASSISTANT_DISCOVERY cfg); [| reflexivity].
  cbn [negb orb andb].
  unfold bindT at 1. unfold HA_LOGI at 1, emitT at 1.
  unfold bindT at 1.
  destruct (publish_discovery_trace sensors (h ++ [HaLog ESP_LOG_INFO LOG_HA_PUBLISHING]))
    as (Hcalls & Hdelays & Hcount).
  destruct (publish_discovery cfg MQTT_HA_DISCOVERY_PREFIX broker sensors
              (h ++ [HaLog ESP_LOG_INFO LOG_HA_PUBLISHING])) as [[] loop].
  cbn [snd] in Hcalls, Hdelays, Hcount.
  unfold bindT, ha_esp_mqtt_client_publish, HA_LOGI, emitT, retT. cbn [fst snd].
  eexists loop, _. split; [| split; [exact Hcalls | split; [exact Hdelays | exact Hcount]]].
  rewrite app_nil_r. reflexivity.
Qed.

Lemma substring_0_length_le (n : nat) (s : string) :
  (String.length (substring 0 n s) <= n)%nat.
Proof.
  revert s. induction n as [| n IH]; intros s.
  - destruct s; cbn; lia.
  - destruct s as [| a s]; cbn; [lia |]. specialize (IH s). lia.
Qed.

Lemma sanitize_topic_substring (n : nat) (s : string) :
  sanitize_topic (substring 0 n s) = substring 0 n (sanitize_topic s).
Proof.
  revert s. induction n as [| n IH]; intros s.
  - destruct s; reflexivity.
  - destruct s as [| a s]; [reflexivity |]. cbn. rewrite IH. reflexivity.
Qed.

End DiscoveryProperties.

(** X14.  [mqtt_publish_ha_discovery] announces every sensor, whatever the
    client answers.  When the session is connected, the client exists and
    discovery is enabled, it publishes the ten sensor configurations of
    [sensors[]] in order, each with QoS 0 and the retain flag, then the
    retained availability message [online], eleven messages in all; it waits
    50 ms after each configuration, writes one warning for each
    configuration that the client refused, and returns [ESP_OK] even when
    every message was refused.  In every other case it returns
    [ESP_ERR_INVALID_STATE] and does nothing. *)
Theorem mqtt_publish_ha_discovery_sequence (cfg : config)
    (MQTT_HA_DISCOVERY_PREFIX : string) (broker : ha_environment)
    (mqtt_connected mqtt_client : bool) (h : list ha_event) :
  let r := mqtt_publish_ha_discovery cfg MQTT_HA_DISCOVERY_PREFIX broker
             mqtt_connected mqtt_client h in
  if (mqtt_connected && mqtt_client && MQTT_HOME_ASSISTANT_DISCOVERY cfg)%bool then
    fst r = ESP_OK /\
    ha_publish_calls (snd r) =
      map (discovery_call cfg MQTT_HA_DISCOVERY_PREFIX) sensors ++
      [(snprintf_topic cfg "/status", "online", 0, 0, 1)] /\
    List.length (ha_publish_calls (snd r)) = 11%nat /\
    ha_delays_of (snd r) = repeat 50 10 /\
    exists (loop : list ha_event) (rest : list ha_event),
      snd r = [HaLog ESP_LOG_INFO LOG_HA_PUBLISHING] ++ loop ++ rest /\
      List.length (ha_publish_calls rest) = 1%nat /\
      List.length (filter is_publish_warning (snd r)) = List.length (filter is_refused loop)
  else r = (ESP_ERR_INVALID_STATE, []).
Proof.
  cbv zeta.
  pose proof (mqtt_publish_ha_discovery_trace cfg MQTT_HA_DISCOVERY_PREFIX broker
                mqtt_connected mqtt_client h) as Htrace.
  cbv zeta in Htrace.
  destruct (mqtt_connected && mqtt_client && MQTT_HOME_ASSISTANT_DISCOVERY cfg)%bool;
    [| exact Htrace].
  destruct Htrace as (loop & msg_id & -> & Hcalls & Hdelays & Hcount).
  cbn [fst snd].
  assert (Hall : ha_publish_calls
                   ([HaLog ESP_LOG_INFO LOG_HA_PUBLISHING] ++ loop ++
                    [HaPublish (snprintf_topic cfg "/status") "online" 0 0 1 msg_id;
                     HaLog ESP_LOG_INFO LOG_HA_PUBLISHED]) =
                 map (discovery_call cfg MQTT_HA_DISCOVERY_PREFIX) sensors ++
                 [(snprintf_topic cfg "/status", "online", 0, 0, 1)]).
  { rewrite !ha_publish_calls_app, Hcalls. reflexivity. }
  split; [reflexivity |]. split; [exact Hall |]. split.
  { rewrite Hall, length_app, length_map. reflexivity. }
  split.
  { rewrite !ha_delays_of_app, Hdelays. cbn. reflexivity. }
  eexists loop, _. split; [reflexivity |]. split; [reflexivity |].
  rewrite !filter_app, !length_app, Hcount. cbn. lia.
Qed.

(** X15.  A discovery topic never holds a dot and never more than 127
    characters.  The loop over [discovery_topic] replaces the dots of the
    whole topic, those of the discovery prefix as well as those of the
    device address: the topic is the first 127 characters of the format
    filled in with the prefix and the address in which every dot is an
    underscore. *)
Theorem discovery_topic_without_dots (cfg : config) (MQTT_HA_DISCOVERY_PREFIX : string)
    (s : ha_sensor_t) :
  let topic := discovery_topic cfg MQTT_HA_DISCOVERY_PREFIX s in
  (String.length topic <= 127)%nat /\
  (forall i : nat, get i topic <> Some "."%char) /\
  topic =
    substring 0 127
      (format [ sanitize_topic MQTT_HA_DISCOVERY_PREFIX; "/sensor/sdm120_";
                sanitize_topic (SDM120_SLAVE_IP cfg); "/";
                sanitize_topic (sensor_object_id s); "/config" ]).
Proof.
  cbv zeta. unfold discovery_topic, snprintf_buffer.
  change (128 - 1)%nat with 127%nat.
  split; [| split].
  - rewrite sanitize_topic_length. apply substring_0_length_le.
  - intros i. apply sanitize_topic_no_dot.
  - rewrite sanitize_topic_substring. unfold discovery_topic_text. cbn [format fold_right].
    rewrite !sanitize_topic_append. reflexivity.
Qed.

(** X16.  What the loop over [discovery_payload] does to the payload of a
    sensor.  The published payload has the length of the formatted one, at
    most 1023 characters, and starts with a brace.  At every position it
    holds the character of the formatted payload, except that a dot whose
    two neighbours in the formatted payload are both different from the
    double quote is an underscore: so are the dots of the device address in
    the configuration URL, of the software version and of the topic prefix
    in the state topic.  A dot that is left has a double quote next to it.
    The byte that lies before the buffer, which the loop would read for a
    leading dot, has no influence. *)
Theorem discovery_payload_sanitized (cfg : config) (before : ascii) (s : ha_sensor_t) :
  let text := snprintf_buffer 1024 (discovery_payload_text cfg s) in
  let payload := discovery_payload cfg before s in
  String.length payload = String.length text /\
  (String.length payload <= 1023)%nat /\
  get 0 payload = Some "{"%char /\
  (forall i : nat,
     get (S i) payload =
     option_map (fun c => sanitized_char (char_at i text) c (char_at (S (S i)) text))
       (get (S i) text)) /\
  (forall i : nat,
     get (S i) payload = Some "."%char ->
     get i payload = Some double_quote \/ get (S (S i)) payload = Some double_quote) /\
  (forall before' : ascii, discovery_payload cfg before' s = payload).
Proof.
  cbv zeta. unfold discovery_payload.
  split; [apply sanitize_payload_length |].
  split.
  { rewrite sanitize_payload_length. unfold snprintf_buffer.
    change (1024 - 1)%nat with 1023%nat. apply substring_0_length_le. }
  split.
  { unfold discovery_payload_text, snprintf_buffer.
    change (1024 - 1)%nat with (S 1022). cbn [format fold_right].
    change (String.append "{" ?x) with (String "{"%char x).
    cbn [substring sanitize_payload get].
    reflexivity. }
  split; [intros i; apply (sanitize_payload_exact _ before (S i)) |].
  split.
  { intros i Hdot. exact (sanitize_payload_dots _ before (S i) Hdot). }
  intros before'. apply (discovery_payload_before cfg before' before s).
Qed.

(** ** The MQTT event handler *)

(** X17.  What [mqtt_event_handler] does to [mqtt_connected] and to the
    broker.  The flag is set by [MQTT_EVENT_CONNECTED], cleared by
    [MQTT_EVENT_DISCONNECTED] and [MQTT_EVENT_ERROR] and left alone by every
    other event.  On [MQTT_EVENT_CONNECTED] with discovery enabled the
    handler waits 1000 ms and runs the discovery; because it sets the flag
    first, the discovery is published whatever the flag was before, as long
    as the client exists.  No other event makes the handler publish or
    wait. *)
Theorem mqtt_event_handler_effect (cfg : config) (MQTT_HA_DISCOVERY_PREFIX : string)
    (broker : ha_environment) (event : esp_mqtt_event_t)
    (mqtt_connected mqtt_client : bool) (h : list ha_event) :
  let r := mqtt_event_handler cfg MQTT_HA_DISCOVERY_PREFIX broker event
             mqtt_connected mqtt_client h in
  fst r =
    match event_id event with
    | MQTT_EVENT_CONNECTED => true
    | MQTT_EVENT_DISCONNECTED | MQTT_EVENT_ERROR => false
    | MQTT_EVENT_PUBLISHED | MQTT_EVENT_OTHER => mqtt_connected
    end /\
  ha_publish_calls (snd r) =
    match event_id event with
    | MQTT_EVENT_CONNECTED =>
        if (mqtt_client && MQTT_HOME_ASSISTANT_DISCOVERY cfg)%bool then
          map (discovery_call cfg MQTT_HA_DISCOVERY_PREFIX) sensors ++
          [(snprintf_topic cfg "/status", "online", 0, 0, 1)]
        else []
    | _ => []
    end /\
  ha_delays_of (snd r) =
    match event_id event with
    | MQTT_EVENT_CONNECTED =>
        if MQTT_HOME_ASSISTANT_DISCOVERY cfg then
          1000 :: (if mqtt_client then repeat 50 10 else [])
        else []
    | _ => []
    end.
Proof.
  cbv zeta. unfold mqtt_event_handler.
  destruct (event_id event).
  - rewrite bindT_fst, bindT_snd. cbn [HA_LOGI emitT fst snd].
    rewrite bindT_fst, bindT_snd.
    destruct (MQTT_HOME_ASSISTANT_DISCOVERY cfg) eqn:Hha.
    + rewrite bindT_snd. cbn [ha_vTaskDelay emitT fst snd].
      rewrite bindT_snd.
      pose proof (mqtt_publish_ha_discovery_trace cfg MQTT_HA_DISCOVERY_PREFIX broker
                    true mqtt_client
                    ((h ++ [HaLog ESP_LOG_INFO LOG_MQTT_CONNECTED]) ++ [HaDelay 1000]))
        as Htrace.
      cbv zeta in Htrace. rewrite Hha in Htrace. cbn [andb] in Htrace.
      destruct mqtt_client; cbn [andb] in Htrace |- *.
      * destruct Htrace as (loop & msg_id & -> & Hcalls & Hdelays & _).
        cbn [fst snd retT]. rewrite !app_nil_r.
        rewrite !ha_publish_calls_app, !ha_delays_of_app, Hcalls, Hdelays.
        repeat split.
      * rewrite Htrace. repeat split.
    + cbn. repeat split. destruct mqtt_client; reflexivity.
  - repeat split.
  - repeat split.
  - rewrite bindT_fst, bindT_snd. cbn [HA_LOGE emitT fst snd].
    rewrite bindT_fst, bindT_snd.
    destruct (error_type event); repeat split.
  - repeat split.
Qed.

(** ** Room in the buffers *)

Lemma format_length (pieces : list string) :
  String.length (format pieces) = sum_nat (map String.length pieces).
Proof.
  unfold format, sum_nat.
  induction pieces as [| p pieces IH]; cbn [fold_right map]; [reflexivity |].
  rewrite append_length, IH. reflexivity.
Qed.

Lemma quoted_length (s : string) : String.length (quoted s) = S (S (String.length s)).
Proof. unfold quoted. cbn [String.length]. rewrite append_length. cbn. lia. Qed.

Lemma device_info_length (cfg : config) :
  String.length (device_info_text cfg) =
    (170 + 2 * String.length (SDM120_SLAVE_IP cfg))%nat.
Proof.
  unfold device_info_text.
  rewrite format_length. cbn [map sum_nat fold_right].
  rewrite !quoted_length, !append_length. cbn [String.length]. lia.
Qed.

Lemma device_info_whole (cfg : config) :
  (String.length (SDM120_SLAVE_IP cfg) <= 42)%nat ->
  device_info cfg = device_info_text cfg.
Proof.
  intros Hip. unfold device_info, snprintf_buffer. apply substring_0_all.
  rewrite device_info_length. cbn. lia.
Qed.

Lemma discovery_payload_text_length (cfg : config) (s : ha_sensor_t) :
  In s sensors ->
  (String.length (SDM120_SLAVE_IP cfg) <= 42)%nat ->
  (String.length (discovery_payload_text cfg s) <=
   492 + 4 * String.length (SDM120_SLAVE_IP cfg) +
   2 * String.length (MQTT_TOPIC_PREFIX cfg))%nat.
Proof.
  intros Hs Hip. unfold discovery_payload_text.
  rewrite (device_info_whole cfg Hip).
  rewrite format_length. cbn [map sum_nat fold_right].
  rewrite !quoted_length, !format_length, !append_length, device_info_length.
  cbn [map sum_nat fold_right].
  unfold sensors in Hs. cbn [In] in Hs.
  repeat (destruct Hs as [<- | Hs];
          [cbn [String.length sensor_name sensor_object_id sensor_device_class sensor_unit
                sensor_state_class sensor_icon sensor_topic_suffix]; lia |]).
  destruct Hs.
Qed.

(** X18.  For a device address of at most 15 characters and a topic prefix
    of at most 235 characters nothing of a discovery payload is cut off:
    [device_info] holds the whole device description, [discovery_payload]
    holds the whole formatted payload, and the length that
    [esp_mqtt_client_publish] is given is the length of the payload that is
    published. *)
Theorem discovery_payload_not_truncated (cfg : config) (before : ascii) (s : ha_sensor_t) :
  In s sensors ->
  (String.length (CONFIG_SDM120_DEVICE_IP cfg) <= 15)%nat ->
  (String.length (CONFIG_SDM120_MQTT_TOPIC_PREFIX cfg) <= 235)%nat ->
  device_info cfg = device_info_text cfg /\
  snprintf_buffer 1024 (discovery_payload_text cfg s) = discovery_payload_text cfg s /\
  snprintf_result (discovery_payload_text cfg s) =
    Z.of_nat (String.length (discovery_payload cfg before s)).
Proof.
  intros Hs Hip Hprefix.
  assert (Hip' : (String.length (SDM120_SLAVE_IP cfg) <= 42)%nat)
    by (unfold SDM120_SLAVE_IP; lia).
  pose proof (discovery_payload_text_length cfg s Hs Hip') as Hlen.
  unfold SDM120_SLAVE_IP, MQTT_TOPIC_PREFIX in Hlen.
  assert (Hwhole : snprintf_buffer 1024 (discovery_payload_text cfg s) =
                   discovery_payload_text cfg s).
  { unfold snprintf_buffer. apply substring_0_all.
    change (1024 - 1)%nat with 1023%nat. lia. }
  split; [apply device_info_whole; exact Hip' |]. split; [exact Hwhole |].
  unfold discovery_payload, snprintf_result.
  rewrite sanitize_payload_length, Hwhole. reflexivity.
Qed.

(** X18 on the voltage sensor with the address [192.168.1.100] and the
    prefix [sdm120]. *)
Lemma discovery_payload_not_truncated_witness :
  let s := Build_ha_sensor_t "Voltage" "voltage" "voltage" "V" "measurement" "mdi:flash"
             "voltage" in
  device_info cfg_example = device_info_text cfg_example /\
  snprintf_buffer 1024 (discovery_payload_text cfg_example s) =
    discovery_payload_text cfg_example s /\
  snprintf_result (discovery_payload_text cfg_example s) =
    Z.of_nat (String.length (discovery_payload cfg_example zero s)).
Proof.
  apply (discovery_payload_not_truncated cfg_example zero).
  - left. reflexivity.
  - vm_compute. lia.
  - vm_compute. lia.
Defined.

(** The voltage sensor of the example configuration: the address in the
    configuration URL is published with underscores. *)
Lemma discovery_payload_example :
  let s := Build_ha_sensor_t "Voltage" "voltage" "voltage" "V" "measurement" "mdi:flash"
             "voltage" in
  let payload := discovery_payload cfg_example zero s in
  index 0 "http://192_168_1_100" payload = Some 483%nat /\
  index 0 "http://192.168.1.100" payload = None /\
  index 0 "ESP32-SDM120-v1_0" payload = Some 443%nat /\
  discovery_topic cfg_example "homeassistant" s =
    "homeassistant/sensor/sdm120_192_168_1_100/voltage/config".
Proof. vm_compute. repeat split. Qed.

(** * The Wi-Fi event handler and the reconnect task *)

Lemma wifi_do_retry_bounds (wcfg : wifi_config) (step : wifi_step) (g : wifi_globals) :
  0 <= CONFIG_WIFI_MAXIMUM_RETRY wcfg ->
  0 <= s_retry_num g <= CONFIG_WIFI_MAXIMUM_RETRY wcfg ->
  0 <= s_retry_num (fst (wifi_do wcfg step g)) <= CONFIG_WIFI_MAXIMUM_RETRY wcfg.
Proof.
  intros Hmax Hg.
  destruct step as [[| | |] | ret | bits]; cbn [wifi_do wifi_event_handler fst].
  - exact Hg.
  - unfold WIFI_MAXIMUM_RETRY.
    destruct (Z.ltb_spec (s_retry_num g) (CONFIG_WIFI_MAXIMUM_RETRY wcfg));
      cbn [fst s_retry_num]; lia.
  - cbn [s_retry_num]. lia.
  - exact Hg.
  - unfold wifi_reconnect_check.
    destruct (negb (is_ESP_OK ret) || negb (wifi_is_connected g))%bool;
      cbn [fst s_retry_num]; lia.
  - exact Hg.
Qed.

(** X19.  The retry counter stays within its budget.  With a maximum that
    is not negative, whatever events the handler is given and whenever the
    reconnect task runs in between, [s_retry_num] never leaves the range from
    0 to [WIFI_MAXIMUM_RETRY]: the increment in the handler cannot
    overflow. *)
Theorem wifi_retry_counter_bounded (wcfg : wifi_config) (steps : list wifi_step)
    (g : wifi_globals) :
  0 <= CONFIG_WIFI_MAXIMUM_RETRY wcfg ->
  0 <= s_retry_num g <= CONFIG_WIFI_MAXIMUM_RETRY wcfg ->
  0 <= s_retry_num (fst (wifi_run wcfg steps g)) <= CONFIG_WIFI_MAXIMUM_RETRY wcfg.
Proof.
  intros Hmax. revert g.
  induction steps as [| step steps IH]; intros g Hg; [exact Hg |].
  cbn [wifi_run].
  pose proof (wifi_do_retry_bounds wcfg step g Hmax Hg) as Hstep.
  destruct (wifi_do wcfg step g) as [g1 calls1]. cbn [fst] in Hstep.
  specialize (IH g1 Hstep).
  destruct (wifi_run wcfg steps g1) as [g2 calls2]. exact IH.
Qed.

(** X19 on a link that drops seven times while the task looks once. *)
Lemma wifi_retry_counter_bounded_witness :
  0 <= s_retry_num
         (fst (wifi_run wifi_config_example
                 (map HandlerRuns (repeat WIFI_EVENT_STA_DISCONNECTED 7) ++
                  [TaskChecks ESP_FAIL; HandlerRuns WIFI_EVENT_STA_DISCONNECTED])
                 wifi_globals_initial))
    <= CONFIG_WIFI_MAXIMUM_RETRY wifi_config_example.
Proof.
  apply (wifi_retry_counter_bounded wifi_config_example).
  - vm_compute. discriminate.
  - vm_compute. split; discriminate.
Defined.

Lemma connect_calls_app (c1 c2 : list wifi_call) :
  connect_calls (c1 ++ c2) = (connect_calls c1 + connect_calls c2)%nat.
Proof. unfold connect_calls. rewrite filter_app, length_app. reflexivity. Qed.

Lemma fail_bits_set_app (c1 c2 : list wifi_call) :
  fail_bits_set (c1 ++ c2) = (fail_bits_set c1 + fail_bits_set c2)%nat.
Proof. unfold fail_bits_set. rewrite filter_app, length_app. reflexivity. Qed.

(** X20.  The handler gives up after [WIFI_MAXIMUM_RETRY] reconnections.
    Over any run of events without [IP_EVENT_STA_GOT_IP], started with
    [s_retry_num] at [s], the handler answers the first
    [WIFI_MAXIMUM_RETRY - s] disconnections with [esp_wifi_connect] and every
    later one by setting [WIFI_FAIL_BIT] instead; apart from that it calls
    [esp_wifi_connect] once for each [WIFI_EVENT_STA_START].  The counter
    ends at [s] plus the number of reconnections, and [wifi_connected] is
    cleared by the first disconnection. *)
Theorem wifi_handler_gives_up (wcfg : wifi_config) (events : list wifi_event_t)
    (g : wifi_globals) :
  0 <= s_retry_num g <= CONFIG_WIFI_MAXIMUM_RETRY wcfg ->
  forallb (fun event => negb (is_got_ip event)) events = true ->
  let r := wifi_run wcfg (map HandlerRuns events) g in
  let disconnections := List.length (filter is_sta_disconnected events) in
  let reconnections :=
    Nat.min disconnections (Z.to_nat (CONFIG_WIFI_MAXIMUM_RETRY wcfg - s_retry_num g)) in
  connect_calls (snd r) =
    (List.length (filter is_sta_start events) + reconnections)%nat /\
  fail_bits_set (snd r) = (disconnections - reconnections)%nat /\
  s_retry_num (fst r) = s_retry_num g + Z.of_nat reconnections /\
  wifi_is_connected (fst r) =
    (if (disconnections =? 0)%nat then wifi_is_connected g else false).
Proof.
  revert g. induction events as [| event events IH]; intros g Hg Hevents.
  - cbn. repeat split. lia.
  - cbn [forallb] in Hevents. apply andb_true_iff in Hevents.
    destruct Hevents as [Hevent Hevents].
    cbv zeta. cbn [map wifi_run wifi_do].
    destruct event; try discriminate Hevent.
    + (* WIFI_EVENT_STA_START *)
      cbn [wifi_event_handler filter is_sta_start is_sta_disconnected List.length].
      specialize (IH g Hg Hevents). cbv zeta in IH.
      destruct (wifi_run wcfg (map HandlerRuns events) g) as [g2 calls2].
      cbn [fst snd] in IH |- *. destruct IH as (Hc & Hf & Hs & Hw).
      rewrite connect_calls_app, fail_bits_set_app, Hc, Hf.
      repeat split; assumption.
    + (* WIFI_EVENT_STA_DISCONNECTED *)
      cbn [wifi_event_handler filter is_sta_start is_sta_disconnected List.length].
      unfold WIFI_MAXIMUM_RETRY.
      destruct (Z.ltb_spec (s_retry_num g) (CONFIG_WIFI_MAXIMUM_RETRY wcfg)) as [Hlt | Hge].
      * specialize (IH {| s_retry_num := s_retry_num g + 1; wifi_is_connected := false |}).
        cbn [s_retry_num wifi_is_connected] in IH.
        specialize (IH ltac:(lia) Hevents). cbv zeta in IH.
        destruct (wifi_run wcfg (map HandlerRuns events) _) as [g2 calls2].
        cbn [fst snd] in IH |- *. destruct IH as (Hc & Hf & Hs & Hw).
        rewrite connect_calls_app, fail_bits_set_app, Hc, Hf, Hs, Hw.
        change (connect_calls [esp_wifi_connect; WifiLog _ _]) with 1%nat.
        change (fail_bits_set [esp_wifi_connect; WifiLog _ _]) with 0%nat.
        cbn [Nat.eqb].
        repeat split; try lia.
        destruct (List.length (filter is_sta_disconnected events) =? 0)%nat; reflexivity.
      * specialize (IH {| s_retry_num := s_retry_num g; wifi_is_connected := false |}).
        cbn [s_retry_num wifi_is_connected] in IH.
        specialize (IH Hg Hevents). cbv zeta in IH.
        destruct (wifi_run wcfg (map HandlerRuns events) _) as [g2 calls2].
        cbn [fst snd] in IH |- *. destruct IH as (Hc & Hf & Hs & Hw).
        rewrite connect_calls_app, fail_bits_set_app, Hc, Hf, Hs, Hw.
        change (connect_calls [WifiLog _ _; xEventGroupSetBits _]) with 0%nat.
        change (fail_bits_set [WifiLog _ _; xEventGroupSetBits WIFI_FAIL_BIT]) with 1%nat.
        cbn [Nat.eqb].
        replace (Z.to_nat (CONFIG_WIFI_MAXIMUM_RETRY wcfg - s_retry_num g)) with 0%nat by lia.
        rewrite !Nat.min_0_r.
        repeat split; try lia.
        destruct (List.length (filter is_sta_disconnected events) =? 0)%nat; reflexivity.
    + (* WIFI_EVENT_OTHER *)
      cbn [wifi_event_handler filter is_sta_start is_sta_disconnected List.length].
      specialize (IH g Hg Hevents). cbv zeta in IH.
      destruct (wifi_run wcfg (map HandlerRuns events) g) as [g2 calls2].
      cbn [fst snd] in IH |- *. exact IH.
Qed.

(** X20 on seven disconnections with a maximum of five. *)
Lemma wifi_handler_gives_up_witness :
  let r := wifi_run wifi_config_example
             (map HandlerRuns (repeat WIFI_EVENT_STA_DISCONNECTED 7)) wifi_globals_initial in
  let disconnections :=
    List.length (filter is_sta_disconnected (repeat WIFI_EVENT_STA_DISCONNECTED 7)) in
  let reconnections :=
    Nat.min disconnections
      (Z.to_nat (CONFIG_WIFI_MAXIMUM_RETRY wifi_config_example -
                 s_retry_num wifi_globals_initial)) in
  connect_calls (snd r) =
    (List.length (filter is_sta_start (repeat WIFI_EVENT_STA_DISCONNECTED 7)) +
     reconnections)%nat /\
  fail_bits_set (snd r) = (disconnections - reconnections)%nat /\
  s_retry_num (fst r) = s_retry_num wifi_globals_initial + Z.of_nat reconnections /\
  wifi_is_connected (fst r) =
    (if (disconnections =? 0)%nat then wifi_is_connected wifi_globals_initial else false).
Proof.
  apply (wifi_handler_gives_up wifi_config_example
           (repeat WIFI_EVENT_STA_DISCONNECTED 7) wifi_globals_initial).
  - vm_compute. split; discriminate.
  - vm_compute. reflexivity.
Defined.

(** * [is_valid_ip] *)

Lemma is_valid_ip_examples :
  is_valid_ip (Some "192.168.1.100") = Some true /\
  is_valid_ip (Some "256.1.1.1") = Some false /\
  is_valid_ip (Some "1.2.3") = Some false /\
  is_valid_ip (Some "1..2.3") = Some false /\
  is_valid_ip (Some "-1.2.3.4") = Some false /\
  is_valid_ip (Some "") = Some false /\
  is_valid_ip None = Some false /\
  is_valid_ip (Some " +1. 2.	3.4") = Some true /\
  is_valid_ip (Some "1.2.3.4.5") = Some true /\
  is_valid_ip (Some "10.0.0.1:502/meter") = Some true /\
  is_valid_ip (Some "99999999999.1.1.1") = None.
Proof. vm_compute. repeat split. Qed.

(** ** Scanning a number *)

Lemma scan_digits_stop (acc : Z) (s : string) :
  starts_with_digit s = false -> scan_digits acc s = (acc, s).
Proof. destruct s as [| c s]; cbn; [reflexivity |]. intros ->. reflexivity. Qed.

Lemma scan_digits_append (s t : string) :
  starts_with_digit t = false ->
  forall (acc value : Z) (rest : string),
    scan_digits acc s = (value, rest) ->
    scan_digits acc (String.append s t) = (value, String.append rest t).
Proof.
  intros Ht. induction s as [| c s IH]; intros acc value rest Hs.
  - cbn in Hs |- *. injection Hs as <- <-. apply scan_digits_stop. exact Ht.
  - cbn [scan_digits String.append] in Hs |- *.
    destruct (isdigit c).
    + apply IH. exact Hs.
    + injection Hs as <- <-. reflexivity.
Qed.

Lemma skip_spaces_append (s t : string) :
  skip_spaces s <> EmptyString ->
  skip_spaces (String.append s t) = String.append (skip_spaces s) t.
Proof.
  induction s as [| c s IH]; intros Hs; [contradiction |].
  cbn [skip_spaces String.append] in Hs |- *.
  destruct (isspace c); [apply IH; exact Hs | reflexivity].
Qed.

Lemma skip_spaces_prefix (ws s : string) :
  skip_spaces ws = EmptyString ->
  skip_spaces (String.append ws s) = skip_spaces s.
Proof.
  induction ws as [| c ws IH]; intros Hws; [reflexivity |].
  cbn [skip_spaces String.append] in Hws |- *.
  destruct (isspace c); [apply IH; exact Hws | discriminate].
Qed.

Lemma starts_with_digit_append (s t : string) :
  starts_with_digit s = true ->
  starts_with_digit (String.append s t) = true.
Proof. destruct s; [discriminate | intros H; exact H]. Qed.

(** A number that [%d] converts is converted in the same way when more
    text follows that does not go on with a digit. *)
Lemma scan_int_append (s t : string) (value : Z) (rest : string) :
  starts_with_digit t = false ->
  scan_int s = Converted value rest ->
  scan_int (String.append s t) = Converted value (String.append rest t).
Proof.
  intros Ht. unfold scan_int. cbv zeta.
  destruct (skip_spaces s) as [| c s1] eqn:Hskip.
  { cbn. intros H. discriminate H. }
  rewrite skip_spaces_append by (rewrite Hskip; discriminate).
  rewrite Hskip. cbn [String.append].
  destruct ((c =? "-")%char || (c =? "+")%char)%bool.
  - destruct (starts_with_digit s1) eqn:Hdigit; [| intros H; discriminate H].
    rewrite (starts_with_digit_append s1 t Hdigit).
    destruct (scan_digits 0 s1) as [magnitude r] eqn:Hscan.
    rewrite (scan_digits_append s1 t Ht 0 magnitude r Hscan).
    destruct ((INT_MIN <=? _) && _)%bool; [| intros H; discriminate H].
    intros H. injection H as <- <-. reflexivity.
  - destruct (starts_with_digit (String c s1)) eqn:Hdigit; [| intros H; discriminate H].
    change (String c (String.append s1 t)) with (String.append (String c s1) t).
    rewrite (starts_with_digit_append (String c s1) t Hdigit).
    destruct (scan_digits 0 (String c s1)) as [magnitude r] eqn:Hscan.
    rewrite (scan_digits_append (String c s1) t Ht 0 magnitude r Hscan).
    destruct ((INT_MIN <=? _) && _)%bool; [| intros H; discriminate H].
    intros H. injection H as <- <-. reflexivity.
Qed.

Lemma scan_int_spaces (ws s : string) :
  skip_spaces ws = EmptyString -> scan_int (String.append ws s) = scan_int s.
Proof. intros Hws. unfold scan_int. rewrite (skip_spaces_prefix ws s Hws). reflexivity. Qed.

Lemma digit_is_no_space_or_sign (c : ascii) :
  isdigit c = true ->
  isspace c = false /\ (c =? "-")%char = false /\ (c =? "+")%char = false.
Proof.
  destruct c as [[] [] [] [] [] [] [] []]; intros H; vm_compute in H; try discriminate H;
    vm_compute; repeat split.
Qed.

Lemma scan_int_digits (s : string) :
  starts_with_digit s = true ->
  scan_int s =
    let (magnitude, rest) := scan_digits 0 s in
    if ((INT_MIN <=? magnitude) && (magnitude <=? INT_MAX))%bool
    then Converted magnitude rest else NotRepresentable.
Proof.
  destruct s as [| c s]; [discriminate |]. cbn [starts_with_digit]. intros Hc.
  destruct (digit_is_no_space_or_sign c Hc) as (Hspace & Hminus & Hplus).
  unfold scan_int. cbn [skip_spaces]. rewrite Hspace. cbv zeta.
  rewrite Hminus, Hplus. cbn [orb starts_with_digit]. rewrite Hc. reflexivity.
Qed.

(** The digits of a numeral are read back as its value. *)
Lemma scan_digits_uint (u : Decimal.uint) :
  forall n : nat,
    scan_digits (Z.of_nat n) (DecimalString.NilEmpty.string_of_uint u) =
    (Z.of_nat (Nat.of_uint_acc u n), EmptyString).
Proof.
  induction u as [| u IH | u IH | u IH | u IH | u IH | u IH | u IH | u IH | u IH | u IH];
    intros n; [reflexivity | ..];
    cbn [DecimalString.NilEmpty.string_of_uint scan_digits Nat.of_uint_acc];
    match goal with
    | |- context [isdigit ?c] => change (isdigit c) with true; cbv iota
    end;
    rewrite <- IH; f_equal; rewrite Nat.tail_mul_spec;
    match goal with
    | |- context [digit_value ?c] =>
        let v := eval vm_compute in (digit_value c) in change (digit_value c) with v
    end; lia.
Qed.

Lemma string_of_uint_digit (u : Decimal.uint) :
  u <> Decimal.Nil -> starts_with_digit (DecimalString.NilEmpty.string_of_uint u) = true.
Proof. destruct u; intros H; [contradiction | ..]; reflexivity. Qed.

Lemma to_uint_not_nil (n : nat) : Nat.to_uint n <> Decimal.Nil.
Proof.
  intros H. pose proof (DecimalNat.Unsigned.of_to n) as Hn. rewrite H in Hn.
  cbn in Hn. subst n. discriminate H.
Qed.

Lemma scan_int_decimal (n : nat) (rest : string) :
  Z.of_nat n <= INT_MAX ->
  starts_with_digit rest = false ->
  scan_int (String.append (decimal n) rest) = Converted (Z.of_nat n) rest.
Proof.
  intros Hn Hrest.
  change rest with (String.append EmptyString rest) at 2.
  apply scan_int_append; [exact Hrest |].
  unfold decimal.
  rewrite scan_int_digits by (apply string_of_uint_digit, to_uint_not_nil).
  change (scan_digits 0) with (scan_digits (Z.of_nat 0)).
  rewrite (scan_digits_uint (Nat.to_uint n) 0).
  fold (Nat.of_uint (Nat.to_uint n)). rewrite DecimalNat.Unsigned.of_to.
  unfold INT_MIN, INT_MAX in *.
  destruct (Z.leb_spec (-2147483648) (Z.of_nat n)); [| lia].
  destruct (Z.leb_spec (Z.of_nat n) 2147483647); [| lia].
  reflexivity.
Qed.

(** ** The whole address *)

Lemma scan_dotted_append (t : string) (n : nat) :
  starts_with_digit t = false ->
  forall (s : string) (assigned result : list Z),
    scan_dotted n s assigned = Some result ->
    List.length result = (List.length assigned + n)%nat ->
    scan_dotted n (String.append s t) assigned = Some result.
Proof.
  intros Ht. induction n as [| n IH]; intros s assigned result Hscan Hlen.
  - exact Hscan.
  - cbn [scan_dotted] in Hscan |- *.
    destruct (scan_int s) as [value rest | |] eqn:Hint.
    + rewrite (scan_int_append s t value rest Ht Hint).
      destruct n as [| n]; [exact Hscan |].
      destruct rest as [| c rest]; cbn [scan_dot String.append] in Hscan |- *.
      * injection Hscan as <-. rewrite length_app in Hlen. cbn in Hlen. lia.
      * destruct (c =? ".")%char.
        -- apply IH; [exact Hscan |]. rewrite length_app. cbn [List.length]. lia.
        -- injection Hscan as <-. rewrite length_app in Hlen. cbn in Hlen. lia.
    + injection Hscan as <-. lia.
    + discriminate Hscan.
Qed.

Lemma scan_dotted_spaces (ws s : string) (n : nat) (assigned : list Z) :
  skip_spaces ws = EmptyString ->
  scan_dotted n (String.append ws s) assigned = scan_dotted n s assigned.
Proof.
  intros Hws. destruct n as [| n]; [reflexivity |].
  cbn [scan_dotted]. rewrite (scan_int_spaces ws s Hws). reflexivity.
Qed.

Lemma is_valid_ip_scan (s : string) (a b c d : Z) :
  scan_dotted 4 s [] = Some [a; b; c; d] ->
  is_valid_ip (Some s) =
    Some (((0 <=? a) && (a <=? 255)) && ((0 <=? b) && (b <=? 255)) &&
          ((0 <=? c) && (c <=? 255)) && ((0 <=? d) && (d <=? 255)))%bool.
Proof. intros H. unfold is_valid_ip, sscanf_dotted_quad. rewrite H. reflexivity. Qed.

Lemma is_valid_ip_true_scan (s : string) :
  is_valid_ip (Some s) = Some true ->
  exists a b c d : Z, scan_dotted 4 s [] = Some [a; b; c; d].
Proof.
  unfold is_valid_ip, sscanf_dotted_quad.
  destruct (scan_dotted 4 s []) as [[| a [| b [| c [| d [| e l]]]]] |];
    cbn; try discriminate.
  intros _. exists a, b, c, d. reflexivity.
Qed.

(** X21.  [is_valid_ip] accepts every dotted quad and tells by the range of
    its numbers alone.  For four numbers that an [int] can hold, written in
    decimal with dots in between, the result is defined, and it is [true]
    exactly when each of the four is at most 255. *)
Theorem is_valid_ip_dotted_quad (a b c d : nat) :
  Z.of_nat a <= INT_MAX -> Z.of_nat b <= INT_MAX ->
  Z.of_nat c <= INT_MAX -> Z.of_nat d <= INT_MAX ->
  is_valid_ip (Some (dotted_quad a b c d)) =
    Some ((a <=? 255) && (b <=? 255) && (c <=? 255) && (d <=? 255))%nat%bool.
Proof.
  intros Ha Hb Hc Hd.
  assert (Hscan : scan_dotted 4 (dotted_quad a b c d) [] =
                  Some [Z.of_nat a; Z.of_nat b; Z.of_nat c; Z.of_nat d]).
  { unfold dotted_quad. cbn [format fold_right].
    repeat (cbn [scan_dotted String.append];
            match goal with
            | |- context [scan_int (String.append (decimal ?n) ?r)] =>
                rewrite (scan_int_decimal n r ltac:(assumption) eq_refl)
            end;
            cbn [scan_dot app]; try change ("." =? ".")%char with true; cbv iota).
    reflexivity. }
  rewrite (is_valid_ip_scan _ _ _ _ _ Hscan). f_equal.
  assert (Hrange : forall n : nat,
             ((0 <=? Z.of_nat n) && (Z.of_nat n <=? 255))%bool = (n <=? 255)%nat).
  { intros n. destruct (Z.leb_spec 0 (Z.of_nat n)); [| lia].
    destruct (Z.leb_spec (Z.of_nat n) 255); destruct (Nat.leb_spec n 255);
      try reflexivity; lia. }
  rewrite !Hrange. reflexivity.
Qed.

(** X21 on the address of the example configuration. *)
Lemma is_valid_ip_dotted_quad_witness :
  is_valid_ip (Some (dotted_quad 192 168 1 100)) =
    Some ((192 <=? 255) && (168 <=? 255) && (1 <=? 255) && (100 <=? 255))%nat%bool.
Proof.
  apply (is_valid_ip_dotted_quad 192 168 1 100); vm_compute; discriminate.
Defined.

(** X22.  [is_valid_ip] accepts more than addresses.  White space before
    the first number is skipped and whatever follows the fourth number is not
    read: a text that is accepted stays accepted when white space is put in
    front of it and when anything that does not start with a digit is put
    behind it, a port, a path or a fifth number. *)
Theorem is_valid_ip_ignores_the_rest (ws s t : string) :
  skip_spaces ws = EmptyString ->
  starts_with_digit t = false ->
  is_valid_ip (Some s) = Some true ->
  is_valid_ip (Some (String.append ws (String.append s t))) = Some true.
Proof.
  intros Hws Ht Hvalid.
  destruct (is_valid_ip_true_scan s Hvalid) as (a & b & c & d & Hscan).
  rewrite (is_valid_ip_scan s a b c d Hscan) in Hvalid.
  rewrite <- Hvalid. apply is_valid_ip_scan.
  rewrite (scan_dotted_spaces ws _ 4 [] Hws).
  apply (scan_dotted_append t 4 Ht s [] [a; b; c; d] Hscan). reflexivity.
Qed.

(** X22 on an address with a port and a path behind it. *)
Lemma is_valid_ip_ignores_the_rest_witness :
  is_valid_ip (Some (String.append "  " (String.append "10.0.0.1" ":502/meter"))) =
    Some true.
Proof.
  apply (is_valid_ip_ignores_the_rest "  " "10.0.0.1" ":502/meter"); vm_compute; reflexivity.
Defined.

(** * Start-up *)

(** ** Rules for the computations of start-up *)

Section StartupRules.

Variable lib : startup_environment.

Lemma wp_bind {A B : Type} (m : StartupM A) (k : A -> StartupM B)
    (Q : startup_outcome B -> startup_globals -> list startup_event -> Prop)
    (g : startup_globals) (h : list startup_event) :
  wpS m (fun o g1 out1 =>
           match o with
           | Returns a => wpS (k a) (fun o2 g2 out2 => Q o2 g2 (out1 ++ out2)) g1 (h ++ out1)
           | Aborts => Q Aborts g1 out1
           | Undefined => Q Undefined g1 out1
           end) g h ->
  wpS (bindS m k) Q g h.
Proof.
  unfold wpS, bindS. destruct (m g h) as [[[a | |] g1] out1]; try (intros H; exact H).
  destruct (k a g1 (h ++ out1)) as [[o2 g2] out2]. intros H. exact H.
Qed.

Lemma wp_consequence {A : Type} (m : StartupM A)
    (Q1 Q2 : startup_outcome A -> startup_globals -> list startup_event -> Prop)
    (g : startup_globals) (h : list startup_event) :
  wpS m Q1 g h ->
  (forall o g' out, Q1 o g' out -> Q2 o g' out) ->
  wpS m Q2 g h.
Proof. unfold wpS. destruct (m g h) as [[o g'] out]. intros H HQ. apply HQ. exact H. Qed.

Lemma wp_ret {A : Type} (a : A)
    (Q : startup_outcome A -> startup_globals -> list startup_event -> Prop)
    (g : startup_globals) (h : list startup_event) :
  Q (Returns a) g [] -> wpS (retS a) Q g h.
Proof. intros H. exact H. Qed.

Lemma wp_emit (e : startup_event)
    (Q : startup_outcome unit -> startup_globals -> list startup_event -> Prop)
    (g : startup_globals) (h : list startup_event) :
  Q (Returns tt) g [e] -> wpS (emitS e) Q g h.
Proof. intros H. exact H. Qed.

Lemma wp_abort {A : Type}
    (Q : startup_outcome A -> startup_globals -> list startup_event -> Prop)
    (g : startup_globals) (h : list startup_event) :
  Q Aborts g [] -> wpS abortS Q g h.
Proof. intros H. exact H. Qed.

Lemma wp_undefined {A : Type}
    (Q : startup_outcome A -> startup_globals -> list startup_event -> Prop)
    (g : startup_globals) (h : list startup_event) :
  Q Undefined g [] -> wpS undefinedS Q g h.
Proof. intros H. exact H. Qed.

Lemma wp_read {A : Type} (f : startup_globals -> A)
    (Q : startup_outcome A -> startup_globals -> list startup_event -> Prop)
    (g : startup_globals) (h : list startup_event) :
  Q (Returns (f g)) g [] -> wpS (readS f) Q g h.
Proof. intros H. exact H. Qed.

Lemma wp_write (f : startup_globals -> startup_globals)
    (Q : startup_outcome unit -> startup_globals -> list startup_event -> Prop)
    (g : startup_globals) (h : list startup_event) :
  Q (Returns tt) (f g) [] -> wpS (writeS f) Q g h.
Proof. intros H. exact H. Qed.

Lemma wp_call (c : library_call)
    (Q : startup_outcome esp_err_t -> startup_globals -> list startup_event -> Prop)
    (g : startup_globals) (h : list startup_event) :
  (forall result : esp_err_t, Q (Returns result) g [StCall c result]) ->
  wpS (call lib c) Q g h.
Proof. intros H. apply H. Qed.

Lemma wp_create (c : handle_call)
    (Q : startup_outcome bool -> startup_globals -> list startup_event -> Prop)
    (g : startup_globals) (h : list startup_event) :
  (forall handle : bool, Q (Returns handle) g [StHandle c handle]) ->
  wpS (create lib c) Q g h.
Proof. intros H. apply H. Qed.

Lemma wp_nvs_flash_init
    (Q : startup_outcome nvs_result -> startup_globals -> list startup_event -> Prop)
    (g : startup_globals) (h : list startup_event) :
  (forall result : nvs_result, Q (Returns result) g [StNvsFlashInit result]) ->
  wpS (nvs_flash_init lib) Q g h.
Proof. intros H. apply H. Qed.

Lemma wp_mbc_master_init_tcp
    (Q : startup_outcome (esp_err_t * bool) -> startup_globals -> list startup_event -> Prop)
    (g : startup_globals) (h : list startup_event) :
  (forall (result : esp_err_t) (master_handler : bool),
      Q (Returns (result, master_handler)) g [StMasterInitTcp result master_handler]) ->
  wpS (mbc_master_init_tcp lib) Q g h.
Proof.
  intros H. unfold wpS, mbc_master_init_tcp.
  destruct (mbc_master_init_tcp_answer lib h) as [result master_handler]. apply H.
Qed.

Lemma wp_wait_bits (bits_to_wait_for timeout_ms : Z)
    (Q : startup_outcome Z -> startup_globals -> list startup_event -> Prop)
    (g : startup_globals) (h : list startup_event) :
  (forall bits : Z, Q (Returns bits) g [StWaitBits bits_to_wait_for timeout_ms bits]) ->
  wpS (xEventGroupWaitBits_startup lib bits_to_wait_for timeout_ms) Q g h.
Proof. intros H. apply H. Qed.

Lemma wp_task_create (task : task_t)
    (Q : startup_outcome bool -> startup_globals -> list startup_event -> Prop)
    (g : startup_globals) (h : list startup_event) :
  (forall created : bool, Q (Returns created) g [StTaskCreate task created]) ->
  wpS (xTaskCreate lib task) Q g h.
Proof. intros H. apply H. Qed.

End StartupRules.

Lemma wpS_run {A : Type} (m : StartupM A)
    (P : startup_outcome A * startup_globals * list startup_event -> Prop)
    (g : startup_globals) (h : list startup_event) :
  wpS m (fun o g' out => P (o, g', out)) g h -> P (m g h).
Proof. unfold wpS. destruct (m g h) as [[o g'] out]. intros H. exact H. Qed.

(** One step of a computation: a rule, or a case distinction on what a
    test looks at. *)
Ltac wp_step :=
  match goal with
  | |- wpS (bindS _ _) _ _ _ => apply wp_bind
  | |- wpS (retS _) _ _ _ => apply wp_ret
  | |- wpS (emitS _) _ _ _ => apply wp_emit
  | |- wpS abortS _ _ _ => apply wp_abort
  | |- wpS undefinedS _ _ _ => apply wp_undefined
  | |- wpS (readS _) _ _ _ =>
      apply wp_read; cbn [g_wifi_event_group g_wifi_netif g_mqtt_client]
  | |- wpS (writeS _) _ _ _ =>
      apply wp_write; cbn [g_wifi_event_group g_wifi_netif g_mqtt_client]
  | |- wpS (call _ _) _ _ _ => apply wp_call; intros ?result
  | |- wpS (create _ _) _ _ _ => apply wp_create; intros ?handle
  | |- wpS (nvs_flash_init _) _ _ _ => apply wp_nvs_flash_init; intros ?result
  | |- wpS (mbc_master_init_tcp _) _ _ _ =>
      apply wp_mbc_master_init_tcp; intros ?result ?master_handler
  | |- wpS (xEventGroupWaitBits_startup _ _ _) _ _ _ => apply wp_wait_bits; intros ?bits
  | |- wpS (xTaskCreate _ _) _ _ _ => apply wp_task_create; intros ?created
  | |- wpS (if is_ESP_OK ?e then _ else _) _ _ _ =>
      tryif is_var e then destruct (is_ESP_OK e) eqn:?
      else (let b := eval vm_compute in (is_ESP_OK e) in
            change (is_ESP_OK e) with b; cbv iota)
  | |- wpS (if negb (is_ESP_OK ?e) then _ else _) _ _ _ =>
      tryif is_var e then destruct (is_ESP_OK e) eqn:?; cbn [negb]
      else (let b := eval vm_compute in (negb (is_ESP_OK e)) in
            change (negb (is_ESP_OK e)) with b; cbv iota)
  | |- wpS (if negb ?b then _ else _) _ _ _ => destruct b eqn:?; cbn [negb]
  | |- wpS (if ?b then _ else _) _ _ _ => destruct b eqn:?
  | |- wpS (match ?r with NVS_OK => _ | _ => _ end) _ _ _ => destruct r eqn:?
  | |- wpS (match ?r with Some _ => _ | None => _ end) _ _ _ =>
      destruct r as [[|] |] eqn:?
  | |- wpS ((fun _ => _) _) _ _ _ => cbv beta
  | |- wpS (let _ := _ in _) _ _ _ => cbv zeta
  | |- wpS (match (_, _) with pair _ _ => _ end) _ _ _ => cbv iota beta
  | |- (fun _ => _) _ _ _ => cbv beta; cbv iota
  | |- match ?o with Returns _ => _ | Aborts => _ | Undefined => _ end =>
      is_var o; destruct o
  end.

Ltac wp_run :=
  unfold ESP_ERROR_CHECK, ST_LOGI, ST_LOGW, ST_LOGE, startup_vTaskDelay;
  repeat wp_step.

(** A call of a function whose behaviour a lemma describes. *)
Ltac wp_apply lemma :=
  eapply wp_consequence; [apply lemma |];
  cbv beta; intros ?o ?g ?out ?Hspec; wp_run.

(** The goals that a run leaves: the tests that succeeded name the
    result, the others are rewritten where the events are judged. *)
Ltac wp_results :=
  repeat match goal with
         | H : is_ESP_OK ?e = true |- _ => apply is_ESP_OK_true in H; subst e
         | H : ?x = ?x |- _ => clear H
         | H : _ /\ _ |- _ => destruct H
         | H : exists _, _ |- _ => destruct H
         | H : Returns _ = Returns _ |- _ => injection H as H; try subst
         | H : Returns ?a = Returns ?a -> _ |- _ => specialize (H eq_refl)
         | H : ?a = ?a -> _ |- _ => specialize (H eq_refl)
         | H : Aborts = Returns _ -> _ |- _ => clear H
         | H : Undefined = Returns _ -> _ |- _ => clear H
         | H : Returns _ = Undefined -> _ |- _ => clear H
         | H : Aborts = Undefined -> _ |- _ => clear H
         end;
  rewrite ?forallb_app, ?existsb_app, ?filter_app, ?length_app, ?in_app_iff;
  cbn [app forallb existsb filter List.length In succeeded is_error_log is_mqtt_call
       is_task_create is_modbus_call saw_connected_bit is_failed_call is_no_netif_log
       is_mqtt_client_init orb andb negb
       g_wifi_event_group g_wifi_netif g_mqtt_client fst snd];
  change (is_ESP_OK ESP_OK) with true;
  repeat match goal with
         | H : ?b = true |- context [?b] => rewrite H
         | H : ?b = false |- context [?b] => rewrite H
         end;
  cbn [orb andb negb List.length Nat.add].

Ltac wp_finish :=
  intuition (try (discriminate || congruence));
  repeat match goal with
         | H : Returns _ = Returns _ |- _ => injection H as H
         | H : ?x = ESP_OK |- _ => is_var x; subst x
         | H : ESP_OK = ?x |- _ => is_var x; subst x
         end;
  repeat match goal with
         | H : context [is_ESP_OK ESP_OK] |- _ =>
             change (is_ESP_OK ESP_OK) with true in H
         end;
  try (discriminate || congruence);
  repeat match goal with
         | H : ?b = true |- context [?b] => rewrite H
         | H : ?b = false |- context [?b] => rewrite H
         end;
  cbn [orb andb negb];
  try (discriminate || congruence);
  repeat match goal with
         | H : context [is_ESP_OK ?e] |- _ => destruct (is_ESP_OK e)
         end;
  try (discriminate || congruence).

(** ** What the functions of start-up do, as far as their callers need it *)

Lemma wifi_init_and_connect_spec (scfg : startup_config) (wcfg : wifi_config)
    (lib : startup_environment) (g : startup_globals) (h : list startup_event) :
  wpS (wifi_init_and_connect scfg wcfg lib)
    (fun o g' out =>
       o <> Undefined /\
       (o = Returns ESP_OK ->
        g_wifi_netif g' = true /\ forallb succeeded out = true /\
        existsb saw_connected_bit out = true) /\
       existsb is_modbus_call out = false /\
       existsb (is_task_create TASK_sdm120_monitor) out = false /\
       existsb is_no_netif_log out = false /\
       existsb is_mqtt_client_init out = false) g h.
Proof.
  unfold wifi_init_and_connect. wp_run; wp_results; wp_finish.
Qed.

Lemma init_services_spec (cfg : config) (scfg : startup_config) (wcfg : wifi_config)
    (lib : startup_environment) (g : startup_globals) (h : list startup_event) :
  wpS (init_services cfg scfg wcfg lib)
    (fun o g' out =>
       (o = Undefined -> is_valid_ip (Some (SDM120_SLAVE_IP cfg)) = None) /\
       (o = Returns ESP_OK ->
        g_wifi_netif g' = true /\ forallb succeeded out = true /\
        existsb saw_connected_bit out = true /\
        is_valid_ip (Some (SDM120_SLAVE_IP cfg)) = Some true) /\
       existsb is_modbus_call out = false /\
       existsb (is_task_create TASK_sdm120_monitor) out = false /\
       existsb is_no_netif_log out = false /\
       existsb is_mqtt_client_init out = false) g h.
Proof.
  unfold init_services, slave_ip_address. wp_run.
  all: try (wp_apply wifi_init_and_connect_spec).
  all: wp_results; wp_finish.
Qed.

Lemma master_init_spec (cfg : config) (scfg : startup_config)
    (lib : startup_environment) (g : startup_globals) (h : list startup_event) :
  wpS (master_init cfg scfg lib)
    (fun o g' out =>
       (exists err, o = Returns err) /\
       (o = Returns ESP_OK -> forallb succeeded out = true /\ In (StDelay 500) out) /\
       existsb (is_task_create TASK_sdm120_monitor) out = false /\
       existsb is_mqtt_client_init out = false /\
       (g_wifi_netif g = true -> existsb is_no_netif_log out = false)) g h.
Proof.
  unfold master_init. wp_run; wp_results.
  all: split; [eexists; reflexivity |]; wp_finish.
Qed.

Lemma mqtt_init_spec (cfg : config) (scfg : startup_config)
    (lib : startup_environment) (g : startup_globals) (h : list startup_event) :
  wpS (mqtt_init cfg scfg lib)
    (fun o g' out =>
       (exists err, o = Returns err) /\
       forallb succeeded out = true /\
       existsb (is_task_create TASK_sdm120_monitor) out = false /\
       existsb is_modbus_call out = false /\
       existsb is_no_netif_log out = false /\
       existsb is_mqtt_client_init out = true /\
       ~ In (StDelay 500) out) g h.
Proof.
  unfold mqtt_init. wp_run; wp_results.
  all: split; [eexists; reflexivity |]; wp_finish.
Qed.

Lemma string_length_zero (s : string) :
  (0 <? String.length s)%nat = false <-> s = EmptyString.
Proof. destruct s; cbn; split; intros H; (reflexivity || discriminate H). Qed.

(** * Start-up: what the functions do *)

(** X23.  What [wifi_init_and_connect] returns follows the bits of the one
    wait.  It returns [ESP_OK] exactly when the wait saw
    [WIFI_CONNECTED_BIT], whatever else was set, and exactly then it creates
    the reconnect task, whose creation it does not check.  It aborts exactly
    when one of its checked calls did not give [ESP_OK].  After [ESP_OK] the
    event group and the station interface are set, and every other return
    logs one error line; [ESP_OK] and an abort log none. *)
Theorem wifi_init_and_connect_result (scfg : startup_config) (wcfg : wifi_config)
    (lib : startup_environment) (g : startup_globals) (h : list startup_event) :
  let r := wifi_init_and_connect scfg wcfg lib g h in
  fst (fst r) <> Undefined /\
  (fst (fst r) = Returns ESP_OK <-> existsb saw_connected_bit (snd r) = true) /\
  (fst (fst r) = Returns ESP_OK <->
   existsb (is_task_create TASK_wifi_reconnect) (snd r) = true) /\
  (fst (fst r) = Aborts <-> existsb is_failed_call (snd r) = true) /\
  (fst (fst r) = Returns ESP_OK ->
   g_wifi_event_group (snd (fst r)) = true /\ g_wifi_netif (snd (fst r)) = true) /\
  List.length (filter is_error_log (snd r)) =
    match fst (fst r) with
    | Returns ESP_OK | Aborts | Undefined => 0%nat
    | Returns _ => 1%nat
    end.
Proof.
  cbv zeta. pattern (wifi_init_and_connect scfg wcfg lib g h). apply wpS_run.
  cbn [fst snd]. unfold wifi_init_and_connect. wp_run; wp_results; wp_finish.
Qed.

(** X24.  [master_init] returns [ESP_OK] or [ESP_ERR_INVALID_STATE],
    whatever the library reported, and leaves the globals alone.  It returns
    [ESP_OK] exactly when the station interface was there and every call
    succeeded with a handle, exactly then it waits the 500 ms after the
    start, and every failure logs one error line. *)
Theorem master_init_result (cfg : config) (scfg : startup_config)
    (lib : startup_environment) (g : startup_globals) (h : list startup_event) :
  let r := master_init cfg scfg lib g h in
  (fst (fst r) = Returns ESP_OK \/ fst (fst r) = Returns ESP_ERR_INVALID_STATE) /\
  snd (fst r) = g /\
  (fst (fst r) = Returns ESP_OK <->
   g_wifi_netif g = true /\ forallb succeeded (snd r) = true) /\
  (fst (fst r) = Returns ESP_OK <-> In (StDelay 500) (snd r)) /\
  List.length (filter is_error_log (snd r)) =
    (match fst (fst r) with Returns ESP_OK => 0 | _ => 1 end)%nat.
Proof.
  cbv zeta. pattern (master_init cfg scfg lib g h). apply wpS_run.
  cbn [fst snd]. unfold master_init. wp_run; wp_results; wp_finish.
Qed.

(** X25.  [mqtt_init] never aborts.  It returns [ESP_OK] exactly when it
    logged no error, creates the client once on every path, stores the
    handle whatever happens afterwards (so [mqtt_client] is [NULL] only
    after the line on the failed initialisation), and leaves the other
    globals alone.  The configuration it passes has a Last Will exactly when
    discovery is enabled, a user name exactly when one is configured and a
    password exactly when one is configured, each independent of the
    others. *)
Theorem mqtt_init_result (cfg : config) (scfg : startup_config)
    (lib : startup_environment) (g : startup_globals) (h : list startup_event) :
  let r := mqtt_init cfg scfg lib g h in
  (exists err, fst (fst r) = Returns err) /\
  (fst (fst r) = Returns ESP_OK <-> existsb is_error_log (snd r) = false) /\
  g_wifi_event_group (snd (fst r)) = g_wifi_event_group g /\
  g_wifi_netif (snd (fst r)) = g_wifi_netif g /\
  (g_mqtt_client (snd (fst r)) = false <->
   In (StLog ESP_LOG_ERROR LOG_MQTT_CLIENT_INIT_FAILED) (snd r)) /\
  List.length (filter is_mqtt_client_init (snd r)) = 1%nat /\
  forall mqtt_cfg handle,
    In (StHandle (esp_mqtt_client_init mqtt_cfg) handle) (snd r) ->
    (session_last_will mqtt_cfg = None <-> MQTT_HOME_ASSISTANT_DISCOVERY cfg = false) /\
    (credentials_username mqtt_cfg = None <-> MQTT_USERNAME scfg = EmptyString) /\
    (credentials_authentication_password mqtt_cfg = None <->
     MQTT_PASSWORD scfg = EmptyString).
Proof.
  cbv zeta. pattern (mqtt_init cfg scfg lib g h). apply wpS_run.
  cbn [fst snd]. unfold mqtt_init. wp_run; wp_results.
  all: split; [eexists; reflexivity |].
  all: do 5 (split; [solve [wp_finish] |]).
  all: intros mqtt_cfg handle' Hin.
  all: repeat (destruct Hin as [Hin | Hin]; try discriminate Hin); try contradiction.
  all: injection Hin as Hcfg Hhandle; subst mqtt_cfg.
  all: cbn [session_last_will credentials_username credentials_authentication_password].
  all: destruct (0 <? String.length (MQTT_PASSWORD scfg))%nat eqn:Hpassword.
  all: rewrite <- !string_length_zero.
  all: repeat split; intros; congruence.
Qed.

(** X26.  [init_services] returns [ESP_OK] or [ESP_ERR_INVALID_ARG],
    aborts, or is undefined where [is_valid_ip] is.  The address is looked
    at last: whenever it does not abort, the flash was initialised, the
    wait saw [WIFI_CONNECTED_BIT] and every call before succeeded;
    [ESP_OK] then means a valid address and [ESP_ERR_INVALID_ARG] an
    invalid one. *)
Theorem init_services_result (cfg : config) (scfg : startup_config) (wcfg : wifi_config)
    (lib : startup_environment) (g : startup_globals) (h : list startup_event) :
  let r := init_services cfg scfg wcfg lib g h in
  let valid := is_valid_ip (Some (SDM120_SLAVE_IP cfg)) in
  (fst (fst r) = Returns ESP_OK \/ fst (fst r) = Returns ESP_ERR_INVALID_ARG \/
   fst (fst r) = Aborts \/ fst (fst r) = Undefined) /\
  (fst (fst r) = Returns ESP_OK -> valid = Some true) /\
  (fst (fst r) = Returns ESP_ERR_INVALID_ARG -> valid = Some false) /\
  (fst (fst r) = Undefined -> valid = None) /\
  (fst (fst r) <> Aborts ->
   In (StNvsFlashInit NVS_OK) (snd r) /\
   existsb saw_connected_bit (snd r) = true /\
   forallb succeeded (snd r) = true).
Proof.
  cbv zeta. pattern (init_services cfg scfg wcfg lib g h). apply wpS_run.
  cbn [fst snd]. unfold init_services, slave_ip_address. wp_run.
  all: try (wp_apply wifi_init_and_connect_spec).
  all: wp_results; wp_finish.
Qed.

(** X27.  [app_main] returns exactly when it got to create the monitoring
    task.  It gets there only after every checked call succeeded, the wait
    saw [WIFI_CONNECTED_BIT], the address was valid and the Modbus master
    was started and given its 500 ms; once the MQTT client is being
    initialised it always gets there, whatever MQTT answers.  The run is
    undefined only where [is_valid_ip] is, and the line of [master_init] on
    a missing station interface is never logged. *)
Theorem app_main_monitor_task_gated (cfg : config) (scfg : startup_config)
    (wcfg : wifi_config) (lib : startup_environment) (g : startup_globals)
    (h : list startup_event) :
  let r := app_main cfg scfg wcfg lib g h in
  (fst (fst r) = Returns tt <->
   existsb (is_task_create TASK_sdm120_monitor) (snd r) = true) /\
  (existsb (is_task_create TASK_sdm120_monitor) (snd r) = true ->
   forallb succeeded (snd r) = true /\
   existsb saw_connected_bit (snd r) = true /\
   is_valid_ip (Some (SDM120_SLAVE_IP cfg)) = Some true /\
   In (StDelay 500) (snd r)) /\
  (existsb is_mqtt_client_init (snd r) = true ->
   existsb (is_task_create TASK_sdm120_monitor) (snd r) = true) /\
  (fst (fst r) = Undefined -> is_valid_ip (Some (SDM120_SLAVE_IP cfg)) = None) /\
  existsb is_no_netif_log (snd r) = false.
Proof.
  cbv zeta. pattern (app_main cfg scfg wcfg lib g h). apply wpS_run.
  cbn [fst snd]. unfold app_main. wp_run.
  wp_apply init_services_spec.
  all: try (wp_apply master_init_spec).
  all: try (wp_apply mqtt_init_spec).
  all: wp_results.
  all: wp_finish.
Qed.

(** X28.  With an address that [is_valid_ip] rejects, [app_main] always
    aborts, and before that it neither calls the Modbus library nor
    initialises the MQTT client nor creates the monitoring task. *)
Theorem app_main_invalid_ip_aborts (cfg : config) (scfg : startup_config)
    (wcfg : wifi_config) (lib : startup_environment) (g : startup_globals)
    (h : list startup_event) :
  is_valid_ip (Some (SDM120_SLAVE_IP cfg)) = Some false ->
  let r := app_main cfg scfg wcfg lib g h in
  fst (fst r) = Aborts /\
  existsb is_modbus_call (snd r) = false /\
  existsb is_mqtt_client_init (snd r) = false /\
  existsb (is_task_create TASK_sdm120_monitor) (snd r) = false.
Proof.
  intros Hinvalid.
  cbv zeta. pattern (app_main cfg scfg wcfg lib g h). apply wpS_run.
  cbn [fst snd]. unfold app_main. wp_run.
  wp_apply init_services_spec.
  all: try (wp_apply master_init_spec).
  all: try (wp_apply mqtt_init_spec).
  all: wp_results.
  all: try (rewrite Hinvalid in *).
  all: wp_finish.
Qed.

(** X28 on an address whose last number is 256, with libraries that
    succeed throughout. *)
Lemma app_main_invalid_ip_aborts_witness :
  is_valid_ip (Some (SDM120_SLAVE_IP cfg_invalid_ip)) = Some false /\
  (let r := app_main cfg_invalid_ip startup_config_example wifi_config_example
              startup_all_ok startup_globals_initial [] in
   fst (fst r) = Aborts /\
   existsb is_modbus_call (snd r) = false /\
   existsb is_mqtt_client_init (snd r) = false /\
   existsb (is_task_create TASK_sdm120_monitor) (snd r) = false).
Proof.
  split; [vm_compute; reflexivity |].
  apply (app_main_invalid_ip_aborts cfg_invalid_ip startup_config_example
           wifi_config_example startup_all_ok startup_globals_initial []).
  vm_compute. reflexivity.
Defined.

(** With the example configuration and libraries that succeed throughout,
    [app_main] returns after creating both tasks. *)
Lemma app_main_example :
  let r := app_main cfg_example startup_config_example wifi_config_example
             startup_all_ok startup_globals_initial [] in
  fst (fst r) = Returns tt /\
  snd (fst r) = {| g_wifi_event_group := true; g_wifi_netif := true;
                   g_mqtt_client := true |} /\
  filter (fun e => is_task_create TASK_wifi_reconnect e ||
                   is_task_create TASK_sdm120_monitor e)%bool (snd r) =
    [StTaskCreate TASK_wifi_reconnect true; StTaskCreate TASK_sdm120_monitor true] /\
  List.length (filter is_error_log (snd r)) = 0%nat.
Proof. vm_compute. repeat split. Qed.
